(** * Reservas: room availability and reservation-conflict rules

    A shallow embedding of the business rules of the [reservas] Django
    application ([models.py], [admin.py], [views.py]).

    The relational store is a record of tables (lists of rows in insertion
    order).  A QuerySet is the list of rows it selects; [filter]/[exclude]
    are [List.filter], [exists()] is non-emptiness, [count()] is [length],
    and [first()] applies the model's [Meta.ordering] before taking the
    head.  Code that writes, raises or emits admin messages runs in a small
    state-and-exception monad over the world: as in Python, a raised
    exception keeps the writes made before it. *)

From Stdlib Require Import ZArith List String Ascii Bool Lia.
From Stdlib Require Import DecimalString DecimalPos DecimalZ OrdersEx RelationClasses.
Import ListNotations.

Local Open Scope string_scope.
Local Open Scope list_scope.
Local Open Scope Z_scope.

(** String concatenation, Python's [+] on [str] and f-string splicing. *)
Infix "^^" := String.append (at level 60, right associativity).

(* ================================================================== *)
(** ** Data model ([models.py]) *)
(* ================================================================== *)

(** [Reserva.ESTADO_CHOICES]. *)
Inductive Estado : Type :=
  | pendiente | confirmada | cancelada | rechazada | completada.

Definition Estado_eqb (a b : Estado) : bool :=
  match a, b with
  | pendiente, pendiente | confirmada, confirmada | cancelada, cancelada
  | rechazada, rechazada | completada, completada => true
  | _, _ => false
  end.

(** The lookup [estado__in=['confirmada', 'pendiente']]. *)
Definition estado_in_confirmada_pendiente (e : Estado) : bool :=
  match e with
  | confirmada | pendiente => true
  | _ => false
  end.

(** Dates are day ordinals, date-times are seconds since the epoch. *)
Definition Fecha := Z.

Record Hotel : Type := mkHotel {
  hotel_id : Z;
  hotel_nombre : string;
  cantidad_habitaciones : Z;
  generar_habitaciones_auto : bool
}.

Record Habitacion : Type := mkHabitacion {
  hab_id : Z;
  hab_hotel : Z;               (* hotel_id, ForeignKey(Hotel) *)
  numero : string;
  cantidad_plazas : Z
}.

Record Huesped : Type := mkHuesped {
  hue_id : Z;
  nombre : string;
  email : string;
  telefono : string
}.

(** A [Reserva] instance; [pk] is [None] until the first save. *)
Record Reserva : Type := mkReserva {
  pk : option Z;
  huesped : Z;                 (* huesped_id, ForeignKey(Huesped) *)
  fecha_reserva : Fecha;
  cantidad_personas : Z;
  habitacion : option Z;       (* habitacion_id, null=True *)
  estado : Estado;
  fecha_creacion : Z;          (* auto_now_add *)
  fecha_modificacion : Z;      (* auto_now *)
  notas_admin : string
}.

(** Admin message levels ([django.contrib.messages]). *)
Inductive Nivel : Type := SUCCESS | WARNING | ERROR | INFO.

(** The world: the four tables, the AutoField sequences, the clock, the
    random source read by [random.choice], and the messages emitted. *)
Record Mundo : Type := mkMundo {
  hoteles : list Hotel;
  habitaciones : list Habitacion;
  huespedes : list Huesped;
  reservas : list Reserva;
  sec_habitacion : Z;
  sec_huesped : Z;
  sec_reserva : Z;
  ahora : Z;
  azar : nat -> nat;
  tiradas : nat;
  mensajes : list (Nivel * string)
}.

Definition con_habitaciones (w : Mundo) (l : list Habitacion) (s : Z) : Mundo :=
  mkMundo (hoteles w) l (huespedes w) (reservas w) s (sec_huesped w)
          (sec_reserva w) (ahora w) (azar w) (tiradas w) (mensajes w).

Definition con_huespedes (w : Mundo) (l : list Huesped) (s : Z) : Mundo :=
  mkMundo (hoteles w) (habitaciones w) l (reservas w) (sec_habitacion w) s
          (sec_reserva w) (ahora w) (azar w) (tiradas w) (mensajes w).

Definition con_reservas (w : Mundo) (l : list Reserva) (s : Z) : Mundo :=
  mkMundo (hoteles w) (habitaciones w) (huespedes w) l (sec_habitacion w)
          (sec_huesped w) s (ahora w) (azar w) (tiradas w) (mensajes w).

Definition con_tiradas (w : Mundo) (n : nat) : Mundo :=
  mkMundo (hoteles w) (habitaciones w) (huespedes w) (reservas w)
          (sec_habitacion w) (sec_huesped w) (sec_reserva w) (ahora w)
          (azar w) n (mensajes w).

Definition con_mensaje (w : Mundo) (m : Nivel * string) : Mundo :=
  mkMundo (hoteles w) (habitaciones w) (huespedes w) (reservas w)
          (sec_habitacion w) (sec_huesped w) (sec_reserva w) (ahora w)
          (azar w) (tiradas w) (mensajes w ++ [m]).

(** [timezone.now().date()]. *)
Definition hoy (w : Mundo) : Fecha := ahora w / 86400.

(* ================================================================== *)
(** ** Python values: [str], truthiness, option equality *)
(* ================================================================== *)

(** [str(i)] for an integer. *)
Definition str (i : Z) : string := NilZero.string_of_int (Z.to_int i).

Definition opt_eqb (a b : option Z) : bool :=
  match a, b with
  | Some x, Some y => x =? y
  | None, None => true
  | _, _ => false
  end.

(** Truthiness of an optional integer: [None] and [0] are falsy. *)
Definition verdadero (a : option Z) : bool :=
  match a with
  | Some x => negb (x =? 0)
  | None => false
  end.

(** [qs.exists()]. *)
Definition existe {A : Type} (qs : list A) : bool :=
  match qs with [] => false | _ :: _ => true end.

(* ================================================================== *)
(** ** Exceptions and the world monad *)
(* ================================================================== *)

Inductive Excepcion : Type :=
  | DoesNotExist (modelo : string)
  | MultipleObjectsReturned (modelo : string)
  | ValueError (msg : string)
  | AttributeError (msg : string)
  | IntegrityError (msg : string)
  | Http404 (modelo : string).

(** [str(e)]. *)
Definition Excepcion_str (e : Excepcion) : string :=
  match e with
  | DoesNotExist m => m ^^ " matching query does not exist."
  | MultipleObjectsReturned m => "get() returned more than one " ^^ m
  | ValueError s => s
  | AttributeError s => s
  | IntegrityError s => s
  | Http404 m => "No " ^^ m ^^ " matches the given query."
  end.

Inductive Resultado (A : Type) : Type :=
  | Ok (a : A)
  | Lanza (e : Excepcion).
Arguments Ok {A} a.
Arguments Lanza {A} e.

Definition M (A : Type) : Type := Mundo -> Resultado A * Mundo.

Definition ret {A : Type} (a : A) : M A := fun w => (Ok a, w).

Definition bind {A B : Type} (m : M A) (k : A -> M B) : M B :=
  fun w =>
    match m w with
    | (Ok a, w') => k a w'
    | (Lanza e, w') => (Lanza e, w')
    end.

Definition lanza {A : Type} (e : Excepcion) : M A := fun w => (Lanza e, w).

(** [try: m  except Exception as e: h e]. *)
Definition intenta {A : Type} (m : M A) (h : Excepcion -> M A) : M A :=
  fun w =>
    match m w with
    | (Ok a, w') => (Ok a, w')
    | (Lanza e, w') => h e w'
    end.

(** Read the world / run a read-only query. *)
Definition consulta {A : Type} (q : Mundo -> A) : M A := fun w => (Ok (q w), w).

(** Lift a query that may raise. *)
Definition eleva {A : Type} (q : Mundo -> Resultado A) : M A :=
  fun w => (q w, w).

Declare Scope mundo_scope.
Delimit Scope mundo_scope with mundo.
Notation "x <- m ;; k" := (bind m (fun x => k))
  (at level 61, m at next level, right associativity) : mundo_scope.
Notation "m ;;; k" := (bind m (fun _ => k))
  (at level 61, right associativity) : mundo_scope.

(** [modeladmin.message_user(request, texto, nivel)]. *)
Definition message_user (texto : string) (nivel : Nivel) : M unit :=
  fun w => (Ok tt, con_mensaje w (nivel, texto)).

(** [Model.objects.get(...)] over the rows selected by [p]. *)
Definition get {A : Type} (modelo : string) (p : A -> bool) (tabla : list A)
  : Resultado A :=
  match List.filter p tabla with
  | [] => Lanza (DoesNotExist modelo)
  | [x] => Ok x
  | _ :: _ :: _ => Lanza (MultipleObjectsReturned modelo)
  end.

Definition Hotel_get (i : Z) (w : Mundo) : Resultado Hotel :=
  get "Hotel" (fun h => hotel_id h =? i) (hoteles w).

Definition Habitacion_get (i : Z) (w : Mundo) : Resultado Habitacion :=
  get "Habitacion" (fun h => hab_id h =? i) (habitaciones w).

Definition Huesped_get (i : Z) (w : Mundo) : Resultado Huesped :=
  get "Huesped" (fun h => hue_id h =? i) (huespedes w).

Definition Reserva_get (i : Z) (w : Mundo) : Resultado Reserva :=
  get "Reserva" (fun r => opt_eqb (pk r) (Some i)) (reservas w).

(** [for x in l: cuerpo], threading a local accumulator. *)
Fixpoint para {A S : Type} (l : list A) (s : S) (cuerpo : A -> S -> M S) : M S :=
  match l with
  | [] => ret s
  | x :: l' => bind (cuerpo x s) (fun s' => para l' s' cuerpo)
  end.

(** [range(a, b)]. *)
Definition range (a b : Z) : list Z :=
  map (fun k => a + Z.of_nat k) (seq 0 (Z.to_nat (b - a))).

(* ================================================================== *)
(** ** Orderings ([Meta.ordering]) *)
(* ================================================================== *)

(** Byte-wise order on strings, the order of [ORDER BY] on a CharField. *)
Definition str_leb (a b : string) : bool :=
  match String_as_OT.compare a b with
  | Gt => false
  | _ => true
  end.

Section Ordenar.
Context {A : Type} (leb : A -> A -> bool).

Fixpoint insertar (x : A) (l : list A) : list A :=
  match l with
  | [] => [x]
  | y :: l' => if leb x y then x :: l else y :: insertar x l'
  end.

Definition ordenar (l : list A) : list A := fold_right insertar [] l.
End Ordenar.

(** Name of the hotel a room belongs to (the join behind ordering by the
    foreign key [hotel], whose own ordering is [['nombre']]). *)
Definition hab_hotel_nombre (w : Mundo) (h : Habitacion) : string :=
  match List.filter (fun x => hotel_id x =? hab_hotel h) (hoteles w) with
  | x :: _ => hotel_nombre x
  | [] => ""
  end.

(** [Habitacion.Meta.ordering = ['hotel', 'numero']]. *)
Definition Habitacion_ordering (w : Mundo) (a b : Habitacion) : bool :=
  match String_as_OT.compare (hab_hotel_nombre w a) (hab_hotel_nombre w b) with
  | Lt => true
  | Gt => false
  | Eq => str_leb (numero a) (numero b)
  end.

(** [qs.first()] on a Habitacion queryset. *)
Definition Habitacion_first (w : Mundo) (qs : list Habitacion) : option Habitacion :=
  head (ordenar (Habitacion_ordering w) qs).

(* ================================================================== *)
(** ** [Hotel] and [Habitacion] methods *)
(* ================================================================== *)

(** [hotel.habitacion_set]. *)
Definition habitacion_set (w : Mundo) (hotel : Hotel) : list Habitacion :=
  List.filter (fun h => hab_hotel h =? hotel_id hotel) (habitaciones w).

(** The rows of [Reserva.objects.filter(habitacion=h, fecha_reserva=fecha,
    estado__in=['confirmada', 'pendiente'])]. *)
Definition reservas_de (w : Mundo) (h : Z) (fecha : Fecha) : list Reserva :=
  List.filter (fun r => opt_eqb (habitacion r) (Some h)
                        && (fecha_reserva r =? fecha)
                        && estado_in_confirmada_pendiente (estado r))
              (reservas w).

(** [Habitacion.esta_disponible(self, fecha)]. *)
Definition esta_disponible (w : Mundo) (self : Habitacion) (fecha : Fecha) : bool :=
  negb (existe (reservas_de w (hab_id self) fecha)).

(** The join [habitacion__hotel=hotel] on a reservation row. *)
Definition habitacion__hotel (w : Mundo) (r : Reserva) (hotel : Hotel) : bool :=
  existsb (fun h => opt_eqb (habitacion r) (Some (hab_id h))
                    && (hab_hotel h =? hotel_id hotel))
          (habitaciones w).

(** [Hotel.habitaciones_disponibles(self, fecha=None)]. *)
Definition habitaciones_disponibles (w : Mundo) (self : Hotel) (fecha : option Fecha)
  : list Habitacion :=
  let fecha := match fecha with None => hoy w | Some f => f end in
  let habitaciones_reservadas :=
    map habitacion
        (List.filter (fun r => (fecha_reserva r =? fecha)
                               && estado_in_confirmada_pendiente (estado r)
                               && habitacion__hotel w r self)
                     (reservas w)) in
  List.filter (fun h => negb (existsb (opt_eqb (Some (hab_id h)))
                                      habitaciones_reservadas))
              (habitacion_set w self).

(** [tipos_plazas] of [generar_habitaciones]. *)
Definition tipos_plazas : list Z := [1; 2; 2; 3; 4].

(** [random.choice(l)]: one draw from the world's random source. *)
Definition random_choice (l : list Z) : M Z :=
  fun w =>
    (Ok (nth (Nat.modulo (azar w (tiradas w)) (List.length l)) l 0),
     con_tiradas w (S (tiradas w))).

(** [Habitacion.objects.create(hotel=.., numero=.., cantidad_plazas=..)];
    [unique_together = ['hotel', 'numero']] rejects a duplicate. *)
Definition Habitacion_create (hotel : Hotel) (num : string) (plazas : Z)
  : M Habitacion :=
  fun w =>
    if existsb (fun h => (hab_hotel h =? hotel_id hotel) && String.eqb (numero h) num)
               (habitaciones w)
    then (Lanza (IntegrityError "UNIQUE constraint failed: hotel, numero"), w)
    else
      let h := mkHabitacion (sec_habitacion w) (hotel_id hotel) num plazas in
      (Ok h, con_habitaciones w (habitaciones w ++ [h]) (sec_habitacion w + 1)).

(** [Hotel.generar_habitaciones(self)]. *)
Definition generar_habitaciones (self : Hotel) : M Z :=
  fun w =>
    if existe (habitacion_set w self)
    then (Ok (Z.of_nat (List.length (habitacion_set w self))), w)
    else
      para (range 1 (cantidad_habitaciones self + 1)) 0
           (fun i habitaciones_creadas =>
              bind (random_choice tipos_plazas) (fun plazas =>
              bind (Habitacion_create self (str i) plazas) (fun _ =>
              ret (habitaciones_creadas + 1))))
           w.

(** The [post_save] receiver [crear_habitaciones_al_guardar_hotel]. *)
Definition crear_habitaciones_al_guardar_hotel (instance : Hotel) (created : bool)
  : M unit :=
  if created && generar_habitaciones_auto instance
  then bind (generar_habitaciones instance) (fun _ => ret tt)
  else ret tt.

(* ================================================================== *)
(** ** [Reserva] methods *)
(* ================================================================== *)

Definition con_estado (r : Reserva) (e : Estado) : Reserva :=
  mkReserva (pk r) (huesped r) (fecha_reserva r) (cantidad_personas r)
            (habitacion r) e (fecha_creacion r) (fecha_modificacion r)
            (notas_admin r).

Definition con_habitacion (r : Reserva) (h : option Z) : Reserva :=
  mkReserva (pk r) (huesped r) (fecha_reserva r) (cantidad_personas r)
            h (estado r) (fecha_creacion r) (fecha_modificacion r)
            (notas_admin r).

Definition con_sellos (r : Reserva) (i : option Z) (creada modificada : Z) : Reserva :=
  mkReserva i (huesped r) (fecha_reserva r) (cantidad_personas r)
            (habitacion r) (estado r) creada modificada (notas_admin r).

(** [f'{reserva.id}']. *)
Definition str_id (i : option Z) : string :=
  match i with Some x => str x | None => "None" end.

(** The attribute [reserva.habitacion]: [None] for a null key, else the
    referenced row. *)
Definition Reserva_habitacion (r : Reserva) : M (option Habitacion) :=
  match habitacion r with
  | None => ret None
  | Some i => bind (eleva (Habitacion_get i)) (fun h => ret (Some h))
  end.

(** The attribute [reserva.huesped]. *)
Definition Reserva_huesped (r : Reserva) : M Huesped :=
  eleva (Huesped_get (huesped r)).

(** [models.Model.save]: UPDATE the row with this primary key, INSERT when
    there is none; [auto_now]/[auto_now_add] stamp the clock. *)
Definition Model_save (self : Reserva) : M Reserva :=
  fun w =>
    match pk self with
    | Some i =>
        if existsb (fun x => opt_eqb (pk x) (Some i)) (reservas w)
        then
          let r := con_sellos self (pk self) (fecha_creacion self) (ahora w) in
          (Ok r,
           con_reservas w
             (map (fun x => if opt_eqb (pk x) (Some i) then r else x) (reservas w))
             (sec_reserva w))
        else
          let r := con_sellos self (pk self) (ahora w) (ahora w) in
          (Ok r, con_reservas w (reservas w ++ [r]) (sec_reserva w))
    | None =>
        let r := con_sellos self (Some (sec_reserva w)) (ahora w) (ahora w) in
        (Ok r, con_reservas w (reservas w ++ [r]) (sec_reserva w + 1))
    end.

(** The error raised by [Reserva.save]. *)
Definition conflicto : Excepcion :=
  ValueError "La habitación ya está reservada para esta fecha".

(** The queryset [reservas_conflictivas] of [Reserva.save]. *)
Definition reservas_conflictivas (w : Mundo) (self : Reserva) (h : Z) : list Reserva :=
  List.filter (fun r => negb (opt_eqb (pk r) (pk self)))
              (reservas_de w h (fecha_reserva self)).

(** [Reserva.save(self)].  The test [self.estado == 'confirmada' and
    self.pk and self.habitacion] is truthiness: a key that is [None] or
    0 is falsy, and [self.habitacion] is falsy exactly when the foreign
    key is null. *)
Definition Reserva_save (self : Reserva) : M Reserva :=
  fun w =>
    match habitacion self with
    | Some h =>
        if Estado_eqb (estado self) confirmada && verdadero (pk self)
        then
          if existe (reservas_conflictivas w self h)
          then (Lanza conflicto, w)
          else Model_save self w
        else Model_save self w
    | None => Model_save self w
    end.

(** [Reserva.objects.create(huesped=.., fecha_reserva=.., cantidad_personas=..,
    habitacion=.., estado=..)]. *)
Definition Reserva_create (hu : Huesped) (fecha : Fecha) (cantidad : Z)
    (hab : Habitacion) (e : Estado) : M Reserva :=
  Reserva_save (mkReserva None (hue_id hu) fecha cantidad (Some (hab_id hab)) e 0 0 "").

(** [Reserva.puede_confirmar(self)]. *)
Definition puede_confirmar (self : Reserva) : M bool :=
  bind (Reserva_habitacion self) (fun hab =>
  match hab with
  | None => ret false
  | Some h =>
      consulta (fun w => esta_disponible w h (fecha_reserva self)
                         && Estado_eqb (estado self) pendiente)
  end).

(** [Reserva.puede_cancelar(self)]. *)
Definition puede_cancelar (self : Reserva) : bool :=
  match estado self with
  | pendiente | confirmada => true
  | _ => false
  end.

(** [Reserva.obtener_alternativas(self)]. *)
Definition obtener_alternativas (self : Reserva) : M (list Habitacion) :=
  bind (Reserva_habitacion self) (fun hab =>
  match hab with
  | None => ret []
  | Some h =>
      bind (eleva (Hotel_get (hab_hotel h))) (fun hotel =>
      consulta (fun w =>
        List.filter (fun x => negb (hab_id x =? hab_id h))
          (List.filter (fun x => cantidad_plazas x >=? cantidad_personas self)
             (habitaciones_disponibles w hotel (Some (fecha_reserva self))))))
  end).

(* ================================================================== *)
(** ** Convenience functions of [models.py] *)
(* ================================================================== *)

(** [crear_reserva_desde_admin(huesped_id, fecha_reserva, cantidad_personas,
    hotel_id, habitacion_id=None)]. *)
Definition crear_reserva_desde_admin (huesped_id : Z) (fecha : Fecha)
    (cantidad : Z) (hotel_id : Z) (habitacion_id : option Z)
  : M (option Reserva * string) :=
  let verificar_y_crear (hu : Huesped) (hab : Habitacion) : M (option Reserva * string) :=
    bind (consulta (fun w => esta_disponible w hab fecha)) (fun disponible =>
    if negb disponible
    then ret (None, "La habitación seleccionada no está disponible")
    else
      bind (Reserva_create hu fecha cantidad hab confirmada) (fun reserva =>
      ret (Some reserva, "Reserva creada exitosamente"))) in
  let buscar_automaticamente (hu : Huesped) (hotel : Hotel) : M (option Reserva * string) :=
    bind (consulta (fun w =>
            List.filter (fun x => cantidad_plazas x >=? cantidad)
                        (habitaciones_disponibles w hotel (Some fecha))))
         (fun disponibles =>
    if negb (existe disponibles)
    then ret (None, "No hay habitaciones disponibles")
    else
      bind (consulta (fun w => Habitacion_first w disponibles)) (fun primera =>
      match primera with
      | Some hab => verificar_y_crear hu hab
      | None => lanza (AttributeError
                  "'NoneType' object has no attribute 'esta_disponible'")
      end)) in
  intenta
    (bind (eleva (Huesped_get huesped_id)) (fun hu =>
     bind (eleva (Hotel_get hotel_id)) (fun hotel =>
     match habitacion_id with
     | Some i =>
         if verdadero habitacion_id
         then bind (eleva (Habitacion_get i)) (verificar_y_crear hu)
         else buscar_automaticamente hu hotel
     | None => buscar_automaticamente hu hotel
     end)))
    (fun e => ret (None, "Error: " ^^ Excepcion_str e)).

(** [cambiar_habitacion_reserva(reserva_id, nueva_habitacion_id)]. *)
Definition cambiar_habitacion_reserva (reserva_id nueva_habitacion_id : Z)
  : M (bool * string) :=
  intenta
    (bind (eleva (Reserva_get reserva_id)) (fun reserva =>
     bind (eleva (Habitacion_get nueva_habitacion_id)) (fun nueva_habitacion =>
     bind (consulta (fun w =>
             esta_disponible w nueva_habitacion (fecha_reserva reserva)))
          (fun disponible =>
     if negb disponible
     then ret (false, "La nueva habitación no está disponible")
     else if cantidad_plazas nueva_habitacion <? cantidad_personas reserva
     then ret (false, "La habitación no tiene capacidad suficiente")
     else
       bind (Reserva_save (con_habitacion reserva (Some (hab_id nueva_habitacion))))
            (fun _ =>
       ret (true, "Habitación cambiada exitosamente"))))))
    (fun e => ret (false, "Error: " ^^ Excepcion_str e)).

(** The body of the loop of [confirmar_reserva_masiva], for one id, on
    the pair [(exitosas, fallidas)]. *)
Definition confirmar_una (reserva_id : Z) (acc : Z * list string)
  : M (Z * list string) :=
  let '(exitosas, fallidas) := acc in
  intenta
    (bind (eleva (Reserva_get reserva_id)) (fun reserva =>
     bind (puede_confirmar reserva) (fun puede =>
     if puede
     then
       bind (Reserva_save (con_estado reserva confirmada)) (fun _ =>
       ret (exitosas + 1, fallidas))
     else
       ret (exitosas,
            fallidas ++ ["Reserva #" ^^ str reserva_id
                         ^^ " no se puede confirmar"]))))
    (fun e =>
       ret (exitosas,
            fallidas ++ ["Reserva #" ^^ str reserva_id ^^ ": "
                         ^^ Excepcion_str e])).

(** [confirmar_reserva_masiva(reserva_ids)]: the pair
    [(exitosas, fallidas)]. *)
Definition confirmar_reserva_masiva (reserva_ids : list Z) : M (Z * list string) :=
  para reserva_ids (0, []) confirmar_una.

(* ================================================================== *)
(** ** Admin actions and views ([admin.py]) *)
(* ================================================================== *)

Inductive Respuesta : Type :=
  | Redirect (nombre_url : string) (arg : option Z)
  | Render (plantilla : string) (contexto : list Habitacion).

(** The action [confirmar_reservas(modeladmin, request, queryset)]; the
    queryset is evaluated once, when the loop starts. *)
Definition confirmar_reservas (queryset : Mundo -> list Reserva) : M unit :=
  bind (consulta queryset) (fun filas =>
  para filas tt
    (fun reserva _ =>
       if negb (Estado_eqb (estado reserva) confirmada)
       then
         bind (Reserva_save (con_estado reserva confirmada)) (fun reserva =>
         bind (Reserva_huesped reserva) (fun hu =>
         message_user ("Reserva #" ^^ str_id (pk reserva) ^^ " confirmada para "
                       ^^ nombre hu) SUCCESS))
       else ret tt)).

(** The action [cancelar_reservas(modeladmin, request, queryset)]. *)
Definition cancelar_reservas (queryset : Mundo -> list Reserva) : M unit :=
  bind (consulta queryset) (fun filas =>
  para filas tt
    (fun reserva _ =>
       if negb (Estado_eqb (estado reserva) cancelada)
       then
         bind (Reserva_save (con_estado reserva cancelada)) (fun reserva =>
         message_user ("Reserva #" ^^ str_id (pk reserva) ^^ " cancelada") WARNING)
       else ret tt)).

(** [ReservaAdmin.confirmar_reserva(self, request, reserva_id)].  In the
    message texts a date is printed as its ordinal. *)
Definition confirmar_reserva (reserva_id : Z) : M Respuesta :=
  bind (eleva (Reserva_get reserva_id)) (fun reserva =>
  bind (Reserva_habitacion reserva) (fun hab =>
  match hab with
  | None => lanza (AttributeError
              "'NoneType' object has no attribute 'esta_disponible'")
  | Some h =>
      bind (consulta (fun w => esta_disponible w h (fecha_reserva reserva)))
           (fun disponible =>
      if negb disponible
      then
        bind (eleva (Hotel_get (hab_hotel h))) (fun hotel =>
        bind (consulta (fun w =>
                List.filter
                  (fun x => cantidad_plazas x >=? cantidad_personas reserva)
                  (habitaciones_disponibles w hotel (Some (fecha_reserva reserva)))))
             (fun habitaciones_alternativas =>
        if existe habitaciones_alternativas
        then
          bind (message_user
                  ("La habitación " ^^ numero h ^^ " no está disponible. Hay "
                   ^^ str (Z.of_nat (List.length habitaciones_alternativas))
                   ^^ " alternativas.") WARNING) (fun _ =>
          ret (Redirect "admin:reserva_cambiar_habitacion" (pk reserva)))
        else
          bind (message_user
                  ("No hay habitaciones disponibles en " ^^ hotel_nombre hotel
                   ^^ " para el " ^^ str (fecha_reserva reserva)) ERROR) (fun _ =>
          ret (Redirect "admin:reservas_reserva_change" (Some reserva_id)))))
      else
        bind (Reserva_save (con_estado reserva confirmada)) (fun reserva =>
        bind (Reserva_huesped reserva) (fun hu =>
        bind (message_user
                ("✅ Reserva #" ^^ str_id (pk reserva) ^^ " confirmada para "
                 ^^ nombre hu) SUCCESS) (fun _ =>
        ret (Redirect "admin:reservas_reserva_changelist" None)))))
  end)).

(** [ReservaAdmin.cancelar_reserva(self, request, reserva_id)]. *)
Definition cancelar_reserva (reserva_id : Z) : M Respuesta :=
  bind (eleva (Reserva_get reserva_id)) (fun reserva =>
  bind (Reserva_save (con_estado reserva cancelada)) (fun reserva =>
  bind (message_user ("❌ Reserva #" ^^ str_id (pk reserva) ^^ " cancelada")
                     WARNING) (fun _ =>
  ret (Redirect "admin:reservas_reserva_changelist" None)))).

Inductive Metodo : Type := GET | POST.

(** [ReservaAdmin.cambiar_habitacion(self, request, reserva_id)];
    [post_habitacion_id] is [request.POST.get('habitacion_id')]. *)
Definition cambiar_habitacion (metodo : Metodo) (post_habitacion_id : option Z)
    (reserva_id : Z) : M Respuesta :=
  bind (eleva (Reserva_get reserva_id)) (fun reserva =>
  bind (Reserva_habitacion reserva) (fun hab =>
  match hab with
  | None =>
      bind (message_user "La reserva no tiene un hotel asignado" ERROR) (fun _ =>
      ret (Redirect "admin:reservas_reserva_change" (Some reserva_id)))
  | Some h =>
      bind (eleva (Hotel_get (hab_hotel h))) (fun hotel =>
      bind (consulta (fun w =>
              List.filter
                (fun x => cantidad_plazas x >=? cantidad_personas reserva)
                (habitaciones_disponibles w hotel (Some (fecha_reserva reserva)))))
           (fun disponibles =>
      match metodo, post_habitacion_id with
      | POST, Some nueva_habitacion_id =>
          bind (eleva (Habitacion_get nueva_habitacion_id)) (fun nueva_habitacion =>
          bind (Reserva_save (con_habitacion reserva (Some (hab_id nueva_habitacion))))
               (fun _ =>
          bind (message_user ("🔄 Habitación cambiada a " ^^ numero nueva_habitacion)
                             SUCCESS) (fun _ =>
          ret (Redirect "admin:reservas_reserva_change" (Some reserva_id)))))
      | _, _ =>
          ret (Render "admin/reservas/cambiar_habitacion.html" disponibles)
      end))
  end)).

(* ================================================================== *)
(** ** Guest-facing view ([views.py]) *)
(* ================================================================== *)

(** The reservation keys of [request.session]. *)
Record Sesion : Type := mkSesion {
  ses_fecha_reserva : option Fecha;
  ses_cantidad_personas : option Z;
  ses_hotel_id : option Z;
  ses_habitacion_id : option Z
}.

Definition sesion_limpia : Sesion := mkSesion None None None None.

(** The guest fields of [request.POST]. *)
Record Formulario : Type := mkFormulario {
  post_nombre : string;
  post_email : string;
  post_telefono : string
}.

(** [get_object_or_404(Model, id=i)]. *)
Definition get_object_or_404 {A : Type} (modelo : string)
    (q : Mundo -> Resultado A) : M A :=
  fun w =>
    match q w with
    | Lanza (DoesNotExist _) => (Lanza (Http404 modelo), w)
    | r => (r, w)
    end.

(** [Huesped.objects.get_or_create(email=em, defaults={'nombre': nom,
    'telefono': tel})]. *)
Definition Huesped_get_or_create (em nom tel : string) : M (Huesped * bool) :=
  fun w =>
    match get "Huesped" (fun h => String.eqb (email h) em) (huespedes w) with
    | Ok h => (Ok (h, false), w)
    | Lanza (DoesNotExist _) =>
        let h := mkHuesped (sec_huesped w) nom em tel in
        (Ok (h, true), con_huespedes w (huespedes w ++ [h]) (sec_huesped w + 1))
    | Lanza e => (Lanza e, w)
    end.

(** [huesped.save()] on a fetched row: UPDATE by primary key. *)
Definition Huesped_save (self : Huesped) : M unit :=
  fun w =>
    (Ok tt,
     con_huespedes w
       (map (fun x => if hue_id x =? hue_id self then self else x) (huespedes w))
       (sec_huesped w)).

(** Lines 161-187 of [completar_reserva]: resolve the guest by email. *)
Definition resolver_huesped (f : Formulario) : M Huesped :=
  bind (Huesped_get_or_create (post_email f) (post_nombre f) (post_telefono f))
       (fun '(hu, created) =>
  if negb created
  then
    if negb (String.eqb (nombre hu) (post_nombre f))
       || negb (String.eqb (telefono hu) (post_telefono f))
    then
      let hu' := mkHuesped (hue_id hu) (post_nombre f) (email hu) (post_telefono f) in
      bind (Huesped_save hu') (fun _ => ret hu')
    else ret hu
  else ret hu).

(** [completar_reserva(request)]: the response and the session left. *)
Definition completar_reserva (ses : Sesion) (metodo : Metodo) (f : Formulario)
  : M (Respuesta * Sesion) :=
  let incompleta : M (Respuesta * Sesion) :=
    bind (message_user "Información de reserva incompleta." ERROR) (fun _ =>
    ret (Redirect "home" None, ses)) in
  match ses_fecha_reserva ses, ses_cantidad_personas ses,
        ses_hotel_id ses, ses_habitacion_id ses with
  | Some fecha_obj, Some cantidad, Some hotel_id, Some habitacion_id =>
      if verdadero (Some cantidad) && verdadero (Some hotel_id)
      then
        bind (get_object_or_404 "Hotel" (Hotel_get hotel_id)) (fun hotel =>
        bind (get_object_or_404 "Habitacion" (Habitacion_get habitacion_id))
             (fun hab =>
        match metodo with
        | POST =>
            bind (resolver_huesped f) (fun hu =>
            bind (Reserva_create hu fecha_obj cantidad hab pendiente)
                 (fun reserva =>
            bind (message_user
                    ("✅ Reserva creada exitosamente. Número de reserva: #"
                     ^^ str_id (pk reserva)) SUCCESS) (fun _ =>
            ret (Redirect "detalle_reserva" (pk reserva), sesion_limpia))))
        | GET => ret (Render "completar_reserva.html" [hab], ses)
        end))
      else incompleta
  | _, _, _, _ => incompleta
  end.

(* ================================================================== *)
(** ** The room-date exclusivity invariant *)
(* ================================================================== *)

(** At most one reservation with status pendiente or confirmada for every
    room and date. *)
Definition exclusividad (w : Mundo) : Prop :=
  forall (h : Z) (fecha : Fecha), (List.length (reservas_de w h fecha) <= 1)%nat.

(** The same, decided over the rooms and dates that occur in the table. *)
Definition exclusividadb (w : Mundo) : bool :=
  forallb (fun r =>
             match habitacion r with
             | Some h => Nat.leb (List.length (reservas_de w h (fecha_reserva r))) 1
             | None => true
             end)
          (reservas w).

(** The ids of stored pendiente rows that have a room. *)
Definition pendiente_con_habitacion (w : Mundo) (i : Z) : Prop :=
  exists r, In r (reservas w) /\ pk r = Some i /\ estado r = pendiente
            /\ habitacion r <> None.

(* ================================================================== *)
(** ** Example worlds *)
(* ================================================================== *)

Definition hotel_sol : Hotel := mkHotel 1 "Sol" 5 true.

Definition mundo_sol : Mundo :=
  mkMundo [hotel_sol] [] [] [] 1 1 1 8640005 (fun k => k) 0 [].

Definition hab_101 : Habitacion := mkHabitacion 1 1 "1" 2.
Definition hab_102 : Habitacion := mkHabitacion 2 1 "2" 1.
Definition ana : Huesped := mkHuesped 1 "Ana" "ana@example.org" "555-0101".
Definition luis : Huesped := mkHuesped 2 "Luis" "luis@example.org" "555-0102".

(** Reservation 1 was cancelled; reservation 2 then took the room. *)
Definition reserva_cancelada : Reserva :=
  mkReserva (Some 1) 1 200 2 (Some 1) cancelada 8640000 8640001 "".
Definition reserva_confirmada : Reserva :=
  mkReserva (Some 2) 2 200 2 (Some 1) confirmada 8640002 8640003 "".

Definition mundo_ocupado : Mundo :=
  mkMundo [hotel_sol] [hab_101; hab_102] [ana; luis]
          [reserva_cancelada; reserva_confirmada] 3 3 3 8640005 (fun k => k) 0 [].

(** Room 2 (one seat) is taken on day 200; reservation 1 is for two. *)
Definition reserva_doble : Reserva :=
  mkReserva (Some 1) 1 200 2 (Some 1) confirmada 8640000 8640001 "".
Definition reserva_simple : Reserva :=
  mkReserva (Some 2) 2 200 1 (Some 2) pendiente 8640002 8640003 "".

Definition mundo_lleno : Mundo :=
  mkMundo [hotel_sol] [hab_101; hab_102] [ana; luis]
          [reserva_doble; reserva_simple] 3 3 3 8640005 (fun k => k) 0 [].

(** The same hotel with room 2 free. *)
Definition mundo_libre : Mundo :=
  mkMundo [hotel_sol] [hab_101; hab_102] [ana; luis]
          [reserva_doble] 3 3 2 8640005 (fun k => k) 0 [].

(** A hotel whose room "1" is larger than its room "2"; nothing booked. *)
Definition hab_grande : Habitacion := mkHabitacion 1 1 "1" 4.
Definition hab_chica : Habitacion := mkHabitacion 2 1 "2" 2.

Definition mundo_capacidades : Mundo :=
  mkMundo [hotel_sol] [hab_grande; hab_chica] [ana] [] 3 2 1 8640005
          (fun k => k) 0 [].

(** A complete session for room 1 of the hotel on day 200, party of two. *)
Definition sesion_ana : Sesion := mkSesion (Some 200) (Some 2) (Some 1) (Some 1).

Definition formulario_ana : Formulario :=
  mkFormulario "Ana Maria" "ana@example.org" "555-0199".
Definition formulario_luis : Formulario :=
  mkFormulario "Luis" "luis@example.org" "555-0102".

(** Rooms generated, one known guest, nothing booked. *)
Definition mundo_abierto : Mundo :=
  mkMundo [hotel_sol] [hab_101; hab_102] [ana] [] 3 2 1 8640005 (fun k => k) 0 [].

(** One pendiente reservation, alone on its room and date. *)
Definition reserva_pendiente : Reserva :=
  mkReserva (Some 1) 1 200 2 (Some 1) pendiente 8640000 8640000 "".

Definition mundo_pendiente : Mundo :=
  mkMundo [hotel_sol] [hab_101; hab_102] [ana] [reserva_pendiente]
          3 2 2 8640005 (fun k => k) 0 [].

(** One completada reservation. *)
Definition reserva_completada : Reserva :=
  mkReserva (Some 1) 1 200 2 (Some 1) completada 8640000 8640000 "".

Definition mundo_completada : Mundo :=
  mkMundo [hotel_sol] [hab_101; hab_102] [ana] [reserva_completada]
          3 2 2 8640005 (fun k => k) 0 [].

(* ================================================================== *)
(** ** Well-formed stores and the checked operations *)
(* ================================================================== *)

(** Primary keys come from the AutoField sequence: stored reservations
    have distinct positive keys, below the next value of the sequence. *)
Definition claves_validas (w : Mundo) : Prop :=
  0 < sec_reserva w
  /\ NoDup (map pk (reservas w))
  /\ forall r, In r (reservas w) ->
               exists i, pk r = Some i /\ 0 < i < sec_reserva w.

Definition invariante (w : Mundo) : Prop :=
  claves_validas w /\ exclusividad w.

(** The invariant, together with the presence of the keys [K] (the keys of
    rows fetched earlier). *)
Definition con_claves (K : list (option Z)) (w : Mundo) : Prop :=
  invariante w /\ incl K (map pk (reservas w)).

(** One call of an operation that checks availability before it writes a
    room and date into an active status, or that only leaves one. *)
Inductive paso (w : Mundo) : Mundo -> Prop :=
  | paso_crear_reserva_desde_admin huesped_id fecha cantidad hotel_id_ habitacion_id :
      paso w (snd (crear_reserva_desde_admin huesped_id fecha cantidad hotel_id_
                                             habitacion_id w))
  | paso_cambiar_habitacion_reserva reserva_id nueva_habitacion_id :
      paso w (snd (cambiar_habitacion_reserva reserva_id nueva_habitacion_id w))
  | paso_confirmar_reserva reserva_id :
      paso w (snd (confirmar_reserva reserva_id w))
  | paso_confirmar_reservas (queryset : Mundo -> list Reserva) :
      (forall w0, incl (queryset w0) (reservas w0)) ->
      paso w (snd (confirmar_reservas queryset w))
  | paso_confirmar_reserva_masiva reserva_ids :
      paso w (snd (confirmar_reserva_masiva reserva_ids w))
  | paso_cancelar_reserva reserva_id :
      paso w (snd (cancelar_reserva reserva_id w))
  | paso_cancelar_reservas (queryset : Mundo -> list Reserva) :
      (forall w0, incl (queryset w0) (reservas w0)) ->
      paso w (snd (cancelar_reservas queryset w)).

Inductive pasos (w : Mundo) : Mundo -> Prop :=
  | pasos_nada : pasos w w
  | pasos_mas w1 w2 : pasos w w1 -> paso w1 w2 -> pasos w w2.

From Stdlib Require Import Sorted Permutation.

(* ================================================================== *)
(** ** Derived queries of [Reserva] *)
(* ================================================================== *)

(** [Reserva.dias_restantes(self)]. *)
Definition dias_restantes (w : Mundo) (self : Reserva) : Z :=
  fecha_reserva self - hoy w.

(** [Reserva.esta_proxima(self)]: [0 <= self.dias_restantes() <= 7]. *)
Definition esta_proxima (w : Mundo) (self : Reserva) : bool :=
  (0 <=? dias_restantes w self) && (dias_restantes w self <=? 7).

(** [Reserva.esta_pasada(self)]. *)
Definition esta_pasada (w : Mundo) (self : Reserva) : bool :=
  dias_restantes w self <? 0.

(** [Reserva.total_estimado(self)]. *)
Definition total_estimado (self : Reserva) : M Z :=
  bind (Reserva_habitacion self) (fun hab =>
  match hab with
  | Some h => ret (cantidad_plazas h * 50)
  | None => ret 0
  end).

(** The property [reserva_prioridad], attached as [Reserva.prioridad]. *)
Definition reserva_prioridad (w : Mundo) (self : Reserva) : Z :=
  if esta_pasada w self then 0
  else if dias_restantes w self =? 0 then 3
  else if dias_restantes w self <=? 2 then 2
  else if dias_restantes w self <=? 7 then 1
  else 0.

(* ================================================================== *)
(** ** Module-level queries of [models.py] *)
(* ================================================================== *)

(** [get_reservas_pendientes_count()]. *)
Definition get_reservas_pendientes_count (w : Mundo) : Z :=
  Z.of_nat (List.length
              (List.filter (fun r => Estado_eqb (estado r) pendiente) (reservas w))).

(** [get_reservas_hoy()]. *)
Definition get_reservas_hoy (w : Mundo) : list Reserva :=
  let hoy := hoy w in
  List.filter (fun r => (fecha_reserva r =? hoy) && Estado_eqb (estado r) confirmada)
              (reservas w).

(** [get_reservas_proximas()]; [fecha_reserva__range] is inclusive. *)
Definition get_reservas_proximas (w : Mundo) : list Reserva :=
  let hoy := hoy w in
  let proxima_semana := hoy + 7 in
  List.filter (fun r => (hoy <=? fecha_reserva r) && (fecha_reserva r <=? proxima_semana)
                        && Estado_eqb (estado r) confirmada)
              (reservas w).

(** SQL's [x NOT IN (subquery)]: with a NULL among the values of the
    subquery the test is never true. *)
Definition sql_not_in (x : Z) (valores : list (option Z)) : bool :=
  negb (existsb (opt_eqb (Some x)) valores)
  && negb (existsb (opt_eqb None) valores).

(** [get_habitaciones_sin_reservas(fecha=None)]. *)
Definition get_habitaciones_sin_reservas (w : Mundo) (fecha : option Fecha)
  : list Habitacion :=
  let fecha := match fecha with None => hoy w | Some f => f end in
  let habitaciones_reservadas :=
    map habitacion
        (List.filter (fun r => (fecha_reserva r =? fecha)
                               && estado_in_confirmada_pendiente (estado r))
                     (reservas w)) in
  List.filter (fun h => sql_not_in (hab_id h) habitaciones_reservadas)
              (habitaciones w).

Definition Hotel_eq_dec (a b : Hotel) : {a = b} + {a <> b}.
Proof.
  decide equality; [apply bool_dec|apply Z.eq_dec|apply string_dec|apply Z.eq_dec].
Defined.

(** [get_hoteles_con_reservas_pendientes()]: the join of hotels, their
    rooms and the pendiente reservations of those rooms, made distinct. *)
Definition get_hoteles_con_reservas_pendientes (w : Mundo) : list Hotel :=
  nodup Hotel_eq_dec
    (flat_map
       (fun h =>
          flat_map
            (fun hab =>
               map (fun _ => h)
                   (List.filter (fun r => opt_eqb (habitacion r) (Some (hab_id hab))
                                          && Estado_eqb (estado r) pendiente)
                                (reservas w)))
            (habitacion_set w h))
       (hoteles w)).

(* ================================================================== *)
(** ** More methods of [Hotel], [Habitacion] and [Huesped] *)
(* ================================================================== *)

(** [Hotel.reservas_pendientes_hotel(self)]: [reservas_ids] comes from the
    outer join of the hotel's rooms with their reservations, so a room
    without reservations contributes [None]. *)
Definition reservas_pendientes_hotel (w : Mundo) (self : Hotel) : list Reserva :=
  let reservas_ids :=
    flat_map
      (fun hab =>
         match List.filter (fun r => opt_eqb (habitacion r) (Some (hab_id hab)))
                           (reservas w) with
         | [] => [None]
         | filas => map pk filas
         end)
      (habitacion_set w self) in
  List.filter (fun r => match pk r with
                        | Some i => existsb (opt_eqb (Some i)) reservas_ids
                        | None => false
                        end
                        && Estado_eqb (estado r) pendiente)
              (reservas w).

(** [Hotel.reservas_pendientes(self)]. *)
Definition Hotel_reservas_pendientes (w : Mundo) (self : Hotel) : list Reserva :=
  reservas_pendientes_hotel w self.

(** [Hotel.habitaciones_count(self)]. *)
Definition habitaciones_count (w : Mundo) (self : Hotel) : Z :=
  Z.of_nat (List.length (habitacion_set w self)).

(** [order_by('fecha_reserva')] and [order_by('-fecha_reserva')]. *)
Definition por_fecha (a b : Reserva) : bool := fecha_reserva a <=? fecha_reserva b.
Definition por_fecha_desc (a b : Reserva) : bool := fecha_reserva b <=? fecha_reserva a.

(** [Hotel.proximas_reservas(self)]. *)
Definition Hotel_proximas_reservas (w : Mundo) (self : Hotel) : list Reserva :=
  ordenar por_fecha
    (List.filter (fun r => habitacion__hotel w r self && (hoy w <=? fecha_reserva r))
                 (reservas w)).

(** [habitacion.reserva_set]. *)
Definition Habitacion_reserva_set (w : Mundo) (self : Habitacion) : list Reserva :=
  List.filter (fun r => opt_eqb (habitacion r) (Some (hab_id self))) (reservas w).

(** [Habitacion.proximas_reservas(self)]. *)
Definition Habitacion_proximas_reservas (w : Mundo) (self : Habitacion) : list Reserva :=
  ordenar por_fecha
    (List.filter (fun r => hoy w <=? fecha_reserva r) (Habitacion_reserva_set w self)).

(** [Habitacion.reservas_pendientes(self)]. *)
Definition Habitacion_reservas_pendientes (w : Mundo) (self : Habitacion) : list Reserva :=
  List.filter (fun r => Estado_eqb (estado r) pendiente) (Habitacion_reserva_set w self).

(** [Habitacion.reservas_count(self)]. *)
Definition Habitacion_reservas_count (w : Mundo) (self : Habitacion) : Z :=
  Z.of_nat (List.length (Habitacion_reserva_set w self)).

(** [Habitacion.ultima_reserva(self)]. *)
Definition Habitacion_ultima_reserva (w : Mundo) (self : Habitacion) : option Reserva :=
  head (ordenar por_fecha_desc (Habitacion_reserva_set w self)).

(** [huesped.reserva_set]. *)
Definition Huesped_reserva_set (w : Mundo) (self : Huesped) : list Reserva :=
  List.filter (fun r => huesped r =? hue_id self) (reservas w).

(** [Huesped.reservas_activas(self)]. *)
Definition reservas_activas (w : Mundo) (self : Huesped) : list Reserva :=
  List.filter (fun r => (hoy w <=? fecha_reserva r)
                        && estado_in_confirmada_pendiente (estado r))
              (Huesped_reserva_set w self).

(** [Huesped.historial_reservas(self)]. *)
Definition historial_reservas (w : Mundo) (self : Huesped) : list Reserva :=
  ordenar por_fecha_desc (Huesped_reserva_set w self).

(** [Huesped.reservas_count(self)]. *)
Definition Huesped_reservas_count (w : Mundo) (self : Huesped) : Z :=
  Z.of_nat (List.length (Huesped_reserva_set w self)).

(** [Huesped.ultima_reserva(self)]. *)
Definition Huesped_ultima_reserva (w : Mundo) (self : Huesped) : option Reserva :=
  head (ordenar por_fecha_desc (Huesped_reserva_set w self)).

(** [Huesped.tiene_reservas_pendientes(self)]. *)
Definition tiene_reservas_pendientes (w : Mundo) (self : Huesped) : bool :=
  existe (List.filter (fun r => Estado_eqb (estado r) pendiente)
                      (Huesped_reserva_set w self)).

(* ================================================================== *)
(** ** Room generation from the admin *)
(* ================================================================== *)

(** [HotelAdmin.generar_habitaciones_action(self, request, queryset)]. *)
Definition generar_habitaciones_action (queryset : Mundo -> list Hotel) : M unit :=
  bind (consulta queryset) (fun filas =>
  para filas tt
    (fun hotel _ =>
       if generar_habitaciones_auto hotel
       then
         bind (generar_habitaciones hotel) (fun count =>
         message_user ("Generadas " ^^ str count ^^ " habitaciones para "
                       ^^ hotel_nombre hotel) SUCCESS)
       else ret tt)).

(** The world after [nuevas] rooms were created, one draw each. *)
Definition con_nuevas_habitaciones (w : Mundo) (nuevas : list Habitacion) : Mundo :=
  mkMundo (hoteles w) (habitaciones w ++ nuevas) (huespedes w) (reservas w)
          (sec_habitacion w + Z.of_nat (List.length nuevas)) (sec_huesped w)
          (sec_reserva w) (ahora w) (azar w)
          (tiradas w + List.length nuevas)%nat (mensajes w).

(** A hotel for which [generar_habitaciones] has nothing left to create. *)
Definition generado (w : Mundo) (h : Hotel) : Prop :=
  habitacion_set w h <> [] \/ cantidad_habitaciones h <= 0.

(* ================================================================== *)
(** ** Admin list filters and the availability badge *)
(* ================================================================== *)

(** [FechaReservaFilter.queryset(self, request, queryset)]; [value] is
    [self.value()]. *)
Definition FechaReservaFilter_queryset (w : Mundo) (value : option string)
    (queryset : list Reserva) : list Reserva :=
  let hoy := hoy w in
  let rango (a b : Fecha) :=
    List.filter (fun r => (a <=? fecha_reserva r) && (fecha_reserva r <=? b))
                queryset in
  match value with
  | Some v =>
      if String.eqb v "hoy"
      then List.filter (fun r => fecha_reserva r =? hoy) queryset
      else if String.eqb v "manana"
      then List.filter (fun r => fecha_reserva r =? hoy + 1) queryset
      else if String.eqb v "semana" then rango hoy (hoy + 7)
      else if String.eqb v "mes" then rango hoy (hoy + 30)
      else if String.eqb v "proximas" then rango hoy (hoy + 14)
      else queryset
  | None => queryset
  end.

(** [HotelFilter.queryset(self, request, queryset)]: the lookup
    [habitacion__hotel__id=value] reads the room's foreign key. *)
Definition HotelFilter_queryset (w : Mundo) (value : option Z)
    (queryset : list Reserva) : list Reserva :=
  match value with
  | Some v =>
      List.filter
        (fun r => existsb (fun hab => opt_eqb (habitacion r) (Some (hab_id hab))
                                      && (hab_hotel hab =? v))
                          (habitaciones w))
        queryset
  | None => queryset
  end.

(** [Reserva.Meta.ordering = ['-fecha_reserva', '-fecha_creacion']]. *)
Definition Reserva_ordering (a b : Reserva) : bool :=
  (fecha_reserva b <? fecha_reserva a)
  || ((fecha_reserva a =? fecha_reserva b)
      && (fecha_creacion b <=? fecha_creacion a)).

(** [qs.first()] on a Reserva queryset. *)
Definition Reserva_first (qs : list Reserva) : option Reserva :=
  head (ordenar Reserva_ordering qs).

(** The three badges [HabitacionAdmin.estado_hoy] can render: available,
    occupied with a link to the reservation of that id, and the plain
    not-available badge. *)
Inductive EstadoHoy : Type :=
  | Disponible
  | Ocupada (reserva_id : option Z)
  | No_disponible.

(** [HabitacionAdmin.estado_hoy(self, obj)], up to the markup. *)
Definition estado_hoy (w : Mundo) (obj : Habitacion) : EstadoHoy :=
  let hoy := hoy w in
  if esta_disponible w obj hoy
  then Disponible
  else
    match Reserva_first (reservas_de w (hab_id obj) hoy) with
    | Some reserva => Ocupada (pk reserva)
    | None => No_disponible
    end.

(* ================================================================== *)
(** ** More example worlds *)
(* ================================================================== *)

(** Reservation 1 (pendiente, room 1, day 200, party of one) in the hotel
    with rooms 1 (two seats) and 2 (one seat); the clock reads day 100. *)
Definition reserva_individual : Reserva :=
  mkReserva (Some 1) 1 200 1 (Some 1) pendiente 8640000 8640000 "".

Definition mundo_individual : Mundo :=
  mkMundo [hotel_sol] [hab_101; hab_102] [ana] [reserva_individual]
          3 2 2 8640005 (fun k => k) 0 [].


(* ================================================================== *)
(** ** The guest views: steps 1 and 2 *)
(* ================================================================== *)

(** What a view answers: a redirect to a named URL, or a template rendered
    with its context. *)
Inductive Pagina (C : Type) : Type :=
  | Redirige (nombre_url : string)
  | Muestra (plantilla : string) (contexto : C).
Arguments Redirige {C} nombre_url.
Arguments Muestra {C} plantilla contexto.

(** Truthiness of a field of [request.POST]: absent and empty are falsy. *)
Definition texto_verdadero (s : option string) : bool :=
  match s with
  | Some s => negb (String.eqb s "")
  | None => false
  end.

(** The context of [seleccionar_fecha.html]; the dates are the values the
    view formats with [strftime]. *)
Record ContextoFecha : Type := mkContextoFecha {
  cf_hotel : Hotel;
  cf_fecha_minima : Fecha;
  cf_fecha_maxima : Fecha;
  cf_fecha_hoy : Fecha
}.

Section Conversiones.
(** [datetime.strptime(s, '%Y-%m-%d').date()] and [int(s)]; [None] stands
    for the [ValueError] they raise. *)
Variable strptime : string -> option Fecha.
Variable int : string -> option Z.

(** [reservar_hotel(request, hotel_id)]: the response and the session left.
    The session keeps the date it was given before [int] is tried, so a
    [ValueError] of [int] leaves the date stored. *)
Definition reservar_hotel (ses : Sesion) (metodo : Metodo)
    (post_fecha_reserva post_cantidad_personas : option string) (hotel_id_ : Z)
  : M (Pagina ContextoFecha * Sesion) :=
  bind (get_object_or_404 "Hotel" (Hotel_get hotel_id_)) (fun hotel =>
  bind (consulta hoy) (fun fecha_minima =>
  let fecha_maxima := fecha_minima + 365 in
  let formulario (ses' : Sesion) : M (Pagina ContextoFecha * Sesion) :=
    ret (Muestra "seleccionar_fecha.html"
                 (mkContextoFecha hotel fecha_minima fecha_maxima fecha_minima),
         ses') in
  let error (texto : string) (ses' : Sesion) : M (Pagina ContextoFecha * Sesion) :=
    bind (message_user texto ERROR) (fun _ => formulario ses') in
  match metodo with
  | POST =>
      if texto_verdadero post_fecha_reserva
         && texto_verdadero post_cantidad_personas
      then
        match post_fecha_reserva, post_cantidad_personas with
        | Some fecha_reserva_, Some cantidad_personas_ =>
            match strptime fecha_reserva_ with
            | Some fecha_obj =>
                if fecha_obj <? fecha_minima
                then error "La fecha no puede ser anterior a hoy." ses
                else if fecha_obj >? fecha_maxima
                then error "La fecha no puede ser mayor a 1 año." ses
                else
                  let ses1 := mkSesion (Some fecha_obj) (ses_cantidad_personas ses)
                                       (ses_hotel_id ses) (ses_habitacion_id ses) in
                  match int cantidad_personas_ with
                  | Some n =>
                      ret (Redirige "seleccionar_habitacion",
                           mkSesion (Some fecha_obj) (Some n) (Some hotel_id_)
                                    (ses_habitacion_id ses))
                  | None => error "Fecha inválida." ses1
                  end
            | None => error "Fecha inválida." ses
            end
        | _, _ => error "Por favor completa todos los campos." ses
        end
      else error "Por favor completa todos los campos." ses
  | GET => formulario ses
  end)).
End Conversiones.

(** [order_by('cantidad_plazas', 'numero')]. *)
Definition por_plazas_numero (a b : Habitacion) : bool :=
  (cantidad_plazas a <? cantidad_plazas b)
  || ((cantidad_plazas a =? cantidad_plazas b) && str_leb (numero a) (numero b)).

(** The subquery [habitaciones_reservadas] of [seleccionar_habitacion]:
    the room column of the pendiente and confirmada reservations of the
    date, of every hotel. *)
Definition habitaciones_reservadas_en (w : Mundo) (fecha_obj : Fecha)
  : list (option Z) :=
  map habitacion
      (List.filter (fun r => (fecha_reserva r =? fecha_obj)
                             && estado_in_confirmada_pendiente (estado r))
                   (reservas w)).

(** The queryset [habitaciones_disponibles] of [seleccionar_habitacion]:
    the hotel's rooms with enough seats, without those of the subquery,
    ordered by seats and then number. *)
Definition seleccion_disponibles (w : Mundo) (hotel : Hotel) (fecha_obj : Fecha)
    (cantidad_personas_ : Z) : list Habitacion :=
  ordenar por_plazas_numero
    (List.filter
       (fun h => (hab_hotel h =? hotel_id hotel)
                 && (cantidad_plazas h >=? cantidad_personas_)
                 && sql_not_in (hab_id h) (habitaciones_reservadas_en w fecha_obj))
       (habitaciones w)).

(** A dict with integer keys, in insertion order. *)
Definition Dict (V : Type) : Type := list (Z * V).

(** [k in d]. *)
Definition dict_contains {V : Type} (k : Z) (d : Dict V) : bool :=
  existsb (fun kv => fst kv =? k) d.

(** [d[k]]. *)
Fixpoint dict_get {V : Type} (k : Z) (d : Dict V) : option V :=
  match d with
  | [] => None
  | (k', v) :: d' => if k' =? k then Some v else dict_get k d'
  end.

(** [d[k] = v]. *)
Fixpoint dict_set {V : Type} (k : Z) (v : V) (d : Dict V) : Dict V :=
  match d with
  | [] => [(k, v)]
  | (k', v') :: d' => if k' =? k then (k', v) :: d' else (k', v') :: dict_set k v d'
  end.

(** One turn of the grouping loop of [seleccionar_habitacion]. *)
Definition agrupar (d : Dict (list Habitacion)) (habitacion_ : Habitacion)
  : Dict (list Habitacion) :=
  let plazas := cantidad_plazas habitacion_ in
  let d := if negb (dict_contains plazas d) then dict_set plazas [] d else d in
  match dict_get plazas d with
  | Some l => dict_set plazas (l ++ [habitacion_]) d
  | None => d
  end.

(** What the grouping loop keeps: distinct keys, each group the rooms of
    its key in the order read and not empty, and a key for every room
    read. *)
Definition agrupado (d : Dict (list Habitacion)) (xs : list Habitacion) : Prop :=
  NoDup (map fst d)
  /\ (forall k g, In (k, g) d ->
                  g = List.filter (fun h => cantidad_plazas h =? k) xs /\ g <> [])
  /\ (forall x, In x xs -> In (cantidad_plazas x) (map fst d)).

(** [dict(sorted(habitaciones_por_plazas.items()))] after the loop; the
    keys of a dict are distinct, so [sorted] compares keys only. *)
Definition habitaciones_por_plazas (habitaciones_disponibles_ : list Habitacion)
  : Dict (list Habitacion) :=
  ordenar (fun a b => fst a <=? fst b)
          (fold_left agrupar habitaciones_disponibles_ []).

(** The context of [seleccionar_habitacion.html]. *)
Record ContextoHabitaciones : Type := mkContextoHabitaciones {
  ch_hotel : Hotel;
  ch_fecha_reserva : Fecha;
  ch_cantidad_personas : Z;
  ch_habitaciones_disponibles : list Habitacion;
  ch_habitaciones_por_plazas : Dict (list Habitacion);
  ch_total_disponibles : Z;
  ch_habitaciones_reservadas : Z
}.

(** [seleccionar_habitacion(request)]; [post_habitacion_id] is the posted
    room id when it is present and not empty. *)
Definition seleccionar_habitacion (ses : Sesion) (metodo : Metodo)
    (post_habitacion_id : option Z)
  : M (Pagina ContextoHabitaciones * Sesion) :=
  let incompleta : M (Pagina ContextoHabitaciones * Sesion) :=
    bind (message_user "Por favor selecciona fecha y cantidad de personas primero."
                       ERROR) (fun _ =>
    ret (Redirige "home", ses)) in
  match ses_fecha_reserva ses, ses_cantidad_personas ses, ses_hotel_id ses with
  | Some fecha_obj, Some cantidad_personas_, Some hotel_id_ =>
      if verdadero (Some cantidad_personas_) && verdadero (Some hotel_id_)
      then
        bind (get_object_or_404 "Hotel" (Hotel_get hotel_id_)) (fun hotel =>
        bind (consulta (fun w => seleccion_disponibles w hotel fecha_obj
                                                       cantidad_personas_))
             (fun habitaciones_disponibles_ =>
        match metodo, post_habitacion_id with
        | POST, Some habitacion_id =>
            bind (get_object_or_404 "Habitacion" (Habitacion_get habitacion_id))
                 (fun _ =>
            ret (Redirige "completar_reserva",
                 mkSesion (ses_fecha_reserva ses) (ses_cantidad_personas ses)
                          (ses_hotel_id ses) (Some habitacion_id)))
        | _, _ =>
            bind (consulta (fun w => habitaciones_reservadas_en w fecha_obj))
                 (fun reservadas =>
            ret (Muestra "seleccionar_habitacion.html"
                   (mkContextoHabitaciones
                      hotel fecha_obj cantidad_personas_
                      habitaciones_disponibles_
                      (habitaciones_por_plazas habitaciones_disponibles_)
                      (Z.of_nat (List.length habitaciones_disponibles_))
                      (Z.of_nat (List.length reservadas))),
                 ses))
        end))
      else incompleta
  | _, _, _ => incompleta
  end.

(** [detalle_reserva(request, reserva_id)]: the reservation handed to the
    template. *)
Definition detalle_reserva (reserva_id : Z) : M (Pagina Reserva) :=
  bind (get_object_or_404 "Reserva" (Reserva_get reserva_id)) (fun reserva =>
  ret (Muestra "detalle_reserva.html" reserva)).
(* ================================================================== *)
(** ** The world monad *)
(* ================================================================== *)

(** How [bind] and [intenta] run, as equations on the final world. *)
Lemma bind_eq {A B : Type} (m : M A) (k : A -> M B) (w : Mundo) :
  bind m k w = match fst (m w) with
               | Ok a => k a (snd (m w))
               | Lanza e => (Lanza e, snd (m w))
               end.
Proof. unfold bind. now destruct (m w) as [[a|e] w']. Qed.

Lemma intenta_eq {A : Type} (m : M A) (h : Excepcion -> M A) (w : Mundo) :
  intenta m h w = match fst (m w) with
                  | Ok a => (Ok a, snd (m w))
                  | Lanza e => h e (snd (m w))
                  end.
Proof. unfold intenta. now destruct (m w) as [[a|e] w']. Qed.

Lemma bind_eleva {A B : Type} (q : Mundo -> Resultado A) (k : A -> M B) (w : Mundo) :
  bind (eleva q) k w = match q w with
                       | Ok a => k a w
                       | Lanza e => (Lanza e, w)
                       end.
Proof. reflexivity. Qed.

Lemma bind_consulta {A B : Type} (q : Mundo -> A) (k : A -> M B) (w : Mundo) :
  bind (consulta q) k w = k (q w) w.
Proof. reflexivity. Qed.

Lemma bind_ret {A B : Type} (a : A) (k : A -> M B) (w : Mundo) :
  bind (ret a) k w = k a w.
Proof. reflexivity. Qed.

Lemma bind_assoc {A B C : Type} (m : M A) (f : A -> M B) (g : B -> M C) (w : Mundo) :
  bind (bind m f) g w = bind m (fun a => bind (f a) g) w.
Proof. unfold bind. now destruct (m w) as [[a|e] w']. Qed.

Lemma intenta_ret_snd {A : Type} (m : M A) (f : Excepcion -> A) (w : Mundo) :
  snd (intenta m (fun e => ret (f e)) w) = snd (m w).
Proof. rewrite intenta_eq. now destruct (fst (m w)). Qed.

(** A property kept by every run of the loop body is kept by the loop. *)
Lemma para_conserva {A S : Type} (I : Mundo -> Prop) (cuerpo : A -> S -> M S)
    (l : list A) :
  (forall x s w, In x l -> I w -> I (snd (cuerpo x s w))) ->
  forall (s : S) (w : Mundo), I w -> I (snd (para l s cuerpo w)).
Proof.
  induction l as [|x l IH]; intros Hc s w Hw; [exact Hw|].
  cbn [para]. rewrite bind_eq.
  pose proof (Hc x s w (or_introl eq_refl) Hw) as Hx.
  destruct (fst (cuerpo x s w)) as [s'|e]; [|exact Hx].
  apply IH; [|exact Hx]. intros y s0 w0 Hy. apply Hc. now right.
Qed.

(* ================================================================== *)
(** ** Basic facts about queries *)
(* ================================================================== *)

Lemma existe_false {A : Type} (l : list A) : existe l = false <-> l = [].
Proof. destruct l; simpl; split; congruence. Qed.

Lemma existe_true {A : Type} (l : list A) : existe l = true <-> exists x, In x l.
Proof.
  destruct l as [|a l]; simpl; split; try congruence.
  - intros [x []].
  - intros _. exists a. now left.
Qed.

Lemma opt_eqb_eq (a b : option Z) : opt_eqb a b = true <-> a = b.
Proof.
  destruct a, b; simpl; try (split; congruence).
  rewrite Z.eqb_eq. split; congruence.
Qed.

Lemma opt_eqb_refl (a : option Z) : opt_eqb a a = true.
Proof. now apply opt_eqb_eq. Qed.

Lemma estado_in_confirmada_pendiente_spec (e : Estado) :
  estado_in_confirmada_pendiente e = true <-> e = pendiente \/ e = confirmada.
Proof. destruct e; simpl; intuition congruence. Qed.

(** Membership in the queryset behind [esta_disponible] and [save]. *)
Lemma reservas_de_In (w : Mundo) (h : Z) (fecha : Fecha) (r : Reserva) :
  In r (reservas_de w h fecha) <->
  In r (reservas w) /\ habitacion r = Some h /\ fecha_reserva r = fecha
  /\ (estado r = pendiente \/ estado r = confirmada).
Proof.
  unfold reservas_de. rewrite filter_In, !andb_true_iff, opt_eqb_eq, Z.eqb_eq,
    estado_in_confirmada_pendiente_spec. tauto.
Qed.

(** [esta_disponible] is true exactly when no pendiente/confirmada
    reservation exists for that room and that date. *)
Lemma esta_disponible_spec (w : Mundo) (hab : Habitacion) (fecha : Fecha) :
  esta_disponible w hab fecha = true <->
  ~ exists r, In r (reservas w) /\ habitacion r = Some (hab_id hab)
              /\ fecha_reserva r = fecha
              /\ (estado r = pendiente \/ estado r = confirmada).
Proof.
  unfold esta_disponible. rewrite negb_true_iff. split.
  - intros H [r Hr]. apply reservas_de_In in Hr.
    apply existe_false in H. rewrite H in Hr. exact Hr.
  - intros H. destruct (existe _) eqn:E; [|reflexivity].
    apply existe_true in E. destruct E as [r Hr].
    exfalso. apply H. exists r. now apply reservas_de_In.
Qed.

(** Inside [habitaciones_disponibles]: for a room of the hotel, its id is
    among [habitaciones_reservadas] exactly when the room is not free. *)
Lemma reservada_iff_no_disponible (w : Mundo) (hotel : Hotel) (fecha : Fecha)
    (h : Habitacion) :
  In h (habitacion_set w hotel) ->
  existsb (opt_eqb (Some (hab_id h)))
    (map habitacion
       (List.filter (fun r => (fecha_reserva r =? fecha)
                              && estado_in_confirmada_pendiente (estado r)
                              && habitacion__hotel w r hotel)
                    (reservas w)))
  = negb (esta_disponible w h fecha).
Proof.
  intros Hh. unfold habitacion_set in Hh. apply filter_In in Hh.
  destruct Hh as [Hin Hhot].
  unfold esta_disponible. rewrite negb_involutive.
  apply eq_true_iff_eq. rewrite existsb_exists, existe_true. split.
  - intros [o [Ho Heq]]. apply in_map_iff in Ho. destruct Ho as [r [<- Hr]].
    apply filter_In in Hr. destruct Hr as [Hr Hc].
    rewrite !andb_true_iff in Hc. destruct Hc as [[Hf He] _].
    exists r. unfold reservas_de. apply filter_In. split; [exact Hr|].
    rewrite !andb_true_iff. repeat split; try assumption.
    apply opt_eqb_eq. apply opt_eqb_eq in Heq. congruence.
  - intros [r Hr]. unfold reservas_de in Hr. apply filter_In in Hr.
    destruct Hr as [Hr Hc]. rewrite !andb_true_iff in Hc.
    destruct Hc as [[Hhab Hf] He].
    exists (habitacion r). split.
    + apply in_map. apply filter_In. split; [exact Hr|].
      rewrite !andb_true_iff. repeat split; try assumption.
      unfold habitacion__hotel. apply existsb_exists. exists h.
      split; [exact Hin|]. now rewrite Hhab, Hhot.
    + apply opt_eqb_eq. apply opt_eqb_eq in Hhab. congruence.
Qed.

(** The bulk query as a filter of the hotel's rooms by the predicate. *)
Lemma habitaciones_disponibles_filter (w : Mundo) (hotel : Hotel) (fecha : Fecha) :
  habitaciones_disponibles w hotel (Some fecha)
  = List.filter (fun h => esta_disponible w h fecha) (habitacion_set w hotel).
Proof.
  unfold habitaciones_disponibles. apply filter_ext_in. intros h Hh.
  rewrite (reservada_iff_no_disponible w hotel fecha h Hh).
  apply negb_involutive.
Qed.

(** C8. The bulk availability query agrees with the per-room predicate:
    [habitaciones_disponibles hotel fecha] is exactly the hotel's rooms
    for which [esta_disponible] is true on that date (same rows, same
    order), that predicate being true iff no pendiente/confirmada
    reservation exists for the room on the date; with the date omitted
    the query is the one for today's date. *)
Theorem C8_habitaciones_disponibles_agrees (w : Mundo) (hotel : Hotel) (fecha : Fecha) :
  habitaciones_disponibles w hotel (Some fecha)
  = List.filter (fun h => esta_disponible w h fecha) (habitacion_set w hotel)
  /\ (forall h, In h (habitaciones_disponibles w hotel (Some fecha)) <->
                In h (habitaciones w) /\ hab_hotel h = hotel_id hotel
                /\ ~ exists r, In r (reservas w) /\ habitacion r = Some (hab_id h)
                               /\ fecha_reserva r = fecha
                               /\ (estado r = pendiente \/ estado r = confirmada))
  /\ habitaciones_disponibles w hotel None
     = habitaciones_disponibles w hotel (Some (hoy w)).
Proof.
  split; [apply habitaciones_disponibles_filter|]. split; [|reflexivity].
  intros h. rewrite habitaciones_disponibles_filter, filter_In.
  unfold habitacion_set.
  rewrite filter_In, Z.eqb_eq, esta_disponible_spec. tauto.
Qed.

(* ================================================================== *)
(** ** [str] on integers is injective *)
(* ================================================================== *)

Lemma to_int_no_nil (z : Z) : Z.to_int z <> Decimal.Pos Decimal.Nil
                              /\ Z.to_int z <> Decimal.Neg Decimal.Nil.
Proof.
  destruct z as [|p|p]; simpl; split; try discriminate;
    intros [= H]; now apply (DecimalPos.Unsigned.to_uint_nonnil p).
Qed.

Lemma str_inj (a b : Z) : str a = str b -> a = b.
Proof.
  unfold str. intros H.
  apply DecimalZ.to_int_inj.
  destruct (to_int_no_nil a) as [Ha1 Ha2], (to_int_no_nil b) as [Hb1 Hb2].
  pose proof (NilZero.isi _ Ha1 Ha2) as Ia.
  pose proof (NilZero.isi _ Hb1 Hb2) as Ib.
  rewrite H in Ia. rewrite Ia in Ib. now injection Ib.
Qed.

(* ================================================================== *)
(** ** Room generation *)
(* ================================================================== *)

Lemma range_length (a b : Z) : List.length (range a b) = Z.to_nat (b - a).
Proof. unfold range. now rewrite length_map, length_seq. Qed.

Lemma range_NoDup (a b : Z) : NoDup (range a b).
Proof.
  unfold range. generalize (seq_NoDup (Z.to_nat (b - a)) 0).
  generalize (seq 0 (Z.to_nat (b - a))) as l.
  induction l as [|k l IH]; simpl; intros Hnd; [constructor|].
  inversion Hnd as [|? ? Hk Hl]; subst. constructor; [|now apply IH].
  rewrite in_map_iff. intros [k' [Heq Hin]].
  assert (k' = k) by lia. subst. contradiction.
Qed.

Lemma random_choice_tipos_plazas (w : Mundo) :
  exists p, random_choice tipos_plazas w = (Ok p, con_tiradas w (S (tiradas w)))
            /\ In p tipos_plazas.
Proof.
  unfold random_choice. eexists. split; [reflexivity|].
  apply nth_In. apply Nat.mod_upper_bound. discriminate.
Qed.

(** The loop of [generar_habitaciones] over indices whose numbers are not
    taken yet in the hotel: one room per index, in order, none rejected by
    the uniqueness constraint. *)
Lemma generar_bucle (self : Hotel) :
  forall (l : list Z) (creadas : Z) (w : Mundo),
    NoDup l ->
    (forall i h, In i l -> In h (habitaciones w) ->
                 hab_hotel h = hotel_id self -> numero h <> str i) ->
    exists nuevas,
      para l creadas
        (fun i habitaciones_creadas =>
           bind (random_choice tipos_plazas) (fun plazas =>
           bind (Habitacion_create self (str i) plazas) (fun _ =>
           ret (habitaciones_creadas + 1)))) w
      = (Ok (creadas + Z.of_nat (List.length l)),
         mkMundo (hoteles w) (habitaciones w ++ nuevas) (huespedes w)
                 (reservas w) (sec_habitacion w + Z.of_nat (List.length l))
                 (sec_huesped w) (sec_reserva w) (ahora w) (azar w)
                 (tiradas w + List.length l)%nat (mensajes w))
      /\ map numero nuevas = map str l
      /\ Forall (fun h => hab_hotel h = hotel_id self
                          /\ In (cantidad_plazas h) tipos_plazas) nuevas.
Proof.
  induction l as [|i l IH]; intros creadas w Hnd Hlibre.
  - exists []. split; [|split; [reflexivity|constructor]].
    simpl. unfold ret. rewrite app_nil_r, !Z.add_0_r, Nat.add_0_r.
    now destruct w.
  - inversion Hnd as [|? ? Hi Hl]; subst.
    destruct (random_choice_tipos_plazas w) as [p [Hp Hin]].
    set (h := mkHabitacion (sec_habitacion w) (hotel_id self) (str i) p).
    set (w1 := mkMundo (hoteles w) (habitaciones w ++ [h]) (huespedes w)
                 (reservas w) (sec_habitacion w + 1) (sec_huesped w)
                 (sec_reserva w) (ahora w) (azar w) (S (tiradas w)) (mensajes w)).
    assert (Hcrea : Habitacion_create self (str i) p (con_tiradas w (S (tiradas w)))
                    = (Ok h, w1)).
    { unfold Habitacion_create. simpl.
      destruct (existsb _ (habitaciones w)) eqn:E; [|reflexivity].
      exfalso. apply existsb_exists in E. destruct E as [x [Hx Hc]].
      apply andb_true_iff in Hc. destruct Hc as [Hh Hn].
      apply Z.eqb_eq in Hh. apply String.eqb_eq in Hn.
      apply (Hlibre i x); auto. now left. }
    destruct (IH (creadas + 1) w1) as [nuevas [Hrun [Hnum Hall]]].
    + exact Hl.
    + intros j x Hj Hx Hhot. simpl in Hx. apply in_app_iff in Hx.
      destruct Hx as [Hx|[<-|[]]].
      * apply (Hlibre j x); auto. now right.
      * simpl. intros Heq. apply str_inj in Heq. subst. contradiction.
    + exists (h :: nuevas). split; [|split].
      * simpl para. unfold bind at 1. unfold bind at 1. rewrite Hp.
        unfold bind at 1. rewrite Hcrea. unfold ret at 1.
        rewrite Hrun. simpl. f_equal.
        -- f_equal. lia.
        -- f_equal.
           ++ now rewrite <- app_assoc.
           ++ lia.
           ++ lia.
      * simpl. now rewrite Hnum.
      * constructor; [|exact Hall]. simpl. split; [reflexivity|exact Hin].
Qed.

Lemma habitacion_set_app (w : Mundo) (self : Hotel) (nuevas : list Habitacion)
    (s : Z) (t : nat) :
  habitacion_set w self = [] ->
  Forall (fun h => hab_hotel h = hotel_id self) nuevas ->
  habitacion_set
    (mkMundo (hoteles w) (habitaciones w ++ nuevas) (huespedes w) (reservas w)
             s (sec_huesped w) (sec_reserva w) (ahora w) (azar w) t (mensajes w))
    self = nuevas.
Proof.
  unfold habitacion_set. simpl. intros Hvacio Hall.
  rewrite filter_app, Hvacio. simpl.
  induction Hall as [|h l Hh _ IH]; simpl; [reflexivity|].
  rewrite Hh, Z.eqb_refl. now rewrite IH.
Qed.

(** C7. Room generation is idempotent and exact.  A hotel that already has
    rooms gets none and the existing count is returned.  A hotel without
    rooms (and a non-negative [cantidad_habitaciones]) gets exactly
    [cantidad_habitaciones] new rooms, numbered by the strings of 1..N in
    order, each with a capacity from [1, 2, 2, 3, 4]; N is returned, and
    a second call returns N again and changes nothing, so the hotel never
    has more than [cantidad_habitaciones] rooms. *)
Theorem C7_generar_habitaciones_idempotent_exact (self : Hotel) (w : Mundo) :
  (habitacion_set w self <> [] ->
   generar_habitaciones self w
   = (Ok (Z.of_nat (List.length (habitacion_set w self))), w))
  /\
  (habitacion_set w self = [] -> 0 <= cantidad_habitaciones self ->
   exists w' nuevas,
     generar_habitaciones self w = (Ok (cantidad_habitaciones self), w')
     /\ habitaciones w' = habitaciones w ++ nuevas
     /\ habitacion_set w' self = nuevas
     /\ Z.of_nat (List.length nuevas) = cantidad_habitaciones self
     /\ map numero nuevas = map str (range 1 (cantidad_habitaciones self + 1))
     /\ Forall (fun h => In (cantidad_plazas h) tipos_plazas) nuevas
     /\ generar_habitaciones self w' = (Ok (cantidad_habitaciones self), w')
     /\ (List.length (habitacion_set
                        (snd (generar_habitaciones self
                                (snd (generar_habitaciones self w)))) self)
         <= Z.to_nat (cantidad_habitaciones self))%nat).
Proof.
  split.
  - intros Hne. unfold generar_habitaciones.
    destruct (habitacion_set w self) eqn:E; [congruence|reflexivity].
  - intros Hvacio Hn.
    set (n := cantidad_habitaciones self) in *.
    destruct (generar_bucle self (range 1 (n + 1)) 0 w (range_NoDup _ _))
      as [nuevas [Hrun [Hnum Hall]]].
    { intros i h _ Hh Hhot. exfalso.
      assert (Hin : In h (habitacion_set w self)).
      { unfold habitacion_set. apply filter_In. split; [exact Hh|].
        now apply Z.eqb_eq. }
      rewrite Hvacio in Hin. exact Hin. }
    rewrite range_length in Hrun.
    replace (n + 1 - 1) with n in Hrun by lia.
    rewrite Z2Nat.id in Hrun by lia. simpl in Hrun.
    assert (Hlen : Z.of_nat (List.length nuevas) = n).
    { rewrite <- (length_map numero), Hnum, length_map, range_length.
      replace (n + 1 - 1) with n by lia. now apply Z2Nat.id. }
    assert (Hset : forall s t,
               habitacion_set
                 (mkMundo (hoteles w) (habitaciones w ++ nuevas) (huespedes w)
                    (reservas w) s (sec_huesped w) (sec_reserva w) (ahora w)
                    (azar w) t (mensajes w)) self = nuevas).
    { intros s t. apply habitacion_set_app; [exact Hvacio|].
      eapply Forall_impl; [|exact Hall]. now intros h [Hh _]. }
    assert (Hgen : generar_habitaciones self w
                   = (Ok n,
                      mkMundo (hoteles w) (habitaciones w ++ nuevas) (huespedes w)
                        (reservas w) (sec_habitacion w + n) (sec_huesped w)
                        (sec_reserva w) (ahora w) (azar w)
                        (tiradas w + Z.to_nat n)%nat (mensajes w))).
    { unfold generar_habitaciones. rewrite Hvacio. simpl existe. cbv iota.
      fold n. exact Hrun. }
    assert (Hotra : generar_habitaciones self
                      (mkMundo (hoteles w) (habitaciones w ++ nuevas) (huespedes w)
                         (reservas w) (sec_habitacion w + n) (sec_huesped w)
                         (sec_reserva w) (ahora w) (azar w)
                         (tiradas w + Z.to_nat n)%nat (mensajes w))
                    = (Ok n,
                       mkMundo (hoteles w) (habitaciones w ++ nuevas) (huespedes w)
                         (reservas w) (sec_habitacion w + n) (sec_huesped w)
                         (sec_reserva w) (ahora w) (azar w)
                         (tiradas w + Z.to_nat n)%nat (mensajes w))).
    { unfold generar_habitaciones. rewrite Hset.
      destruct nuevas as [|h0 nuevas0] eqn:En.
      - simpl in Hlen. simpl existe. cbv iota. fold n. rewrite <- Hlen.
        reflexivity.
      - simpl existe. cbv iota. rewrite Hlen. reflexivity. }
    eexists. exists nuevas. split; [exact Hgen|].
    split; [reflexivity|]. split; [apply Hset|]. split; [exact Hlen|].
    split; [exact Hnum|]. split.
    { eapply Forall_impl; [|exact Hall]. now intros h [_ Hh]. }
    split; [exact Hotra|].
    rewrite Hgen. simpl snd. rewrite Hotra. simpl snd. rewrite Hset. lia.
Qed.

(** A hotel with [cantidad_habitaciones = 5]: rooms "1".."5". *)
Lemma C7_generar_habitaciones_witness :
  exists w' nuevas,
    generar_habitaciones hotel_sol mundo_sol = (Ok 5, w')
    /\ habitaciones w' = habitaciones mundo_sol ++ nuevas
    /\ habitacion_set w' hotel_sol = nuevas
    /\ Z.of_nat (List.length nuevas) = 5
    /\ map numero nuevas = ["1"; "2"; "3"; "4"; "5"]
    /\ Forall (fun h => In (cantidad_plazas h) tipos_plazas) nuevas
    /\ generar_habitaciones hotel_sol w' = (Ok 5, w')
    /\ (List.length (habitacion_set
                       (snd (generar_habitaciones hotel_sol
                               (snd (generar_habitaciones hotel_sol mundo_sol))))
                       hotel_sol)
        <= 5)%nat.
Proof.
  apply (proj2 (C7_generar_habitaciones_idempotent_exact hotel_sol mundo_sol)).
  - reflexivity.
  - simpl. lia.
Defined.

(** Saving a new hotel with the automatic flag set runs the generation:
    five rooms, "1" to "5". *)
Lemma crear_habitaciones_al_guardar_hotel_cinco :
  map numero (habitaciones
                (snd (crear_habitaciones_al_guardar_hotel hotel_sol true mundo_sol)))
  = ["1"; "2"; "3"; "4"; "5"].
Proof. reflexivity. Qed.

(* ================================================================== *)
(** ** [get] *)
(* ================================================================== *)

Lemma get_Ok {A : Type} (modelo : string) (p : A -> bool) (tabla : list A) (x : A) :
  get modelo p tabla = Ok x ->
  In x tabla /\ p x = true /\ forall y, In y tabla -> p y = true -> y = x.
Proof.
  unfold get. destruct (List.filter p tabla) as [|a [|b l]] eqn:E; try discriminate.
  intros [= ->].
  assert (Hx : In x (List.filter p tabla)) by (rewrite E; now left).
  apply filter_In in Hx. destruct Hx as [Hin Hp]. repeat split; try assumption.
  intros y Hy Hpy.
  assert (Hy' : In y (List.filter p tabla)) by (apply filter_In; now split).
  rewrite E in Hy'. destruct Hy' as [->|[]]. reflexivity.
Qed.

Lemma Reserva_get_Ok (i : Z) (w : Mundo) (r : Reserva) :
  Reserva_get i w = Ok r ->
  In r (reservas w) /\ pk r = Some i
  /\ forall y, In y (reservas w) -> pk y = Some i -> y = r.
Proof.
  intros H. apply get_Ok in H. destruct H as [Hin [Hp Huniq]].
  apply opt_eqb_eq in Hp. repeat split; try assumption.
  intros y Hy Hpk. apply Huniq; [exact Hy|]. now apply opt_eqb_eq.
Qed.

Lemma Habitacion_get_Ok (i : Z) (w : Mundo) (h : Habitacion) :
  Habitacion_get i w = Ok h -> In h (habitaciones w) /\ hab_id h = i.
Proof.
  intros H. apply get_Ok in H. destruct H as [Hin [Hp _]].
  apply Z.eqb_eq in Hp. now split.
Qed.

(* ================================================================== *)
(** ** The guard of [Reserva.save] *)
(* ================================================================== *)

(** Another pendiente/confirmada row on the same room and date makes the
    guarded save raise, with the world as it was. *)
Lemma Reserva_save_conflicto (w : Mundo) (self otra : Reserva) (i h : Z) :
  pk self = Some i -> i <> 0 ->
  habitacion self = Some h ->
  estado self = confirmada ->
  In otra (reservas w) ->
  pk otra <> Some i ->
  habitacion otra = Some h ->
  fecha_reserva otra = fecha_reserva self ->
  estado otra = pendiente \/ estado otra = confirmada ->
  Reserva_save self w = (Lanza conflicto, w).
Proof.
  intros Hpk Hi Hhab Hest Hin Hotra Hhab' Hfecha Hact.
  unfold Reserva_save. rewrite Hhab, Hest, Hpk. simpl.
  destruct (i =? 0) eqn:E; [apply Z.eqb_eq in E; contradiction|]. simpl.
  assert (Hc : In otra (reservas_conflictivas w self h)).
  { unfold reservas_conflictivas. apply filter_In. split.
    - apply reservas_de_In. auto.
    - rewrite Hpk. apply negb_true_iff.
      destruct (opt_eqb (pk otra) (Some i)) eqn:E'; [|reflexivity].
      apply opt_eqb_eq in E'. contradiction. }
  destruct (reservas_conflictivas w self h) as [|x l]; [destruct Hc|].
  reflexivity.
Qed.

(** C3. Writing status confirmada on an existing reservation (non-null
    primary key) with an assigned room, while another reservation with
    status pendiente or confirmada occupies the same room and date,
    raises the conflict [ValueError] before anything is written: the world
    is unchanged, so the persisted row keeps its status.  The admin action
    [confirmar_reservas] on such a stored, not yet confirmed row fails the
    same way. *)
Theorem C3_save_rejects_conflicting_confirmation
    (w : Mundo) (r otra : Reserva) (i h : Z) :
  Reserva_get i w = Ok r -> i <> 0 ->
  habitacion r = Some h ->
  In otra (reservas w) ->
  pk otra <> Some i ->
  habitacion otra = Some h ->
  fecha_reserva otra = fecha_reserva r ->
  estado otra = pendiente \/ estado otra = confirmada ->
  Reserva_save (con_estado r confirmada) w = (Lanza conflicto, w)
  /\ Reserva_get i (snd (Reserva_save (con_estado r confirmada) w)) = Ok r
  /\ (estado r <> confirmada ->
      confirmar_reservas (fun _ => [r]) w = (Lanza conflicto, w)).
Proof.
  intros Hget Hi Hhab Hin Hotra Hhab' Hfecha Hact.
  destruct (Reserva_get_Ok i w r Hget) as [_ [Hpk _]].
  assert (Hsave : Reserva_save (con_estado r confirmada) w = (Lanza conflicto, w)).
  { apply (Reserva_save_conflicto w (con_estado r confirmada) otra i h); auto. }
  split; [exact Hsave|]. split.
  - rewrite Hsave. exact Hget.
  - intros Hne. unfold confirmar_reservas, bind, consulta. simpl.
    destruct (Estado_eqb (estado r) confirmada) eqn:E.
    + destruct (estado r); simpl in E; congruence.
    + simpl. unfold bind. now rewrite Hsave.
Qed.

Lemma C3_save_rejects_witness :
  Reserva_save (con_estado reserva_cancelada confirmada) mundo_ocupado
  = (Lanza conflicto, mundo_ocupado)
  /\ Reserva_get 1 (snd (Reserva_save (con_estado reserva_cancelada confirmada)
                                      mundo_ocupado)) = Ok reserva_cancelada
  /\ (estado reserva_cancelada <> confirmada ->
      confirmar_reservas (fun _ => [reserva_cancelada]) mundo_ocupado
      = (Lanza conflicto, mundo_ocupado)).
Proof.
  apply (C3_save_rejects_conflicting_confirmation
           mundo_ocupado reserva_cancelada reserva_confirmada 1 1).
  - reflexivity.
  - lia.
  - reflexivity.
  - simpl. right. left. reflexivity.
  - simpl. discriminate.
  - reflexivity.
  - reflexivity.
  - right. reflexivity.
Defined.

(* ================================================================== *)
(** ** [puede_confirmar] and bulk confirmation *)
(* ================================================================== *)

(** A stored pendiente/confirmada row makes its own room unavailable on
    its own date. *)
Lemma esta_disponible_propia (w : Mundo) (r : Reserva) (hab : Habitacion) :
  In r (reservas w) ->
  habitacion r = Some (hab_id hab) ->
  estado r = pendiente \/ estado r = confirmada ->
  esta_disponible w hab (fecha_reserva r) = false.
Proof.
  intros Hin Hhab Hact.
  destruct (esta_disponible w hab (fecha_reserva r)) eqn:E; [|reflexivity].
  apply esta_disponible_spec in E. exfalso. apply E. exists r. auto.
Qed.

(** [puede_confirmar] on a stored pendiente row with a room: false when
    the room row is found, an exception otherwise; never true, and the
    world is left as it was. *)
Lemma puede_confirmar_pendiente (w : Mundo) (r : Reserva) (h : Z) :
  In r (reservas w) ->
  estado r = pendiente ->
  habitacion r = Some h ->
  (exists hab, Habitacion_get h w = Ok hab /\ puede_confirmar r w = (Ok false, w))
  \/ (exists e, Habitacion_get h w = Lanza e /\ puede_confirmar r w = (Lanza e, w)).
Proof.
  intros Hin Hest Hhab.
  unfold puede_confirmar, Reserva_habitacion. rewrite Hhab.
  unfold bind, eleva, ret, consulta.
  destruct (Habitacion_get h w) as [hab|e] eqn:E.
  - left. exists hab. split; [reflexivity|].
    destruct (Habitacion_get_Ok h w hab E) as [_ Hid].
    rewrite (esta_disponible_propia w r hab); auto.
    now rewrite Hid.
  - right. exists e. now split.
Qed.

Lemma confirmar_una_pendiente (w : Mundo) (i : Z) (exitosas : Z)
    (fallidas : list string) :
  pendiente_con_habitacion w i ->
  exists motivo,
    confirmar_una i (exitosas, fallidas) w
    = (Ok (exitosas, fallidas ++ ["Reserva #" ^^ str i ^^ motivo]), w).
Proof.
  intros [r [Hin [Hpk [Hest Hhab]]]].
  unfold confirmar_una, intenta, bind, eleva, ret.
  destruct (Reserva_get i w) as [r'|e] eqn:E.
  - destruct (Reserva_get_Ok i w r' E) as [_ [_ Huniq]].
    rewrite <- (Huniq r Hin Hpk).
    destruct (habitacion r) as [h|] eqn:Eh; [|congruence].
    destruct (puede_confirmar_pendiente w r h Hin Hest Eh)
      as [[hab [_ Hp]]|[e [_ Hp]]]; rewrite Hp.
    + exists " no se puede confirmar". reflexivity.
    + exists (": " ^^ Excepcion_str e). reflexivity.
  - exists (": " ^^ Excepcion_str e). reflexivity.
Qed.

Lemma confirmar_bucle_pendientes (w : Mundo) :
  forall (ids : list Z) (exitosas : Z) (fallidas : list string),
    Forall (pendiente_con_habitacion w) ids ->
    exists nuevas,
      para ids (exitosas, fallidas) confirmar_una w
      = (Ok (exitosas, fallidas ++ nuevas), w)
      /\ Forall2 (fun i texto => exists motivo,
                    texto = "Reserva #" ^^ str i ^^ motivo) ids nuevas.
Proof.
  induction ids as [|i ids IH]; intros exitosas fallidas Hall.
  - exists []. split; [|constructor]. simpl. now rewrite app_nil_r.
  - inversion Hall as [|? ? Hi Hids]; subst.
    destruct (confirmar_una_pendiente w i exitosas fallidas Hi) as [motivo Hm].
    destruct (IH exitosas (fallidas ++ ["Reserva #" ^^ str i ^^ motivo]) Hids)
      as [nuevas [Hrun Hf2]].
    exists (("Reserva #" ^^ str i ^^ motivo) :: nuevas). split.
    + cbn [para]. unfold bind. rewrite Hm, Hrun. now rewrite <- app_assoc.
    + constructor; [now exists motivo|exact Hf2].
Qed.

(** More generally, no stored reservation passes [puede_confirmar]: the
    bulk confirmation fails on every id and writes nothing. *)
Lemma confirmar_una_falla (w : Mundo) (i : Z) (exitosas : Z)
    (fallidas : list string) :
  exists motivo,
    confirmar_una i (exitosas, fallidas) w
    = (Ok (exitosas, fallidas ++ ["Reserva #" ^^ str i ^^ motivo]), w).
Proof.
  unfold confirmar_una, intenta, bind, eleva, ret.
  destruct (Reserva_get i w) as [r|e] eqn:E;
    [|exists (": " ^^ Excepcion_str e); reflexivity].
  destruct (Reserva_get_Ok i w r E) as [Hin _].
  unfold puede_confirmar, Reserva_habitacion, bind, eleva, ret, consulta.
  destruct (habitacion r) as [h|] eqn:Eh;
    [|exists " no se puede confirmar"; reflexivity].
  destruct (Habitacion_get h w) as [hab|e] eqn:Ehab;
    [|exists (": " ^^ Excepcion_str e); reflexivity].
  destruct (Habitacion_get_Ok h w hab Ehab) as [_ Hid].
  assert (Hno : esta_disponible w hab (fecha_reserva r)
                && Estado_eqb (estado r) pendiente = false).
  { destruct (Estado_eqb (estado r) pendiente) eqn:Ee;
      [|apply andb_false_r].
    rewrite (esta_disponible_propia w r hab); auto.
    - now rewrite Hid.
    - left. destruct (estado r); simpl in Ee; congruence. }
  rewrite Hno. exists " no se puede confirmar". reflexivity.
Qed.

Lemma confirmar_reserva_masiva_nunca_confirma (w : Mundo) (ids : list Z) :
  exists fallidas,
    confirmar_reserva_masiva ids w = (Ok (0, fallidas), w)
    /\ List.length fallidas = List.length ids.
Proof.
  unfold confirmar_reserva_masiva.
  assert (H : forall (l : list Z) (exitosas : Z) (fallidas : list string),
             exists nuevas,
               para l (exitosas, fallidas) confirmar_una w
               = (Ok (exitosas, fallidas ++ nuevas), w)
               /\ List.length nuevas = List.length l).
  { induction l as [|i l IH]; intros exitosas fallidas.
    - exists []. split; [|reflexivity]. simpl. now rewrite app_nil_r.
    - destruct (confirmar_una_falla w i exitosas fallidas) as [motivo Hm].
      destruct (IH exitosas (fallidas ++ ["Reserva #" ^^ str i ^^ motivo]))
        as [nuevas [Hrun Hlen]].
      exists (("Reserva #" ^^ str i ^^ motivo) :: nuevas). split.
      + cbn [para]. unfold bind. rewrite Hm, Hrun. now rewrite <- app_assoc.
      + simpl. now rewrite Hlen. }
  destruct (H ids 0 []) as [nuevas [Hrun Hlen]]. exists nuevas. now split.
Qed.

(** C4. A stored reservation with status pendiente and an assigned room
    cannot be confirmed through [puede_confirmar]: the availability check
    counts the reservation's own row, so the answer is False.  Hence
    [confirmar_reserva_masiva] over ids of such reservations confirms
    none, reports one failure per id, in order, and writes nothing. *)
Theorem C4_puede_confirmar_false_on_pending
    (w : Mundo) (r : Reserva) (hab : Habitacion) (ids : list Z) :
  In r (reservas w) ->
  estado r = pendiente ->
  habitacion r = Some (hab_id hab) ->
  Habitacion_get (hab_id hab) w = Ok hab ->
  Forall (pendiente_con_habitacion w) ids ->
  esta_disponible w hab (fecha_reserva r) = false
  /\ puede_confirmar r w = (Ok false, w)
  /\ exists fallidas,
       confirmar_reserva_masiva ids w = (Ok (0, fallidas), w)
       /\ Forall2 (fun i texto => exists motivo,
                     texto = "Reserva #" ^^ str i ^^ motivo) ids fallidas.
Proof.
  intros Hin Hest Hhab Hget Hids. split; [|split].
  - apply esta_disponible_propia; auto.
  - destruct (puede_confirmar_pendiente w r (hab_id hab) Hin Hest Hhab)
      as [[hab' [_ Hp]]|[e [He _]]]; [exact Hp|congruence].
  - unfold confirmar_reserva_masiva.
    destruct (confirmar_bucle_pendientes w ids 0 [] Hids) as [nuevas [Hrun Hf2]].
    exists nuevas. now split.
Qed.

Lemma C4_puede_confirmar_witness :
  esta_disponible mundo_lleno hab_102 (fecha_reserva reserva_simple) = false
  /\ puede_confirmar reserva_simple mundo_lleno = (Ok false, mundo_lleno)
  /\ exists fallidas,
       confirmar_reserva_masiva [2] mundo_lleno = (Ok (0, fallidas), mundo_lleno)
       /\ Forall2 (fun i texto => exists motivo,
                     texto = "Reserva #" ^^ str i ^^ motivo) [2] fallidas.
Proof.
  apply (C4_puede_confirmar_false_on_pending mundo_lleno reserva_simple hab_102 [2]).
  - simpl. right. left. reflexivity.
  - reflexivity.
  - reflexivity.
  - reflexivity.
  - constructor; [|constructor]. exists reserva_simple. simpl.
    repeat split; try reflexivity; [right; left; reflexivity|discriminate].
Defined.

(* ================================================================== *)
(** ** Reassignment *)
(* ================================================================== *)

Lemma esta_disponible_sin_reservas (w : Mundo) (hab : Habitacion) (fecha : Fecha) :
  esta_disponible w hab fecha = true -> reservas_de w (hab_id hab) fecha = [].
Proof.
  unfold esta_disponible. rewrite negb_true_iff. apply existe_false.
Qed.

(** With the room free on the date, the guard of [save] finds nothing and
    the stored row is rewritten. *)
Lemma Reserva_save_disponible (w : Mundo) (self : Reserva) (hab : Habitacion) (i : Z) :
  habitacion self = Some (hab_id hab) ->
  esta_disponible w hab (fecha_reserva self) = true ->
  pk self = Some i ->
  (exists x, In x (reservas w) /\ pk x = Some i) ->
  Reserva_save self w
  = (Ok (con_sellos self (Some i) (fecha_creacion self) (ahora w)),
     con_reservas w
       (map (fun x => if opt_eqb (pk x) (Some i)
                      then con_sellos self (Some i) (fecha_creacion self) (ahora w)
                      else x) (reservas w))
       (sec_reserva w)).
Proof.
  intros Hhab Hdisp Hpk [x [Hx Hxpk]].
  assert (Hm : Model_save self w
               = (Ok (con_sellos self (Some i) (fecha_creacion self) (ahora w)),
                  con_reservas w
                    (map (fun x => if opt_eqb (pk x) (Some i)
                                   then con_sellos self (Some i)
                                          (fecha_creacion self) (ahora w)
                                   else x) (reservas w))
                    (sec_reserva w))).
  { unfold Model_save. rewrite Hpk.
    destruct (existsb _ (reservas w)) eqn:E; [reflexivity|].
    exfalso. assert (Ht : existsb (fun x => opt_eqb (pk x) (Some i)) (reservas w) = true).
    { apply existsb_exists. exists x. split; [exact Hx|]. now apply opt_eqb_eq. }
    congruence. }
  unfold Reserva_save. rewrite Hhab.
  unfold reservas_conflictivas.
  rewrite (esta_disponible_sin_reservas w hab _ Hdisp). simpl.
  now destruct (Estado_eqb (estado self) confirmada && verdadero (pk self)).
Qed.

(** C6 (as the code has it).  [cambiar_habitacion_reserva] validates the
    new room for the stored reservation: availability on the
    reservation's date first, then capacity against the party size.  An
    unavailable room fails with the not-available outcome, an available
    room below the party size fails with the insufficient-capacity
    outcome, and both leave the world unchanged; so a room below the
    party size always fails and never mutates the reservation.  Only an
    available room with enough capacity succeeds, and then the stored row
    is rewritten with the new room, its status kept. *)
Theorem C6_cambiar_habitacion_reserva_validates
    (w : Mundo) (reserva_id nueva_id : Z) (r : Reserva) (nueva : Habitacion) :
  Reserva_get reserva_id w = Ok r ->
  Habitacion_get nueva_id w = Ok nueva ->
  (esta_disponible w nueva (fecha_reserva r) = false ->
   cambiar_habitacion_reserva reserva_id nueva_id w
   = (Ok (false, "La nueva habitación no está disponible"), w))
  /\
  (esta_disponible w nueva (fecha_reserva r) = true ->
   cantidad_plazas nueva < cantidad_personas r ->
   cambiar_habitacion_reserva reserva_id nueva_id w
   = (Ok (false, "La habitación no tiene capacidad suficiente"), w))
  /\
  (cantidad_plazas nueva < cantidad_personas r ->
   exists texto,
     cambiar_habitacion_reserva reserva_id nueva_id w = (Ok (false, texto), w))
  /\
  (esta_disponible w nueva (fecha_reserva r) = true ->
   cantidad_personas r <= cantidad_plazas nueva ->
   cambiar_habitacion_reserva reserva_id nueva_id w
   = (Ok (true, "Habitación cambiada exitosamente"),
      con_reservas w
        (map (fun x => if opt_eqb (pk x) (Some reserva_id)
                       then con_sellos (con_habitacion r (Some nueva_id))
                              (Some reserva_id) (fecha_creacion r) (ahora w)
                       else x) (reservas w))
        (sec_reserva w))).
Proof.
  intros Hr Hn.
  destruct (Reserva_get_Ok _ _ _ Hr) as [Hin [Hpk _]].
  destruct (Habitacion_get_Ok _ _ _ Hn) as [_ Hid].
  assert (Hno : esta_disponible w nueva (fecha_reserva r) = false ->
                cambiar_habitacion_reserva reserva_id nueva_id w
                = (Ok (false, "La nueva habitación no está disponible"), w)).
  { intros Hd. unfold cambiar_habitacion_reserva, intenta, bind, eleva, consulta, ret.
    rewrite Hr, Hn, Hd. reflexivity. }
  assert (Hcap : esta_disponible w nueva (fecha_reserva r) = true ->
                 cantidad_plazas nueva < cantidad_personas r ->
                 cambiar_habitacion_reserva reserva_id nueva_id w
                 = (Ok (false, "La habitación no tiene capacidad suficiente"), w)).
  { intros Hd Hlt. unfold cambiar_habitacion_reserva, intenta, bind, eleva, consulta, ret.
    rewrite Hr, Hn, Hd. simpl negb. cbv iota.
    apply Z.ltb_lt in Hlt. rewrite Hlt. reflexivity. }
  split; [exact Hno|]. split; [exact Hcap|]. split.
  - intros Hlt. destruct (esta_disponible w nueva (fecha_reserva r)) eqn:Hd.
    + eexists. now apply Hcap.
    + eexists. now apply Hno.
  - intros Hd Hge.
    unfold cambiar_habitacion_reserva, intenta, bind, eleva, consulta, ret.
    rewrite Hr, Hn, Hd. change (negb true) with false. cbv beta iota.
    destruct (cantidad_plazas nueva <? cantidad_personas r) eqn:E;
      [apply Z.ltb_lt in E; lia|].
    rewrite (Reserva_save_disponible w (con_habitacion r (Some (hab_id nueva)))
               nueva reserva_id); simpl; auto.
    + now rewrite Hid.
    + exists r. now split.
Qed.

Lemma C6_cambiar_habitacion_reserva_witness :
  cambiar_habitacion_reserva 1 2 mundo_libre
  = (Ok (false, "La habitación no tiene capacidad suficiente"), mundo_libre).
Proof.
  apply (proj1 (proj2 (C6_cambiar_habitacion_reserva_validates
                         mundo_libre 1 2 reserva_doble hab_102
                         eq_refl eq_refl))).
  - reflexivity.
  - simpl. lia.
Defined.

(** C6 as stated fails: room 2 has one seat, the reservation is for two,
    and the room is also taken on that date, so the outcome is the
    not-available one, not insufficient capacity. *)
Lemma C6_counterexample_unavailable_reported_first :
  ~ (forall (w : Mundo) (reserva_id nueva_id : Z) (r : Reserva) (nueva : Habitacion),
        Reserva_get reserva_id w = Ok r ->
        Habitacion_get nueva_id w = Ok nueva ->
        cantidad_plazas nueva < cantidad_personas r ->
        fst (cambiar_habitacion_reserva reserva_id nueva_id w)
        = Ok (false, "La habitación no tiene capacidad suficiente")).
Proof.
  intros H.
  specialize (H mundo_lleno 1 2 reserva_doble hab_102 eq_refl eq_refl).
  assert (Hlt : cantidad_plazas hab_102 < cantidad_personas reserva_doble)
    by (simpl; lia).
  specialize (H Hlt). vm_compute in H. discriminate H.
Qed.

(** The admin view [cambiar_habitacion] applies the posted room without
    either validation: here a reservation for two moves to the one-seat
    room. *)
Lemma cambiar_habitacion_vista_sin_validar :
  exists w',
    cambiar_habitacion POST (Some 2) 1 mundo_libre
    = (Ok (Redirect "admin:reservas_reserva_change" (Some 1)), w')
    /\ map habitacion (reservas w') = [Some 2]
    /\ cantidad_plazas hab_102 < cantidad_personas reserva_doble.
Proof.
  eexists. split; [reflexivity|]. split; [reflexivity|]. simpl. lia.
Qed.

(* ================================================================== *)
(** ** Ordering and [first()] *)
(* ================================================================== *)

Lemma compare_refl (a : string) : String_as_OT.compare a a = Eq.
Proof.
  destruct (String_as_OT.compare_spec a a) as [_|H|H]; [reflexivity| |];
    exfalso; exact (StrictOrder_Irreflexive a H).
Qed.

Lemma str_leb_spec (a b : string) :
  str_leb a b = true <-> a = b \/ String_as_OT.lt a b.
Proof.
  unfold str_leb.
  destruct (String_as_OT.compare_spec a b) as [H|H|H]; split; auto;
    try discriminate.
  intros [->|H']; exfalso.
  - exact (StrictOrder_Irreflexive b H).
  - exact (StrictOrder_Irreflexive a (StrictOrder_Transitive _ _ _ H' H)).
Qed.

Lemma str_leb_total (a b : string) : str_leb a b = true \/ str_leb b a = true.
Proof.
  rewrite !str_leb_spec.
  destruct (String_as_OT.compare_spec a b) as [H|H|H]; auto.
Qed.

Lemma str_leb_trans (a b c : string) :
  str_leb a b = true -> str_leb b c = true -> str_leb a c = true.
Proof.
  rewrite !str_leb_spec. intros [->|H1] [->|H2]; auto.
  right. exact (StrictOrder_Transitive _ _ _ H1 H2).
Qed.

Section PrimeroMinimo.
Context {A : Type} (leb : A -> A -> bool).

Lemma insertar_In (x : A) (l : list A) (y : A) :
  In y (insertar leb x l) <-> y = x \/ In y l.
Proof.
  induction l as [|a l IH]; simpl.
  - intuition.
  - destruct (leb x a); simpl; [intuition|]. rewrite IH. intuition.
Qed.

Lemma ordenar_In (l : list A) (y : A) : In y (ordenar leb l) <-> In y l.
Proof.
  induction l as [|a l IH]; simpl; [tauto|].
  rewrite insertar_In, IH. intuition.
Qed.

Lemma ordenar_length (l : list A) : List.length (ordenar leb l) = List.length l.
Proof.
  induction l as [|a l IH]; simpl; [reflexivity|].
  rewrite <- IH. generalize (ordenar leb l) as s.
  induction s as [|b s IHs]; simpl; [reflexivity|].
  destruct (leb a b); simpl; [reflexivity|]. now rewrite IHs.
Qed.

(** On a list where [leb] is total and transitive, the head of the
    sorted list is below every element. *)
Lemma ordenar_head_min (l : list A) (x : A) :
  (forall a b, In a l -> In b l -> leb a b = true \/ leb b a = true) ->
  (forall a b c, In a l -> In b l -> In c l ->
                 leb a b = true -> leb b c = true -> leb a c = true) ->
  head (ordenar leb l) = Some x ->
  In x l /\ forall y, In y l -> leb x y = true.
Proof.
  revert x. induction l as [|a l IH]; intros x Htot Htr Hhead;
    [discriminate|].
  simpl in Hhead.
  assert (Htot' : forall a b, In a l -> In b l -> leb a b = true \/ leb b a = true)
    by (intros; apply Htot; now right).
  assert (Htr' : forall a b c, In a l -> In b l -> In c l ->
                   leb a b = true -> leb b c = true -> leb a c = true)
    by (intros u v t ? ? ?; apply Htr; now right).
  assert (Haa : leb a a = true)
    by (destruct (Htot a a) as [H|H]; auto; now left).
  destruct (ordenar leb l) as [|m s] eqn:E.
  - simpl in Hhead. injection Hhead as <-.
    assert (Hl : l = []).
    { destruct l as [|b l']; [reflexivity|].
      pose proof (ordenar_length (b :: l')) as Hlen.
      rewrite E in Hlen. discriminate. }
    subst. split; [now left|]. intros y [->|[]]. exact Haa.
  - destruct (IH m Htot' Htr' eq_refl) as [Hm Hmin].
    simpl in Hhead. destruct (leb a m) eqn:Ham.
    + injection Hhead as <-. split; [now left|].
      intros y [->|Hy]; [exact Haa|].
      apply (Htr a m y); auto; [now left|now right|now right].
    + injection Hhead as <-. split; [now right|].
      intros y [<-|Hy]; [|now apply Hmin].
      destruct (Htot a m) as [H|H]; auto; [now left|now right|congruence].
Qed.
End PrimeroMinimo.

(** Rooms of one hotel are ordered by [numero] alone. *)
Lemma Habitacion_ordering_mismo_hotel (w : Mundo) (a b : Habitacion) :
  hab_hotel a = hab_hotel b ->
  Habitacion_ordering w a b = str_leb (numero a) (numero b).
Proof.
  intros H. unfold Habitacion_ordering, hab_hotel_nombre. rewrite H.
  now rewrite compare_refl.
Qed.

(** [first()] on rooms of one hotel: a row of the queryset whose number is
    the least in string order. *)
Lemma Habitacion_first_min (w : Mundo) (hotel : Hotel) (qs : list Habitacion)
    (x : Habitacion) :
  (forall h, In h qs -> hab_hotel h = hotel_id hotel) ->
  Habitacion_first w qs = Some x ->
  In x qs /\ forall y, In y qs -> str_leb (numero x) (numero y) = true.
Proof.
  intros Hhot Hfirst. unfold Habitacion_first in Hfirst.
  apply ordenar_head_min in Hfirst.
  - destruct Hfirst as [Hx Hmin]. split; [exact Hx|].
    intros y Hy. rewrite <- (Habitacion_ordering_mismo_hotel w x y).
    + now apply Hmin.
    + rewrite (Hhot x Hx), (Hhot y Hy). reflexivity.
  - intros a b Ha Hb.
    rewrite !Habitacion_ordering_mismo_hotel
      by (rewrite ?(Hhot a Ha), ?(Hhot b Hb); reflexivity).
    apply str_leb_total.
  - intros a b c Ha Hb Hc.
    rewrite !Habitacion_ordering_mismo_hotel
      by (rewrite ?(Hhot a Ha), ?(Hhot b Hb), ?(Hhot c Hc); reflexivity).
    apply str_leb_trans.
Qed.

Lemma Habitacion_first_Some (w : Mundo) (qs : list Habitacion) :
  qs <> [] -> exists x, Habitacion_first w qs = Some x.
Proof.
  intros Hne. unfold Habitacion_first.
  destruct (ordenar (Habitacion_ordering w) qs) as [|x s] eqn:E.
  - exfalso. apply Hne. apply length_zero_iff_nil.
    rewrite <- (ordenar_length (Habitacion_ordering w)). now rewrite E.
  - now exists x.
Qed.

(* ================================================================== *)
(** ** Creation from the admin panel *)
(* ================================================================== *)

(** The candidates of the automatic search. *)
Lemma candidatas_In (w : Mundo) (hotel : Hotel) (fecha : Fecha) (cantidad : Z)
    (h : Habitacion) :
  In h (List.filter (fun x => cantidad_plazas x >=? cantidad)
                    (habitaciones_disponibles w hotel (Some fecha)))
  <-> In h (habitaciones w) /\ hab_hotel h = hotel_id hotel
      /\ esta_disponible w h fecha = true /\ cantidad <= cantidad_plazas h.
Proof.
  rewrite filter_In, habitaciones_disponibles_filter, filter_In.
  unfold habitacion_set. rewrite filter_In, Z.eqb_eq, Z.geb_le. tauto.
Qed.

(** Creating a reservation for a free room: a new confirmada row is
    appended. *)
Lemma crear_en_habitacion_libre (w : Mundo) (hu : Huesped) (hab : Habitacion)
    (fecha : Fecha) (cantidad : Z) :
  Reserva_create hu fecha cantidad hab confirmada w
  = (Ok (mkReserva (Some (sec_reserva w)) (hue_id hu) fecha cantidad
                   (Some (hab_id hab)) confirmada (ahora w) (ahora w) ""),
     con_reservas w
       (reservas w ++ [mkReserva (Some (sec_reserva w)) (hue_id hu) fecha cantidad
                                 (Some (hab_id hab)) confirmada (ahora w) (ahora w) ""])
       (sec_reserva w + 1)).
Proof. reflexivity. Qed.

(** C9 (as the code has it).  Without an explicit room id,
    [crear_reserva_desde_admin] looks among the hotel's rooms that are
    available on the date and have capacity >= the party size.  If there
    is none it returns the no-room outcome and creates nothing.
    Otherwise it takes [first()] in the model's default ordering, that
    is the candidate with the least room number in string order,
    whatever its capacity, and appends one confirmada reservation for
    it. *)
Theorem C9_crear_reserva_first_by_room_number
    (w : Mundo) (huesped_id hotel_id_ : Z) (fecha : Fecha) (cantidad : Z)
    (hu : Huesped) (hotel : Hotel) :
  Huesped_get huesped_id w = Ok hu ->
  Hotel_get hotel_id_ w = Ok hotel ->
  let candidatas :=
    List.filter (fun x => cantidad_plazas x >=? cantidad)
                (habitaciones_disponibles w hotel (Some fecha)) in
  (forall h, In h candidatas <->
             In h (habitaciones w) /\ hab_hotel h = hotel_id hotel
             /\ esta_disponible w h fecha = true /\ cantidad <= cantidad_plazas h)
  /\
  (candidatas = [] ->
   crear_reserva_desde_admin huesped_id fecha cantidad hotel_id_ None w
   = (Ok (None, "No hay habitaciones disponibles"), w))
  /\
  (candidatas <> [] ->
   exists hab,
     Habitacion_first w candidatas = Some hab
     /\ In hab candidatas
     /\ (forall y, In y candidatas -> str_leb (numero hab) (numero y) = true)
     /\ crear_reserva_desde_admin huesped_id fecha cantidad hotel_id_ None w
        = (Ok (Some (mkReserva (Some (sec_reserva w)) (hue_id hu) fecha cantidad
                               (Some (hab_id hab)) confirmada (ahora w) (ahora w) ""),
               "Reserva creada exitosamente"),
           con_reservas w
             (reservas w
              ++ [mkReserva (Some (sec_reserva w)) (hue_id hu) fecha cantidad
                            (Some (hab_id hab)) confirmada (ahora w) (ahora w) ""])
             (sec_reserva w + 1))).
Proof.
  intros Hhu Hhotel candidatas.
  split; [intros h; apply candidatas_In|]. split.
  - intros Hvacio.
    unfold crear_reserva_desde_admin, intenta, bind, eleva, consulta, ret.
    rewrite Hhu, Hhotel. fold candidatas. rewrite Hvacio. reflexivity.
  - intros Hne.
    destruct (Habitacion_first_Some w candidatas Hne) as [hab Hfirst].
    destruct (Habitacion_first_min w hotel candidatas hab) as [Hin Hmin];
      [|exact Hfirst|].
    { intros h Hh. now apply candidatas_In in Hh. }
    exists hab. split; [exact Hfirst|]. split; [exact Hin|].
    split; [exact Hmin|].
    pose proof (proj1 (candidatas_In _ _ _ _ _) Hin) as [_ [_ [Hdisp _]]].
    assert (Hex : existe candidatas = true)
      by (destruct candidatas; [congruence|reflexivity]).
    unfold crear_reserva_desde_admin, intenta, bind, eleva, consulta, ret.
    rewrite Hhu, Hhotel. fold candidatas. rewrite Hex.
    change (negb true) with false. cbv beta iota.
    rewrite Hfirst, Hdisp. change (negb true) with false. cbv beta iota.
    rewrite crear_en_habitacion_libre. reflexivity.
Qed.

Lemma C9_crear_reserva_witness :
  exists hab,
    Habitacion_first mundo_capacidades [hab_grande; hab_chica] = Some hab
    /\ In hab [hab_grande; hab_chica]
    /\ (forall y, In y [hab_grande; hab_chica] ->
                  str_leb (numero hab) (numero y) = true)
    /\ crear_reserva_desde_admin 1 200 2 1 None mundo_capacidades
       = (Ok (Some (mkReserva (Some 1) 1 200 2 (Some (hab_id hab)) confirmada
                              8640005 8640005 ""),
              "Reserva creada exitosamente"),
          con_reservas mundo_capacidades
            [mkReserva (Some 1) 1 200 2 (Some (hab_id hab)) confirmada
                       8640005 8640005 ""] 2).
Proof.
  apply (proj2 (proj2 (C9_crear_reserva_first_by_room_number
                         mundo_capacidades 1 1 200 2 ana hotel_sol
                         eq_refl eq_refl))).
  vm_compute. discriminate.
Defined.

(** C9 as stated fails: with room "1" of four seats and room "2" of two
    seats both free, a party of two gets room "1", not the smallest
    sufficient room. *)
Lemma C9_counterexample_not_by_capacity :
  ~ (forall (w : Mundo) (huesped_id hotel_id_ : Z) (fecha : Fecha) (cantidad : Z)
            (hu : Huesped) (hotel : Hotel) (reserva : Reserva) (texto : string)
            (w' : Mundo),
        Huesped_get huesped_id w = Ok hu ->
        Hotel_get hotel_id_ w = Ok hotel ->
        crear_reserva_desde_admin huesped_id fecha cantidad hotel_id_ None w
        = (Ok (Some reserva, texto), w') ->
        exists hab,
          habitacion reserva = Some (hab_id hab)
          /\ In hab (List.filter (fun x => cantidad_plazas x >=? cantidad)
                                 (habitaciones_disponibles w hotel (Some fecha)))
          /\ forall y,
               In y (List.filter (fun x => cantidad_plazas x >=? cantidad)
                                 (habitaciones_disponibles w hotel (Some fecha))) ->
               cantidad_plazas hab <= cantidad_plazas y).
Proof.
  intros H.
  destruct (H mundo_capacidades 1 1 200 2 ana hotel_sol _ _ _
              eq_refl eq_refl eq_refl) as [hab [Hhab [Hin Hmin]]].
  assert (Hchica : cantidad_plazas hab <= cantidad_plazas hab_chica).
  { apply Hmin. vm_compute. right. left. reflexivity. }
  vm_compute in Hin. destruct Hin as [<-|[<-|[]]].
  - vm_compute in Hchica. apply Hchica. reflexivity.
  - vm_compute in Hhab. discriminate Hhab.
Qed.

(* ================================================================== *)
(** ** Guest resolution by email *)
(* ================================================================== *)

Lemma get_DoesNotExist {A : Type} (modelo : string) (p : A -> bool) (tabla : list A) :
  (forall x, In x tabla -> p x = false) ->
  get modelo p tabla = Lanza (DoesNotExist modelo).
Proof.
  intros H. unfold get.
  destruct (List.filter p tabla) as [|a l] eqn:E; [reflexivity|].
  assert (Ha : In a (List.filter p tabla)) by (rewrite E; now left).
  apply filter_In in Ha. destruct Ha as [Hin Hp]. rewrite (H a Hin) in Hp.
  discriminate.
Qed.

(** A pendiente reservation is always written: the guard of [save] only
    looks at confirmada. *)
Lemma Reserva_create_pendiente (w : Mundo) (hu : Huesped) (hab : Habitacion)
    (fecha : Fecha) (cantidad : Z) :
  Reserva_create hu fecha cantidad hab pendiente w
  = (Ok (mkReserva (Some (sec_reserva w)) (hue_id hu) fecha cantidad
                   (Some (hab_id hab)) pendiente (ahora w) (ahora w) ""),
     con_reservas w
       (reservas w ++ [mkReserva (Some (sec_reserva w)) (hue_id hu) fecha cantidad
                                 (Some (hab_id hab)) pendiente (ahora w) (ahora w) ""])
       (sec_reserva w + 1)).
Proof. reflexivity. Qed.

(** The guest table after a POST to [completar_reserva] is the one left by
    the guest resolution. *)
Lemma completar_reserva_huespedes (w : Mundo) (fecha : Fecha)
    (cantidad hotel_id_ habitacion_id : Z) (f : Formulario)
    (hotel : Hotel) (hab : Habitacion) :
  cantidad <> 0 -> hotel_id_ <> 0 ->
  Hotel_get hotel_id_ w = Ok hotel ->
  Habitacion_get habitacion_id w = Ok hab ->
  huespedes (snd (completar_reserva
                    (mkSesion (Some fecha) (Some cantidad) (Some hotel_id_)
                              (Some habitacion_id)) POST f w))
  = huespedes (snd (resolver_huesped f w)).
Proof.
  intros Hc Hh Hhotel Hhab. unfold completar_reserva. simpl.
  destruct (cantidad =? 0) eqn:E1; [apply Z.eqb_eq in E1; contradiction|].
  destruct (hotel_id_ =? 0) eqn:E2; [apply Z.eqb_eq in E2; contradiction|].
  simpl. unfold bind at 1. unfold get_object_or_404 at 1. rewrite Hhotel.
  unfold bind at 1. unfold get_object_or_404 at 1. rewrite Hhab.
  unfold bind at 1.
  destruct (resolver_huesped f w) as [[hu|e] w1]; [|reflexivity].
  unfold bind at 1. rewrite Reserva_create_pendiente. reflexivity.
Qed.

(** C10. Guest resolution deduplicates by email.  On a reservation
    submission, when no guest has the submitted email one is created
    with the submitted name and phone; when exactly one has it, no guest
    is created and that record carries the submitted name and phone
    afterwards (rewritten in place when they differ, untouched when they
    do not). *)
Theorem C10_huesped_resuelto_por_email
    (w : Mundo) (fecha : Fecha) (cantidad hotel_id_ habitacion_id : Z)
    (f : Formulario) (hotel : Hotel) (hab : Habitacion) :
  cantidad <> 0 -> hotel_id_ <> 0 ->
  Hotel_get hotel_id_ w = Ok hotel ->
  Habitacion_get habitacion_id w = Ok hab ->
  let w' := snd (completar_reserva
                   (mkSesion (Some fecha) (Some cantidad) (Some hotel_id_)
                             (Some habitacion_id)) POST f w) in
  ((forall h, In h (huespedes w) -> email h <> post_email f) ->
   huespedes w'
   = huespedes w ++ [mkHuesped (sec_huesped w) (post_nombre f) (post_email f)
                               (post_telefono f)])
  /\
  (forall h,
     get "Huesped" (fun x => String.eqb (email x) (post_email f)) (huespedes w) = Ok h ->
     List.length (huespedes w') = List.length (huespedes w)
     /\ In (mkHuesped (hue_id h) (post_nombre f) (post_email f) (post_telefono f))
           (huespedes w')
     /\ (nombre h = post_nombre f /\ telefono h = post_telefono f ->
         huespedes w' = huespedes w)
     /\ (nombre h <> post_nombre f \/ telefono h <> post_telefono f ->
         huespedes w'
         = map (fun x => if hue_id x =? hue_id h
                         then mkHuesped (hue_id h) (post_nombre f) (post_email f)
                                        (post_telefono f)
                         else x) (huespedes w))).
Proof.
  intros Hc Hh Hhotel Hhab w'. subst w'.
  rewrite (completar_reserva_huespedes w fecha cantidad hotel_id_ habitacion_id
             f hotel hab Hc Hh Hhotel Hhab).
  split.
  - intros Hnone.
    unfold resolver_huesped, bind, Huesped_get_or_create.
    rewrite get_DoesNotExist; [reflexivity|].
    intros x Hx. apply String.eqb_neq. now apply Hnone.
  - intros h Hget.
    destruct (get_Ok _ _ _ _ Hget) as [Hin [Hem _]].
    apply String.eqb_eq in Hem.
    unfold resolver_huesped, bind, Huesped_get_or_create. rewrite Hget.
    simpl negb. cbv beta iota.
    destruct (String.eqb (nombre h) (post_nombre f)) eqn:En;
      destruct (String.eqb (telefono h) (post_telefono f)) eqn:Et;
      simpl; rewrite ?length_map;
      (split; [reflexivity|]); (split; [|split]);
      try (intros [Hn Ht]; apply String.eqb_eq in Hn, Ht; congruence);
      try (intros [Hn Ht]; reflexivity);
      try (intros _; rewrite Hem; reflexivity);
      try (intros [Hn|Ht]; [apply String.eqb_neq in Hn|apply String.eqb_neq in Ht];
           congruence).
    all: try (apply in_map_iff; exists h; rewrite Z.eqb_refl, Hem; now split).
    all: try (apply String.eqb_eq in En, Et; rewrite <- En, <- Et, <- Hem;
              now destruct h).
Qed.

Lemma C10_huesped_resuelto_witness :
  List.length (huespedes (snd (completar_reserva sesion_ana POST formulario_ana
                                                 mundo_abierto)))
  = List.length (huespedes mundo_abierto)
  /\ In (mkHuesped 1 "Ana Maria" "ana@example.org" "555-0199")
        (huespedes (snd (completar_reserva sesion_ana POST formulario_ana
                                           mundo_abierto))).
Proof.
  destruct (C10_huesped_resuelto_por_email mundo_abierto 200 2 1 1
              formulario_ana hotel_sol hab_101) as [_ H].
  - lia.
  - lia.
  - reflexivity.
  - reflexivity.
  - destruct (H ana eq_refl) as [Hlen [Hin _]]. split; [exact Hlen|exact Hin].
Defined.

(* ================================================================== *)
(** ** Confirmation from the admin view *)
(* ================================================================== *)

(** [confirmar_reserva] on a stored pendiente or confirmada row with a
    room never reaches the write: the availability check sees the row
    itself. *)
Lemma confirmar_reserva_no_escribe (w : Mundo) (i h : Z) (r : Reserva) :
  Reserva_get i w = Ok r ->
  estado r = pendiente \/ estado r = confirmada ->
  habitacion r = Some h ->
  exists res w',
    confirmar_reserva i w = (res, w')
    /\ reservas w' = reservas w
    /\ res <> Ok (Redirect "admin:reservas_reserva_changelist" None).
Proof.
  intros Hget Hact Hhab.
  destruct (Reserva_get_Ok _ _ _ Hget) as [Hin _].
  unfold confirmar_reserva, Reserva_habitacion.
  unfold bind at 1. unfold eleva at 1. rewrite Hget, Hhab.
  unfold bind at 1. unfold bind at 1. unfold eleva at 1.
  destruct (Habitacion_get h w) as [hab|e] eqn:Eh;
    [|do 2 eexists; split; [reflexivity|split; [reflexivity|discriminate]]].
  destruct (Habitacion_get_Ok _ _ _ Eh) as [_ Hid].
  unfold ret at 1. unfold bind at 1. unfold consulta at 1.
  rewrite (esta_disponible_propia w r hab Hin); [|now rewrite Hid|exact Hact].
  change (negb false) with true. cbv beta iota.
  unfold bind at 1. unfold eleva at 1.
  destruct (Hotel_get (hab_hotel hab) w) as [hotel|e];
    [|do 2 eexists; split; [reflexivity|split; [reflexivity|discriminate]]].
  unfold bind at 1. unfold consulta at 1.
  destruct (existe _); unfold bind, message_user, ret;
    do 2 eexists; (split; [reflexivity|split; [reflexivity|discriminate]]).
Qed.

(** C2 (code defect).  Reservation 1 is pendiente on room 1 for day 200
    and no other reservation exists, so nothing conflicts with it; yet
    [confirmar_reserva] answers that the room is not available and the
    reservation stays pendiente, because [esta_disponible] does not
    exclude the reservation itself. *)
Theorem C2_confirmar_reserva_counts_itself :
  reservas_conflictivas mundo_pendiente reserva_pendiente 1 = []
  /\ confirmar_reserva 1 mundo_pendiente
     = (Ok (Redirect "admin:reservas_reserva_change" (Some 1)),
        con_mensaje mundo_pendiente
          (ERROR, "No hay habitaciones disponibles en Sol para el 200"))
  /\ map estado (reservas (snd (confirmar_reserva 1 mundo_pendiente)))
     = [pendiente].
Proof. repeat split. Qed.

(* ================================================================== *)
(** ** Cancellation *)
(* ================================================================== *)

(** [cancelar_reserva] on any stored reservation, whatever its status:
    the row is rewritten as cancelada and the message is emitted. *)
Lemma cancelar_reserva_siempre (w : Mundo) (i : Z) (r : Reserva) :
  Reserva_get i w = Ok r ->
  cancelar_reserva i w
  = (Ok (Redirect "admin:reservas_reserva_changelist" None),
     con_mensaje
       (con_reservas w
          (map (fun x => if opt_eqb (pk x) (Some i)
                         then con_sellos (con_estado r cancelada) (Some i)
                                (fecha_creacion r) (ahora w)
                         else x) (reservas w))
          (sec_reserva w))
       (WARNING, "❌ Reserva #" ^^ str i ^^ " cancelada")).
Proof.
  intros Hget. destruct (Reserva_get_Ok _ _ _ Hget) as [Hin [Hpk _]].
  assert (Hsave : Reserva_save (con_estado r cancelada) w
                  = (Ok (con_sellos (con_estado r cancelada) (Some i)
                           (fecha_creacion r) (ahora w)),
                     con_reservas w
                       (map (fun x => if opt_eqb (pk x) (Some i)
                                      then con_sellos (con_estado r cancelada) (Some i)
                                             (fecha_creacion r) (ahora w)
                                      else x) (reservas w))
                       (sec_reserva w))).
  { assert (Hm : Model_save (con_estado r cancelada) w
                 = (Ok (con_sellos (con_estado r cancelada) (Some i)
                          (fecha_creacion r) (ahora w)),
                    con_reservas w
                      (map (fun x => if opt_eqb (pk x) (Some i)
                                     then con_sellos (con_estado r cancelada) (Some i)
                                            (fecha_creacion r) (ahora w)
                                     else x) (reservas w))
                      (sec_reserva w))).
    { unfold Model_save. cbn [pk con_estado]. rewrite Hpk.
      assert (Hex : existsb (fun x => opt_eqb (pk x) (Some i)) (reservas w) = true).
      { apply existsb_exists. exists r. split; [exact Hin|]. now apply opt_eqb_eq. }
      now rewrite Hex. }
    unfold Reserva_save. cbn [habitacion estado con_estado Estado_eqb andb].
    now destruct (habitacion r). }
  unfold cancelar_reserva. rewrite bind_eleva, Hget. unfold bind at 1.
  rewrite Hsave. reflexivity.
Qed.

(** C5 (code defect).  [cancelar_reserva] never consults
    [puede_cancelar]: a completada reservation, which [puede_cancelar]
    refuses, is set to cancelada; and cancelling it again writes and
    emits the message a second time. *)
Theorem C5_cancelar_reserva_unguarded :
  puede_cancelar reserva_completada = false
  /\ Reserva_get 1 mundo_completada = Ok reserva_completada
  /\ fst (cancelar_reserva 1 mundo_completada)
     = Ok (Redirect "admin:reservas_reserva_changelist" None)
  /\ map estado (reservas (snd (cancelar_reserva 1 mundo_completada)))
     = [cancelada]
  /\ mensajes (snd (cancelar_reserva 1 mundo_completada))
     = [(WARNING, "❌ Reserva #1 cancelada")]
  /\ fst (cancelar_reserva 1 (snd (cancelar_reserva 1 mundo_completada)))
     = Ok (Redirect "admin:reservas_reserva_changelist" None)
  /\ mensajes (snd (cancelar_reserva 1 (snd (cancelar_reserva 1 mundo_completada))))
     = [(WARNING, "❌ Reserva #1 cancelada"); (WARNING, "❌ Reserva #1 cancelada")].
Proof. repeat split. Qed.

(* ================================================================== *)
(** ** Room-date exclusivity *)
(* ================================================================== *)

Lemma exclusividad_sin_reservas (w : Mundo) : reservas w = [] -> exclusividad w.
Proof.
  intros H h fecha. unfold reservas_de. rewrite H. simpl. lia.
Qed.

(** An explicit room that is taken on the date is refused by
    [crear_reserva_desde_admin], before any write. *)
Lemma crear_reserva_desde_admin_ocupada (w : Mundo) (huesped_id hotel_id_ i : Z)
    (fecha : Fecha) (cantidad : Z) (hu : Huesped) (hotel : Hotel) (hab : Habitacion) :
  Huesped_get huesped_id w = Ok hu ->
  Hotel_get hotel_id_ w = Ok hotel ->
  i <> 0 ->
  Habitacion_get i w = Ok hab ->
  esta_disponible w hab fecha = false ->
  crear_reserva_desde_admin huesped_id fecha cantidad hotel_id_ (Some i) w
  = (Ok (None, "La habitación seleccionada no está disponible"), w).
Proof.
  intros Hhu Hhotel Hi Hhab Hd.
  unfold crear_reserva_desde_admin, intenta, bind, eleva, consulta, ret.
  rewrite Hhu, Hhotel. change (verdadero (Some i)) with (negb (i =? 0)).
  destruct (i =? 0) eqn:E; [apply Z.eqb_eq in E; contradiction|].
  change (negb false) with true. cbv beta iota. rewrite Hhab, Hd. reflexivity.
Qed.

(** The active rows of a room and date after appending a row. *)
Lemma reservas_de_insertar (w : Mundo) (r : Reserva) (s : Z) (h : Z) (fecha : Fecha) :
  reservas_de (con_reservas w (reservas w ++ [r]) s) h fecha
  = reservas_de w h fecha
    ++ (if opt_eqb (habitacion r) (Some h) && (fecha_reserva r =? fecha)
           && estado_in_confirmada_pendiente (estado r)
        then [r] else []).
Proof.
  unfold reservas_de. simpl. rewrite filter_app. reflexivity.
Qed.

(** Appending a row for a room that is free on the row's date keeps
    exclusivity. *)
Lemma insertar_exclusividad (w : Mundo) (r : Reserva) (s : Z) (hab : Habitacion) :
  exclusividad w ->
  habitacion r = Some (hab_id hab) ->
  esta_disponible w hab (fecha_reserva r) = true ->
  exclusividad (con_reservas w (reservas w ++ [r]) s).
Proof.
  intros Hex Hhab Hd h fecha. rewrite reservas_de_insertar, length_app.
  destruct (opt_eqb (habitacion r) (Some h) && (fecha_reserva r =? fecha)
            && estado_in_confirmada_pendiente (estado r)) eqn:E.
  - rewrite !andb_true_iff in E. destruct E as [[E1 E2] _].
    apply opt_eqb_eq in E1. apply Z.eqb_eq in E2. subst fecha.
    assert (h = hab_id hab) by congruence. subst h.
    rewrite (esta_disponible_sin_reservas w hab _ Hd). simpl. lia.
  - specialize (Hex h fecha). simpl. lia.
Qed.

Lemma filter_length_le {A : Type} (p : A -> bool) (l : list A) :
  (List.length (List.filter p l) <= List.length l)%nat.
Proof.
  induction l as [|a l IH]; simpl; [lia|]. destruct (p a); simpl; lia.
Qed.

(** With distinct keys, at most one row has a given key. *)
Lemma una_fila_por_clave (l : list Reserva) (k : option Z) :
  NoDup (map pk l) ->
  (List.length (List.filter (fun x => opt_eqb (pk x) k) l) <= 1)%nat.
Proof.
  induction l as [|a l IH]; simpl; intros Hnd; [lia|].
  inversion Hnd as [|? ? Ha Hl]; subst.
  destruct (opt_eqb (pk a) k) eqn:E; [|now apply IH].
  apply opt_eqb_eq in E. simpl.
  assert (Hnil : List.filter (fun x => opt_eqb (pk x) k) l = []).
  { destruct (List.filter (fun x => opt_eqb (pk x) k) l) as [|b l'] eqn:Ef;
      [reflexivity|].
    exfalso. assert (Hb : In b (List.filter (fun x => opt_eqb (pk x) k) l))
      by (rewrite Ef; now left).
    apply filter_In in Hb. destruct Hb as [Hb Hk]. apply opt_eqb_eq in Hk.
    apply Ha. rewrite E, <- Hk. now apply in_map. }
  rewrite Hnil. simpl. lia.
Qed.

(** Counting the rows that satisfy [p] after an UPDATE by key. *)
Lemma contar_tras_actualizar (p : Reserva -> bool) (k : option Z) (r' : Reserva)
    (l : list Reserva) :
  (List.length (List.filter p (map (fun x => if opt_eqb (pk x) k then r' else x) l))
   <= List.length (List.filter (fun x => p x && negb (opt_eqb (pk x) k)) l)
      + (if p r' then List.length (List.filter (fun x => opt_eqb (pk x) k) l) else 0))%nat.
Proof.
  induction l as [|a l IH]; simpl; [lia|].
  destruct (opt_eqb (pk a) k) eqn:E; simpl.
  - rewrite andb_false_r. destruct (p r'); simpl; lia.
  - rewrite andb_true_r. destruct (p a); simpl; lia.
Qed.

Lemma claves_tras_actualizar (i : Z) (r' : Reserva) (l : list Reserva) :
  pk r' = Some i ->
  map pk (map (fun x => if opt_eqb (pk x) (Some i) then r' else x) l) = map pk l.
Proof.
  intros Hpk. rewrite map_map. apply map_ext_in. intros a _.
  destruct (opt_eqb (pk a) (Some i)) eqn:E; [|reflexivity].
  apply opt_eqb_eq in E. congruence.
Qed.

(** The invariant speaks of the reservation table and its sequence only. *)
Lemma invariante_ext (w w' : Mundo) :
  reservas w' = reservas w -> sec_reserva w' = sec_reserva w ->
  invariante w -> invariante w'.
Proof.
  intros Hr Hs [[Hsec [Hnd Hpk]] Hex]. split; [split; [|split]|].
  - now rewrite Hs.
  - now rewrite Hr.
  - intros r Hin. rewrite Hr in Hin. rewrite Hs. now apply Hpk.
  - intros h fecha. unfold reservas_de. rewrite Hr. apply Hex.
Qed.

(** An UPDATE of the row with key [i] keeps the invariant when the new
    contents, if active, meet on their room and date only rows with that
    same key. *)
Lemma actualizar_invariante (w : Mundo) (self : Reserva) (i : Z) :
  invariante w ->
  pk self = Some i ->
  In (Some i) (map pk (reservas w)) ->
  (forall h, habitacion self = Some h ->
             estado_in_confirmada_pendiente (estado self) = true ->
             forall x, In x (reservas_de w h (fecha_reserva self)) -> pk x = Some i) ->
  invariante (snd (Model_save self w))
  /\ map pk (reservas (snd (Model_save self w))) = map pk (reservas w)
  /\ sec_reserva (snd (Model_save self w)) = sec_reserva w.
Proof.
  intros [[Hsec [Hnd Hpks]] Hex] Hpk Hin Hsolo.
  unfold Model_save. rewrite Hpk.
  assert (Hexi : existsb (fun x => opt_eqb (pk x) (Some i)) (reservas w) = true).
  { apply in_map_iff in Hin. destruct Hin as [x [Hx Hinx]].
    apply existsb_exists. exists x. split; [exact Hinx|]. now apply opt_eqb_eq. }
  rewrite Hexi. simpl.
  set (r' := con_sellos self (Some i) (fecha_creacion self) (ahora w)).
  assert (Hclaves : map pk (map (fun x => if opt_eqb (pk x) (Some i) then r' else x)
                                (reservas w)) = map pk (reservas w))
    by now apply claves_tras_actualizar.
  split; [|split; [exact Hclaves|reflexivity]].
  split; [split; [|split]|].
  - exact Hsec.
  - simpl. now rewrite Hclaves.
  - simpl. intros r Hr. apply in_map_iff in Hr. destruct Hr as [x [Hx Hinx]].
    destruct (opt_eqb (pk x) (Some i)) eqn:E.
    + subst r. apply opt_eqb_eq in E. destruct (Hpks x Hinx) as [j [Hj Hrange]].
      exists i. split; [reflexivity|]. congruence.
    + subst r. now apply Hpks.
  - intros h fecha. unfold reservas_de. simpl.
    set (p := fun r => opt_eqb (habitacion r) (Some h) && (fecha_reserva r =? fecha)
                       && estado_in_confirmada_pendiente (estado r)).
    pose proof (contar_tras_actualizar p (Some i) r' (reservas w)) as Hc.
    pose proof (una_fila_por_clave (reservas w) (Some i) Hnd) as Huna.
    destruct (p r') eqn:Ep.
    + assert (Hnil : List.filter (fun x => p x && negb (opt_eqb (pk x) (Some i)))
                                 (reservas w) = []).
      { destruct (List.filter _ (reservas w)) as [|b l'] eqn:Ef; [reflexivity|].
        exfalso.
        assert (Hb : In b (List.filter
                             (fun x => p x && negb (opt_eqb (pk x) (Some i)))
                             (reservas w))) by (rewrite Ef; now left).
        apply filter_In in Hb. destruct Hb as [Hb Hpb].
        apply andb_true_iff in Hpb. destruct Hpb as [Hpb Hne].
        unfold p in Ep, Hpb. simpl in Ep.
        rewrite !andb_true_iff in Ep. destruct Ep as [[E1 E2] E3].
        apply opt_eqb_eq in E1. apply Z.eqb_eq in E2.
        assert (Hx : pk b = Some i).
        { apply (Hsolo h E1 E3). unfold reservas_de. apply filter_In.
          split; [exact Hb|]. now rewrite E2. }
        apply negb_true_iff in Hne. rewrite Hx, opt_eqb_refl in Hne.
        discriminate. }
      rewrite Hnil in Hc. simpl in Hc. lia.
    + assert (Hle : (List.length
                       (List.filter (fun x => p x && negb (opt_eqb (pk x) (Some i)))
                                    (reservas w))
                     <= List.length (List.filter p (reservas w)))%nat).
      { clear. induction (reservas w) as [|a l IH]; simpl; [lia|].
        destruct (p a); simpl; [|exact IH].
        destruct (negb (opt_eqb (pk a) (Some i))); simpl; lia. }
      specialize (Hex h fecha). unfold reservas_de in Hex. fold p in Hex. lia.
Qed.

Lemma clave_positiva (w : Mundo) (i : Z) :
  claves_validas w -> In (Some i) (map pk (reservas w)) -> 0 < i.
Proof.
  intros [_ [_ Hpks]] Hin. apply in_map_iff in Hin. destruct Hin as [x [Hx Hinx]].
  destruct (Hpks x Hinx) as [j [Hj Hrange]].
  assert (j = i) by congruence. lia.
Qed.

(** [Reserva.save] on an instance of a stored row keeps the invariant and
    the set of keys, when the instance is confirmada (the guard of [save]
    then protects the room and date) or when its room and date hold no
    active row of another key. *)
Lemma Reserva_save_invariante (w : Mundo) (self : Reserva) (i : Z) :
  invariante w ->
  pk self = Some i ->
  In (Some i) (map pk (reservas w)) ->
  (estado self = confirmada
   \/ forall h, habitacion self = Some h ->
                estado_in_confirmada_pendiente (estado self) = true ->
                forall x, In x (reservas_de w h (fecha_reserva self)) ->
                          pk x = Some i) ->
  invariante (snd (Reserva_save self w))
  /\ map pk (reservas (snd (Reserva_save self w))) = map pk (reservas w)
  /\ sec_reserva (snd (Reserva_save self w)) = sec_reserva w.
Proof.
  intros Hinv Hpk Hin Hcond.
  assert (Hi : 0 < i) by (apply (clave_positiva w); [apply Hinv|exact Hin]).
  unfold Reserva_save.
  destruct (habitacion self) as [h|] eqn:Eh.
  - rewrite Hpk. simpl verdadero.
    destruct (i =? 0) eqn:E0; [apply Z.eqb_eq in E0; lia|]. simpl negb.
    rewrite andb_true_r.
    destruct (Estado_eqb (estado self) confirmada) eqn:Ee.
    + destruct (existe (reservas_conflictivas w self h)) eqn:Ec.
      * simpl. auto.
      * apply existe_false in Ec.
        apply (actualizar_invariante w self i); auto.
        intros h' Hh' _ x Hx. assert (h' = h) by congruence. subst h'.
        destruct (opt_eqb (pk x) (Some i)) eqn:Ex;
          [now apply opt_eqb_eq in Ex|].
        exfalso.
        assert (Hx' : In x (reservas_conflictivas w self h)).
        { unfold reservas_conflictivas. apply filter_In. split; [exact Hx|].
          now rewrite Hpk, Ex. }
        rewrite Ec in Hx'. exact Hx'.
    + apply (actualizar_invariante w self i); auto.
      destruct Hcond as [Hc|Hc];
        [rewrite Hc in Ee; discriminate|].
      intros h' Hh'. apply Hc. congruence.
  - apply (actualizar_invariante w self i); auto. intros h Hh. congruence.
Qed.

Lemma con_claves_ext (K : list (option Z)) (w w' : Mundo) :
  reservas w' = reservas w -> sec_reserva w' = sec_reserva w ->
  con_claves K w -> con_claves K w'.
Proof.
  intros Hr Hs [Hinv Hk]. split.
  - now apply (invariante_ext w).
  - now rewrite Hr.
Qed.

Lemma guardar_con_claves (K : list (option Z)) (w : Mundo) (self : Reserva) (i : Z) :
  con_claves K w ->
  pk self = Some i ->
  In (Some i) (map pk (reservas w)) ->
  (estado self = confirmada
   \/ forall h, habitacion self = Some h ->
                estado_in_confirmada_pendiente (estado self) = true ->
                forall x, In x (reservas_de w h (fecha_reserva self)) ->
                          pk x = Some i) ->
  con_claves K (snd (Reserva_save self w)).
Proof.
  intros [Hinv Hk] Hpk Hin Hcond.
  destruct (Reserva_save_invariante w self i Hinv Hpk Hin Hcond) as [H1 [H2 _]].
  split; [exact H1|]. now rewrite H2.
Qed.

(** A new row for a room that is free on the date keeps the invariant. *)
Lemma crear_con_claves (K : list (option Z)) (w : Mundo) (hu : Huesped)
    (hab : Habitacion) (fecha : Fecha) (cantidad : Z) (e : Estado) :
  con_claves K w ->
  esta_disponible w hab fecha = true ->
  con_claves K (snd (Reserva_create hu fecha cantidad hab e w)).
Proof.
  intros [[[Hsec [Hnd Hpks]] Hex] Hk] Hd.
  unfold Reserva_create, Reserva_save. cbn [habitacion pk verdadero].
  rewrite andb_false_r. unfold Model_save. cbn [pk snd].
  set (r := con_sellos _ _ _ _).
  split; [split; [split; [|split]|]|].
  - simpl. lia.
  - simpl. rewrite map_app. simpl.
    apply NoDup_app; [exact Hnd|repeat constructor; intros []|].
    intros k Hk1 [<-|[]]. apply in_map_iff in Hk1.
    destruct Hk1 as [x [Hx Hinx]]. destruct (Hpks x Hinx) as [j [Hj Hrange]].
    assert (j = sec_reserva w) by congruence. lia.
  - simpl. intros x Hx. apply in_app_iff in Hx. destruct Hx as [Hx|[<-|[]]].
    + destruct (Hpks x Hx) as [j [Hj Hrange]]. exists j. split; [exact Hj|lia].
    + exists (sec_reserva w). split; [reflexivity|lia].
  - apply (insertar_exclusividad w r _ hab); [exact Hex|reflexivity|exact Hd].
  - simpl. rewrite map_app. intros k Hk1. apply in_app_iff. left. now apply Hk.
Qed.

Lemma con_claves_mensaje (K : list (option Z)) (w : Mundo) (m : Nivel * string) :
  con_claves K w -> con_claves K (con_mensaje w m).
Proof. now apply con_claves_ext. Qed.

Lemma Reserva_get_clave (i : Z) (w : Mundo) (r : Reserva) :
  Reserva_get i w = Ok r -> pk r = Some i /\ In (Some i) (map pk (reservas w)).
Proof.
  intros H. destruct (Reserva_get_Ok _ _ _ H) as [Hin [Hpk _]].
  split; [exact Hpk|]. rewrite <- Hpk. now apply in_map.
Qed.

Lemma cancelar_reserva_conserva (K : list (option Z)) (i : Z) (w : Mundo) :
  con_claves K w -> con_claves K (snd (cancelar_reserva i w)).
Proof.
  intros H. unfold cancelar_reserva. rewrite bind_eleva.
  destruct (Reserva_get i w) as [r|e] eqn:E; [|exact H].
  destruct (Reserva_get_clave _ _ _ E) as [Hpk Hin].
  assert (H1 : con_claves K (snd (Reserva_save (con_estado r cancelada) w))).
  { apply (guardar_con_claves K w _ i); auto.
    right. intros h _ Hact. discriminate Hact. }
  rewrite bind_eq.
  destruct (fst (Reserva_save (con_estado r cancelada) w)) as [r1|e]; [|exact H1].
  now apply con_claves_mensaje.
Qed.

Lemma confirmar_reserva_conserva (K : list (option Z)) (i : Z) (w : Mundo) :
  con_claves K w -> con_claves K (snd (confirmar_reserva i w)).
Proof.
  intros H. unfold confirmar_reserva. rewrite bind_eleva.
  destruct (Reserva_get i w) as [r|e] eqn:E; [|exact H].
  destruct (Reserva_get_clave _ _ _ E) as [Hpk Hin].
  unfold Reserva_habitacion.
  destruct (habitacion r) as [h|] eqn:Eh; [|exact H].
  rewrite bind_assoc, bind_eleva.
  destruct (Habitacion_get h w) as [hab|e]; [|exact H].
  rewrite bind_ret, bind_consulta.
  destruct (esta_disponible w hab (fecha_reserva r)); cbn [negb].
  - assert (H1 : con_claves K (snd (Reserva_save (con_estado r confirmada) w))).
    { apply (guardar_con_claves K w _ i); auto. }
    rewrite bind_eq.
    destruct (fst (Reserva_save (con_estado r confirmada) w)) as [r1|e];
      [|exact H1].
    unfold Reserva_huesped. rewrite bind_eleva.
    destruct (Huesped_get _ _) as [hu|e]; [|exact H1].
    now apply con_claves_mensaje.
  - rewrite bind_eleva.
    destruct (Hotel_get (hab_hotel hab) w) as [hotel|e]; [|exact H].
    rewrite bind_consulta.
    destruct (existe _); now apply con_claves_mensaje.
Qed.

Lemma cambiar_habitacion_reserva_conserva (K : list (option Z)) (i j : Z) (w : Mundo) :
  con_claves K w -> con_claves K (snd (cambiar_habitacion_reserva i j w)).
Proof.
  intros H. unfold cambiar_habitacion_reserva. rewrite intenta_ret_snd.
  rewrite bind_eleva.
  destruct (Reserva_get i w) as [r|e] eqn:E; [|exact H].
  destruct (Reserva_get_clave _ _ _ E) as [Hpk Hin].
  rewrite bind_eleva.
  destruct (Habitacion_get j w) as [nueva|e]; [|exact H].
  rewrite bind_consulta.
  destruct (esta_disponible w nueva (fecha_reserva r)) eqn:Ed; cbn [negb];
    [|exact H].
  destruct (cantidad_plazas nueva <? cantidad_personas r); [exact H|].
  assert (H1 : con_claves K (snd (Reserva_save
                                    (con_habitacion r (Some (hab_id nueva))) w))).
  { apply (guardar_con_claves K w _ i); auto.
    right. intros h Hh _ x Hx. simpl in Hh, Hx.
    assert (h = hab_id nueva) by congruence. subst h.
    rewrite (esta_disponible_sin_reservas w nueva _ Ed) in Hx. destruct Hx. }
  rewrite bind_eq.
  destruct (fst (Reserva_save (con_habitacion r (Some (hab_id nueva))) w));
    exact H1.
Qed.

Lemma verificar_y_crear_conserva (K : list (option Z)) (w : Mundo) (hu : Huesped)
    (hab : Habitacion) (fecha : Fecha) (cantidad : Z) :
  con_claves K w ->
  con_claves K
    (snd (bind (consulta (fun w0 => esta_disponible w0 hab fecha))
               (fun disponible =>
                  if negb disponible
                  then ret (None, "La habitación seleccionada no está disponible")
                  else
                    bind (Reserva_create hu fecha cantidad hab confirmada)
                         (fun reserva =>
                            ret (Some reserva, "Reserva creada exitosamente")))
               w)).
Proof.
  intros H. rewrite bind_consulta.
  destruct (esta_disponible w hab fecha) eqn:Ed; cbn [negb]; [|exact H].
  rewrite bind_eq.
  pose proof (crear_con_claves K w hu hab fecha cantidad confirmada H Ed) as H1.
  destruct (fst (Reserva_create hu fecha cantidad hab confirmada w)); exact H1.
Qed.

Lemma crear_reserva_desde_admin_conserva (K : list (option Z))
    (huesped_id : Z) (fecha : Fecha) (cantidad hotel_id_ : Z)
    (habitacion_id : option Z) (w : Mundo) :
  con_claves K w ->
  con_claves K (snd (crear_reserva_desde_admin huesped_id fecha cantidad hotel_id_
                                               habitacion_id w)).
Proof.
  intros H. unfold crear_reserva_desde_admin. rewrite intenta_ret_snd.
  rewrite bind_eleva.
  destruct (Huesped_get huesped_id w) as [hu|e]; [|exact H].
  rewrite bind_eleva.
  destruct (Hotel_get hotel_id_ w) as [hotel|e]; [|exact H].
  assert (Hauto :
    con_claves K
      (snd (bind (consulta (fun w0 =>
                    List.filter (fun x => cantidad_plazas x >=? cantidad)
                                (habitaciones_disponibles w0 hotel (Some fecha))))
                 (fun disponibles =>
                    if negb (existe disponibles)
                    then ret (None, "No hay habitaciones disponibles")
                    else
                      bind (consulta (fun w0 => Habitacion_first w0 disponibles))
                           (fun primera =>
                              match primera with
                              | Some hab =>
                                  bind (consulta (fun w0 => esta_disponible w0 hab fecha))
                                    (fun disponible =>
                                       if negb disponible
                                       then ret (None, "La habitación seleccionada no está disponible")
                                       else
                                         bind (Reserva_create hu fecha cantidad hab confirmada)
                                           (fun reserva =>
                                              ret (Some reserva, "Reserva creada exitosamente")))
                              | None =>
                                  lanza (AttributeError
                                    "'NoneType' object has no attribute 'esta_disponible'")
                              end))
                 w))).
  { rewrite bind_consulta.
    destruct (existe _); cbn [negb]; [|exact H].
    rewrite bind_consulta.
    destruct (Habitacion_first w _) as [hab|]; [|exact H].
    now apply verificar_y_crear_conserva. }
  destruct habitacion_id as [i|]; [|exact Hauto].
  destruct (verdadero (Some i)); [|exact Hauto].
  rewrite bind_eleva.
  destruct (Habitacion_get i w) as [hab|e]; [|exact H].
  now apply verificar_y_crear_conserva.
Qed.

Lemma puede_confirmar_snd (r : Reserva) (w : Mundo) : snd (puede_confirmar r w) = w.
Proof.
  unfold puede_confirmar, Reserva_habitacion.
  destruct (habitacion r) as [h|]; [|reflexivity].
  rewrite bind_assoc, bind_eleva.
  now destruct (Habitacion_get h w).
Qed.

Lemma confirmar_una_conserva (K : list (option Z)) (i : Z) (acc : Z * list string)
    (w : Mundo) :
  con_claves K w -> con_claves K (snd (confirmar_una i acc w)).
Proof.
  intros H. destruct acc as [exitosas fallidas]. unfold confirmar_una.
  rewrite intenta_ret_snd. rewrite bind_eleva.
  destruct (Reserva_get i w) as [r|e] eqn:E; [|exact H].
  destruct (Reserva_get_clave _ _ _ E) as [Hpk Hin].
  rewrite bind_eq, puede_confirmar_snd.
  destruct (fst (puede_confirmar r w)) as [[|]|e]; try exact H.
  assert (H1 : con_claves K (snd (Reserva_save (con_estado r confirmada) w))).
  { apply (guardar_con_claves K w _ i); auto. }
  rewrite bind_eq.
  destruct (fst (Reserva_save (con_estado r confirmada) w)); exact H1.
Qed.

Lemma confirmar_reserva_masiva_conserva (K : list (option Z)) (ids : list Z)
    (w : Mundo) :
  con_claves K w -> con_claves K (snd (confirmar_reserva_masiva ids w)).
Proof.
  unfold confirmar_reserva_masiva. apply para_conserva.
  intros i acc w0 _. apply confirmar_una_conserva.
Qed.

(** The two bulk actions: the rows were fetched when the loop started, and
    their keys stay in the table while it runs. *)
Lemma accion_conserva (e : Estado) (mensaje : Reserva -> M unit)
    (filas : list Reserva) (w : Mundo) :
  e = confirmada \/ estado_in_confirmada_pendiente e = false ->
  (forall r w0, reservas (snd (mensaje r w0)) = reservas w0
                /\ sec_reserva (snd (mensaje r w0)) = sec_reserva w0) ->
  (forall r, In r filas -> exists i, pk r = Some i) ->
  con_claves (map pk filas) w ->
  con_claves (map pk filas)
    (snd (para filas tt
            (fun reserva _ =>
               if negb (Estado_eqb (estado reserva) e)
               then bind (Reserva_save (con_estado reserva e)) mensaje
               else ret tt) w)).
Proof.
  intros He Hm Hpks. apply para_conserva. intros r [] w0 Hr H.
  destruct (negb (Estado_eqb (estado r) e)); [|exact H].
  destruct (Hpks r Hr) as [i Hpk].
  assert (Hin : In (Some i) (map pk (reservas w0))).
  { destruct H as [_ Hk]. apply Hk. rewrite <- Hpk. now apply in_map. }
  assert (H1 : con_claves (map pk filas) (snd (Reserva_save (con_estado r e) w0))).
  { apply (guardar_con_claves _ w0 _ i); auto.
    destruct He as [->|He]; [now left|].
    right. intros h _ Hact. simpl in Hact. congruence. }
  rewrite bind_eq.
  destruct (fst (Reserva_save (con_estado r e) w0)) as [r1|ex]; [|exact H1].
  destruct (Hm r1 (snd (Reserva_save (con_estado r e) w0))) as [Hm1 Hm2].
  now apply (con_claves_ext _ (snd (Reserva_save (con_estado r e) w0))).
Qed.

Lemma filas_con_clave (w : Mundo) (filas : list Reserva) :
  invariante w -> incl filas (reservas w) ->
  (forall r, In r filas -> exists i, pk r = Some i)
  /\ con_claves (map pk filas) w.
Proof.
  intros Hinv Hincl. split.
  - intros r Hr. destruct Hinv as [[_ [_ Hpks]] _].
    destruct (Hpks r (Hincl r Hr)) as [i [Hi _]]. now exists i.
  - split; [exact Hinv|]. intros k Hk. apply in_map_iff in Hk.
    destruct Hk as [r [<- Hr]]. apply in_map. now apply Hincl.
Qed.

Lemma confirmar_reservas_conserva (queryset : Mundo -> list Reserva) (w : Mundo) :
  (forall w0, incl (queryset w0) (reservas w0)) ->
  invariante w -> invariante (snd (confirmar_reservas queryset w)).
Proof.
  intros Hq Hinv. unfold confirmar_reservas. rewrite bind_consulta.
  destruct (filas_con_clave w (queryset w) Hinv (Hq w)) as [Hpks Hk].
  refine (proj1 (accion_conserva confirmada _ (queryset w) w _ _ Hpks Hk)).
  - now left.
  - intros r w0. unfold Reserva_huesped. rewrite bind_eleva.
    now destruct (Huesped_get (huesped r) w0).
Qed.

Lemma cancelar_reservas_conserva (queryset : Mundo -> list Reserva) (w : Mundo) :
  (forall w0, incl (queryset w0) (reservas w0)) ->
  invariante w -> invariante (snd (cancelar_reservas queryset w)).
Proof.
  intros Hq Hinv. unfold cancelar_reservas. rewrite bind_consulta.
  destruct (filas_con_clave w (queryset w) Hinv (Hq w)) as [Hpks Hk].
  refine (proj1 (accion_conserva cancelada _ (queryset w) w _ _ Hpks Hk)).
  - now right.
  - intros r w0. now split.
Qed.

Lemma con_claves_nil (w : Mundo) : invariante w <-> con_claves [] w.
Proof.
  split; [intros H; split; [exact H|intros k []]|now intros [H _]].
Qed.

(** Every operation that checks before it writes keeps the invariant,
    hence room-date exclusivity, along any sequence of calls. *)
Lemma paso_invariante (w w' : Mundo) : invariante w -> paso w w' -> invariante w'.
Proof.
  intros Hinv Hp. destruct Hp.
  - apply con_claves_nil. apply crear_reserva_desde_admin_conserva.
    now apply con_claves_nil.
  - apply con_claves_nil. apply cambiar_habitacion_reserva_conserva.
    now apply con_claves_nil.
  - apply con_claves_nil. apply confirmar_reserva_conserva.
    now apply con_claves_nil.
  - now apply confirmar_reservas_conserva.
  - apply con_claves_nil. apply confirmar_reserva_masiva_conserva.
    now apply con_claves_nil.
  - apply con_claves_nil. apply cancelar_reserva_conserva.
    now apply con_claves_nil.
  - now apply cancelar_reservas_conserva.
Qed.

Lemma pasos_invariante (w w' : Mundo) :
  invariante w -> pasos w w' -> exclusividad w'.
Proof.
  intros Hinv Hp.
  assert (H : invariante w').
  { induction Hp as [|w1 w2 _ IH Hstep]; [exact Hinv|].
    exact (paso_invariante w1 w2 IH Hstep). }
  apply H.
Qed.

(** The guest resolution touches the guest table only. *)
Lemma resolver_huesped_reservas (f : Formulario) (w : Mundo) :
  reservas (snd (resolver_huesped f w)) = reservas w
  /\ sec_reserva (snd (resolver_huesped f w)) = sec_reserva w
  /\ ahora (snd (resolver_huesped f w)) = ahora w.
Proof.
  unfold resolver_huesped, Huesped_get_or_create. rewrite bind_eq.
  destruct (get "Huesped" _ (huespedes w)) as [hu|e].
  - cbn [fst snd negb].
    destruct (negb (String.eqb (nombre hu) (post_nombre f))
              || negb (String.eqb (telefono hu) (post_telefono f)));
      repeat split.
  - destruct e; repeat split.
Qed.

(** A POST to [completar_reserva] with a complete session writes the
    pendiente row whether or not the room is free on the date. *)
Lemma completar_reserva_no_verifica (w : Mundo) (fecha : Fecha)
    (cantidad hotel_id_ habitacion_id : Z) (f : Formulario)
    (hotel : Hotel) (hab : Habitacion) (hu : Huesped) :
  cantidad <> 0 -> hotel_id_ <> 0 ->
  Hotel_get hotel_id_ w = Ok hotel ->
  Habitacion_get habitacion_id w = Ok hab ->
  fst (resolver_huesped f w) = Ok hu ->
  reservas (snd (completar_reserva
                   (mkSesion (Some fecha) (Some cantidad) (Some hotel_id_)
                             (Some habitacion_id)) POST f w))
  = reservas w
    ++ [mkReserva (Some (sec_reserva w)) (hue_id hu) fecha cantidad
                  (Some (hab_id hab)) pendiente (ahora w) (ahora w) ""].
Proof.
  intros Hc Hh Hhotel Hhab Hhu. unfold completar_reserva. simpl.
  destruct (cantidad =? 0) eqn:E1; [apply Z.eqb_eq in E1; contradiction|].
  destruct (hotel_id_ =? 0) eqn:E2; [apply Z.eqb_eq in E2; contradiction|].
  simpl. unfold bind at 1. unfold get_object_or_404 at 1. rewrite Hhotel.
  unfold bind at 1. unfold get_object_or_404 at 1. rewrite Hhab.
  rewrite bind_eq, Hhu.
  destruct (resolver_huesped_reservas f w) as [Hr [Hs Ha]].
  unfold bind at 1. rewrite Reserva_create_pendiente. cbn [bind message_user ret snd].
  simpl. now rewrite Hr, Hs, Ha.
Qed.

(** C1 (code defect).  With nothing booked the invariant holds.  Two
    guest submissions through [completar_reserva] for room 1 on day 200
    are both written as pendiente, with no availability check, and the
    invariant is broken. *)
Theorem C1_completar_reserva_breaks_exclusivity :
  let w1 := snd (completar_reserva sesion_ana POST formulario_ana mundo_abierto) in
  let w2 := snd (completar_reserva sesion_ana POST formulario_luis w1) in
  exclusividad mundo_abierto
  /\ fst (completar_reserva sesion_ana POST formulario_ana mundo_abierto)
     = Ok (Redirect "detalle_reserva" (Some 1), sesion_limpia)
  /\ fst (completar_reserva sesion_ana POST formulario_luis w1)
     = Ok (Redirect "detalle_reserva" (Some 2), sesion_limpia)
  /\ map (fun r => (pk r, habitacion r, fecha_reserva r, estado r)) (reservas w2)
     = [(Some 1, Some 1, 200, pendiente); (Some 2, Some 1, 200, pendiente)]
  /\ exclusividadb w2 = false
  /\ ~ exclusividad w2.
Proof.
  repeat split.
  - now apply exclusividad_sin_reservas.
  - intros H. specialize (H 1 200). vm_compute in H. lia.
Qed.

(* ================================================================== *)
(** ** Sorting *)
(* ================================================================== *)

Section OrdenarOrdenado.
Context {A : Type} (leb : A -> A -> bool).
Hypothesis leb_total : forall a b, leb a b = true \/ leb b a = true.
Hypothesis leb_trans : forall a b c, leb a b = true -> leb b c = true -> leb a c = true.

Lemma insertar_ordenado (x : A) (l : list A) :
  StronglySorted (fun a b => leb a b = true) l ->
  StronglySorted (fun a b => leb a b = true) (insertar leb x l).
Proof.
  induction l as [|y l IH]; simpl; intros Hs.
  - constructor; constructor.
  - inversion Hs as [|? ? Hl Hy]; subst.
    destruct (leb x y) eqn:E.
    + constructor; [exact Hs|]. constructor; [exact E|].
      eapply Forall_impl; [|exact Hy]. intros z Hz. now apply (leb_trans x y z).
    + constructor; [now apply IH|].
      apply Forall_forall. intros z Hz. apply insertar_In in Hz.
      destruct Hz as [->|Hz].
      * destruct (leb_total x y) as [H|H]; [congruence|exact H].
      * rewrite Forall_forall in Hy. now apply Hy.
Qed.

Lemma ordenar_ordenado (l : list A) :
  StronglySorted (fun a b => leb a b = true) (ordenar leb l).
Proof.
  induction l as [|x l IH]; simpl; [constructor|now apply insertar_ordenado].
Qed.
End OrdenarOrdenado.

Lemma StronglySorted_impl {A : Type} (R S : A -> A -> Prop) (l : list A) :
  (forall a b, R a b -> S a b) -> StronglySorted R l -> StronglySorted S l.
Proof.
  intros HRS Hs. induction Hs as [|a l Hl IH Ha]; constructor; [exact IH|].
  eapply Forall_impl; [|exact Ha]. intros b. apply HRS.
Qed.

Lemma por_fecha_total (a b : Reserva) : por_fecha a b = true \/ por_fecha b a = true.
Proof. unfold por_fecha. rewrite !Z.leb_le. lia. Qed.

Lemma por_fecha_trans (a b c : Reserva) :
  por_fecha a b = true -> por_fecha b c = true -> por_fecha a c = true.
Proof. unfold por_fecha. rewrite !Z.leb_le. lia. Qed.

Lemma por_fecha_desc_total (a b : Reserva) :
  por_fecha_desc a b = true \/ por_fecha_desc b a = true.
Proof. unfold por_fecha_desc. rewrite !Z.leb_le. lia. Qed.

Lemma por_fecha_desc_trans (a b c : Reserva) :
  por_fecha_desc a b = true -> por_fecha_desc b c = true -> por_fecha_desc a c = true.
Proof. unfold por_fecha_desc. rewrite !Z.leb_le. lia. Qed.

Lemma filter_todo {A : Type} (p : A -> bool) (l : list A) :
  (forall x, In x l -> p x = true) -> List.filter p l = l.
Proof.
  induction l as [|a l IH]; simpl; intros H; [reflexivity|].
  rewrite (H a (or_introl eq_refl)). f_equal. apply IH. intros x Hx. apply H. now right.
Qed.

Lemma Hotel_get_Ok (i : Z) (w : Mundo) (h : Hotel) :
  Hotel_get i w = Ok h -> In h (hoteles w) /\ hotel_id h = i.
Proof.
  intros H. apply get_Ok in H. destruct H as [Hin [Hp _]].
  apply Z.eqb_eq in Hp. now split.
Qed.

(* ================================================================== *)
(** ** Alternatives for a reservation *)
(* ================================================================== *)

(** X1. [obtener_alternativas] reads only: without a room it is empty;
    with a room it is exactly the rooms of that room's hotel that are
    free on the reservation's date, seat the party and are not the
    current room.  For a stored pendiente or confirmada reservation the
    current room is never free, so the result is the very list the admin
    view [cambiar_habitacion] offers. *)
Theorem X1_obtener_alternativas_spec
    (w : Mundo) (self : Reserva) (h : Z) (hab : Habitacion) (hotel : Hotel) :
  habitacion self = Some h ->
  Habitacion_get h w = Ok hab ->
  Hotel_get (hab_hotel hab) w = Ok hotel ->
  obtener_alternativas (con_habitacion self None) w = (Ok [], w)
  /\ exists l,
       obtener_alternativas self w = (Ok l, w)
       /\ (forall x, In x l <->
                     In x (habitaciones w) /\ hab_hotel x = hab_hotel hab
                     /\ esta_disponible w x (fecha_reserva self) = true
                     /\ cantidad_personas self <= cantidad_plazas x
                     /\ hab_id x <> h)
       /\ (In self (reservas w) ->
           estado self = pendiente \/ estado self = confirmada ->
           l = List.filter (fun x => cantidad_plazas x >=? cantidad_personas self)
                           (habitaciones_disponibles w hotel
                                                     (Some (fecha_reserva self)))).
Proof.
  intros Hhab Hget Hhotel. split; [reflexivity|].
  destruct (Habitacion_get_Ok _ _ _ Hget) as [_ Hid].
  destruct (Hotel_get_Ok _ _ _ Hhotel) as [_ Hhid].
  eexists. split; [|split].
  - unfold obtener_alternativas, Reserva_habitacion. rewrite Hhab.
    rewrite bind_assoc, bind_eleva, Hget, bind_ret, bind_eleva, Hhotel.
    reflexivity.
  - intros x. rewrite filter_In, candidatas_In, negb_true_iff, Z.eqb_neq.
    rewrite Hhid, Hid. tauto.
  - intros Hin Hact. apply filter_todo. intros x Hx.
    apply candidatas_In in Hx. destruct Hx as [_ [_ [Hd _]]].
    apply negb_true_iff, Z.eqb_neq. intros Heq.
    rewrite (esta_disponible_propia w self x Hin) in Hd; [discriminate| |exact Hact].
    rewrite Hhab. f_equal. congruence.
Qed.

Lemma X1_obtener_alternativas_witness :
  exists l,
    obtener_alternativas reserva_individual mundo_individual = (Ok l, mundo_individual)
    /\ (forall x, In x l <->
                  In x (habitaciones mundo_individual) /\ hab_hotel x = hab_hotel hab_101
                  /\ esta_disponible mundo_individual x 200 = true
                  /\ 1 <= cantidad_plazas x
                  /\ hab_id x <> 1)
    /\ (In reserva_individual (reservas mundo_individual) ->
        estado reserva_individual = pendiente \/ estado reserva_individual = confirmada ->
        l = List.filter (fun x => cantidad_plazas x >=? 1)
                        (habitaciones_disponibles mundo_individual hotel_sol (Some 200))).
Proof.
  apply (proj2 (X1_obtener_alternativas_spec mundo_individual reserva_individual
                  1 hab_101 hotel_sol eq_refl eq_refl eq_refl)).
Defined.

(* ================================================================== *)
(** ** Days left, upcoming, past, priority *)
(* ================================================================== *)

(** X2. The admin priority of a reservation is decided by the days left:
    3 exactly for today, 2 for one or two days ahead, 1 for three to
    seven days ahead and 0 otherwise; so it is positive exactly for the
    reservations [esta_proxima] accepts, it is 0 for every past one, and
    no reservation is both upcoming and past. *)
Theorem X2_reserva_prioridad_spec (w : Mundo) (self : Reserva) :
  (reserva_prioridad w self = 3 <-> dias_restantes w self = 0)
  /\ (reserva_prioridad w self = 2 <-> 1 <= dias_restantes w self <= 2)
  /\ (reserva_prioridad w self = 1 <-> 3 <= dias_restantes w self <= 7)
  /\ (reserva_prioridad w self = 0 <->
      dias_restantes w self < 0 \/ 7 < dias_restantes w self)
  /\ (0 < reserva_prioridad w self <-> esta_proxima w self = true)
  /\ (esta_pasada w self = true -> reserva_prioridad w self = 0)
  /\ (esta_proxima w self = true -> esta_pasada w self = false).
Proof.
  unfold reserva_prioridad, esta_proxima, esta_pasada.
  set (d := dias_restantes w self).
  rewrite andb_true_iff, !Z.leb_le, Z.ltb_lt.
  destruct (d <? 0) eqn:E1; [apply Z.ltb_lt in E1|apply Z.ltb_ge in E1].
  - repeat split; intros; try lia; try discriminate.
  - destruct (d =? 0) eqn:E2; [apply Z.eqb_eq in E2|apply Z.eqb_neq in E2].
    + repeat split; intros; try lia; try discriminate.
    + destruct (d <=? 2) eqn:E3; [apply Z.leb_le in E3|apply Z.leb_gt in E3].
      * repeat split; intros; try lia; try discriminate.
      * destruct (d <=? 7) eqn:E4; [apply Z.leb_le in E4|apply Z.leb_gt in E4];
          repeat split; intros; try lia; try discriminate.
Qed.

(** X3. [get_reservas_proximas] is exactly the stored confirmada
    reservations that [esta_proxima] accepts, [get_reservas_hoy] exactly
    those with no days left, and every reservation of today is among the
    upcoming ones. *)
Theorem X3_get_reservas_proximas_spec (w : Mundo) :
  (forall r, In r (get_reservas_proximas w) <->
             In r (reservas w) /\ estado r = confirmada /\ esta_proxima w r = true)
  /\ (forall r, In r (get_reservas_hoy w) <->
                In r (reservas w) /\ estado r = confirmada
                /\ dias_restantes w r = 0)
  /\ incl (get_reservas_hoy w) (get_reservas_proximas w).
Proof.
  assert (He : forall r, Estado_eqb (estado r) confirmada = true
                         <-> estado r = confirmada).
  { intros r. destruct (estado r); simpl; split; congruence. }
  assert (H1 : forall r, In r (get_reservas_proximas w) <->
                         In r (reservas w) /\ estado r = confirmada
                         /\ esta_proxima w r = true).
  { intros r. unfold get_reservas_proximas, esta_proxima, dias_restantes.
    rewrite filter_In, !andb_true_iff, !Z.leb_le, He.
    split; intros; repeat split; try tauto; lia. }
  assert (H2 : forall r, In r (get_reservas_hoy w) <->
                         In r (reservas w) /\ estado r = confirmada
                         /\ dias_restantes w r = 0).
  { intros r. unfold get_reservas_hoy, dias_restantes.
    rewrite filter_In, !andb_true_iff, Z.eqb_eq, He.
    split; intros; repeat split; try tauto; lia. }
  split; [exact H1|]. split; [exact H2|].
  intros r Hr. apply H1. apply H2 in Hr. destruct Hr as [Hin [Hc Hd]].
  repeat split; auto. unfold esta_proxima. rewrite Hd. reflexivity.
Qed.

(* ================================================================== *)
(** ** Upcoming reservations of a hotel and of a room *)
(* ================================================================== *)

Lemma insertar_Permutation {A : Type} (leb : A -> A -> bool) (x : A) (l : list A) :
  Permutation (insertar leb x l) (x :: l).
Proof.
  induction l as [|y l IH]; simpl; [reflexivity|].
  destruct (leb x y); [reflexivity|].
  rewrite IH. apply perm_swap.
Qed.

Lemma ordenar_Permutation {A : Type} (leb : A -> A -> bool) (l : list A) :
  Permutation (ordenar leb l) l.
Proof.
  induction l as [|x l IH]; simpl; [reflexivity|].
  rewrite insertar_Permutation. now constructor.
Qed.

Lemma habitacion__hotel_spec (w : Mundo) (r : Reserva) (hotel : Hotel) :
  habitacion__hotel w r hotel = true <->
  exists hab, In hab (habitacion_set w hotel) /\ habitacion r = Some (hab_id hab).
Proof.
  unfold habitacion__hotel, habitacion_set. rewrite existsb_exists. split.
  - intros [hab [Hin Hc]]. apply andb_true_iff in Hc. destruct Hc as [H1 H2].
    exists hab. rewrite filter_In. apply opt_eqb_eq in H1. auto.
  - intros [hab [Hin Hh]]. apply filter_In in Hin. destruct Hin as [Hin Hhot].
    exists hab. split; [exact Hin|]. rewrite Hhot, andb_true_r.
    now apply opt_eqb_eq.
Qed.

(** X4. [Hotel.proximas_reservas] lists, by ascending date and each once,
    exactly the stored reservations of the hotel's rooms that are not
    past; a reservation is in it exactly when it is in
    [proximas_reservas] of one of the hotel's rooms. *)
Theorem X4_Hotel_proximas_reservas_spec (w : Mundo) (hotel : Hotel) :
  (forall r, In r (Hotel_proximas_reservas w hotel) <->
             In r (reservas w) /\ esta_pasada w r = false
             /\ exists hab, In hab (habitacion_set w hotel)
                            /\ habitacion r = Some (hab_id hab))
  /\ (forall r, In r (Hotel_proximas_reservas w hotel) <->
                exists hab, In hab (habitacion_set w hotel)
                            /\ In r (Habitacion_proximas_reservas w hab))
  /\ StronglySorted (fun a b => fecha_reserva a <= fecha_reserva b)
                    (Hotel_proximas_reservas w hotel)
  /\ Permutation (Hotel_proximas_reservas w hotel)
                 (List.filter (fun r => habitacion__hotel w r hotel
                                        && negb (esta_pasada w r))
                              (reservas w)).
Proof.
  assert (Hp : forall r, (hoy w <=? fecha_reserva r) = negb (esta_pasada w r)).
  { intros r. unfold esta_pasada, dias_restantes.
    destruct (hoy w <=? fecha_reserva r) eqn:E1;
      destruct (fecha_reserva r - hoy w <? 0) eqn:E2; try reflexivity;
      rewrite ?Z.leb_le, ?Z.leb_gt, ?Z.ltb_lt, ?Z.ltb_ge in *; lia. }
  assert (H1 : forall r, In r (Hotel_proximas_reservas w hotel) <->
                         In r (reservas w) /\ esta_pasada w r = false
                         /\ exists hab, In hab (habitacion_set w hotel)
                                        /\ habitacion r = Some (hab_id hab)).
  { intros r. unfold Hotel_proximas_reservas.
    rewrite ordenar_In, filter_In, andb_true_iff, habitacion__hotel_spec, Hp,
      negb_true_iff. tauto. }
  split; [exact H1|]. split; [|split].
  - intros r. rewrite H1. split.
    + intros [Hin [Hpas [hab [Hhab Hr]]]]. exists hab. split; [exact Hhab|].
      unfold Habitacion_proximas_reservas, Habitacion_reserva_set.
      rewrite ordenar_In, !filter_In, Hp, Hpas, Hr, opt_eqb_refl. auto.
    + intros [hab [Hhab Hr]].
      unfold Habitacion_proximas_reservas, Habitacion_reserva_set in Hr.
      rewrite ordenar_In, !filter_In, Hp, negb_true_iff, opt_eqb_eq in Hr.
      destruct Hr as [[Hin Hr] Hpas]. repeat split; auto. now exists hab.
  - unfold Hotel_proximas_reservas.
    eapply StronglySorted_impl;
      [|apply (ordenar_ordenado por_fecha por_fecha_total por_fecha_trans)].
    intros a b. unfold por_fecha. now rewrite Z.leb_le.
  - unfold Hotel_proximas_reservas. rewrite ordenar_Permutation.
    erewrite filter_ext; [reflexivity|]. intros r. now rewrite Hp.
Qed.

(* ================================================================== *)
(** ** Pending reservations of a hotel *)
(* ================================================================== *)

Lemma Estado_eqb_eq (a b : Estado) : Estado_eqb a b = true <-> a = b.
Proof. destruct a, b; simpl; split; congruence. Qed.

Lemma filter_and_length {A : Type} (p q : A -> bool) (l : list A) :
  (List.length (List.filter (fun x => p x && q x) l)
   <= List.length (List.filter q l))%nat.
Proof.
  induction l as [|a l IH]; simpl; [lia|].
  destruct (q a); [|now rewrite andb_false_r].
  rewrite andb_true_r. destruct (p a); simpl; lia.
Qed.

Lemma misma_clave_misma_fila (l : list Reserva) (a b : Reserva) :
  NoDup (map pk l) -> In a l -> In b l -> pk a = pk b -> a = b.
Proof.
  induction l as [|x l IH]; simpl; intros Hnd Ha Hb Hab; [contradiction|].
  inversion Hnd as [|? ? Hx Hl]; subst.
  destruct Ha as [->|Ha], Hb as [->|Hb]; auto.
  - exfalso. apply Hx. rewrite Hab. now apply in_map.
  - exfalso. apply Hx. rewrite <- Hab. now apply in_map.
Qed.

(** X5. With primary keys in order, [reservas_pendientes_hotel] is
    exactly the stored pendiente reservations on the hotel's rooms;
    a stored hotel is returned by [get_hoteles_con_reservas_pendientes]
    exactly when that list is not empty; and its length is at most
    [get_reservas_pendientes_count]. *)
Theorem X5_reservas_pendientes_hotel_spec (w : Mundo) (hotel : Hotel) :
  claves_validas w ->
  (forall r, In r (reservas_pendientes_hotel w hotel) <->
             In r (reservas w) /\ estado r = pendiente
             /\ exists hab, In hab (habitacion_set w hotel)
                            /\ habitacion r = Some (hab_id hab))
  /\ (In hotel (get_hoteles_con_reservas_pendientes w) <->
      In hotel (hoteles w) /\ reservas_pendientes_hotel w hotel <> [])
  /\ Z.of_nat (List.length (reservas_pendientes_hotel w hotel))
     <= get_reservas_pendientes_count w.
Proof.
  intros [_ [Hnd Hpks]].
  assert (H1 : forall r, In r (reservas_pendientes_hotel w hotel) <->
                         In r (reservas w) /\ estado r = pendiente
                         /\ exists hab, In hab (habitacion_set w hotel)
                                        /\ habitacion r = Some (hab_id hab)).
  { intros r. unfold reservas_pendientes_hotel.
    rewrite filter_In, andb_true_iff, Estado_eqb_eq. split.
    - intros [Hin [Hids Hest]]. repeat split; auto.
      destruct (pk r) as [i|] eqn:Epk; [|discriminate].
      apply existsb_exists in Hids. destruct Hids as [k [Hk Hki]].
      apply opt_eqb_eq in Hki. subst k.
      apply in_flat_map in Hk. destruct Hk as [hab [Hhab Hk]].
      exists hab. split; [exact Hhab|].
      destruct (List.filter _ (reservas w)) as [|f fs] eqn:Ef.
      + destruct Hk as [Hk|[]]. discriminate.
      + apply in_map_iff in Hk. destruct Hk as [r' [Hpk' Hr']].
        rewrite <- Ef in Hr'. apply filter_In in Hr'. destruct Hr' as [Hin' Hh'].
        apply opt_eqb_eq in Hh'.
        assert (r' = r) by (apply (misma_clave_misma_fila (reservas w)); congruence).
        now subst r'.
    - intros [Hin [Hest [hab [Hhab Hr]]]]. repeat split; auto.
      destruct (Hpks r Hin) as [i [Hi _]]. rewrite Hi.
      apply existsb_exists. exists (Some i). split; [|apply opt_eqb_refl].
      apply in_flat_map. exists hab. split; [exact Hhab|].
      assert (Hf : In r (List.filter
                           (fun r0 => opt_eqb (habitacion r0) (Some (hab_id hab)))
                           (reservas w))).
      { apply filter_In. split; [exact Hin|]. now apply opt_eqb_eq. }
      destruct (List.filter _ (reservas w)) as [|f fs]; [destruct Hf|].
      rewrite <- Hi. now apply in_map. }
  split; [exact H1|]. split.
  - unfold get_hoteles_con_reservas_pendientes. rewrite nodup_In, in_flat_map.
    split.
    + intros [h [Hh Hin]]. apply in_flat_map in Hin.
      destruct Hin as [hab [Hhab Hin]]. apply in_map_iff in Hin.
      destruct Hin as [r [<- Hr]]. split; [exact Hh|].
      apply filter_In in Hr. destruct Hr as [Hr Hc].
      apply andb_true_iff in Hc. destruct Hc as [Hc1 Hc2].
      apply opt_eqb_eq in Hc1. apply Estado_eqb_eq in Hc2.
      intros Hnil.
      assert (Hin : In r (reservas_pendientes_hotel w h)).
      { apply H1. repeat split; auto. now exists hab. }
      rewrite Hnil in Hin. exact Hin.
    + intros [Hh Hne].
      destruct (reservas_pendientes_hotel w hotel) as [|r rs] eqn:E;
        [congruence|].
      assert (Hr : In r (r :: rs)) by now left.
      apply H1 in Hr. destruct Hr as [Hin [Hest [hab [Hhab Hr]]]].
      exists hotel. split; [exact Hh|]. apply in_flat_map.
      exists hab. split; [exact Hhab|]. apply in_map_iff. exists r.
      split; [reflexivity|]. apply filter_In. split; [exact Hin|].
      rewrite Hr, opt_eqb_refl, Hest. reflexivity.
  - unfold get_reservas_pendientes_count, reservas_pendientes_hotel.
    apply inj_le. apply filter_and_length.
Qed.

Lemma X5_reservas_pendientes_hotel_witness :
  (forall r, In r (reservas_pendientes_hotel mundo_individual hotel_sol) <->
             In r (reservas mundo_individual) /\ estado r = pendiente
             /\ exists hab, In hab (habitacion_set mundo_individual hotel_sol)
                            /\ habitacion r = Some (hab_id hab))
  /\ (In hotel_sol (get_hoteles_con_reservas_pendientes mundo_individual) <->
      In hotel_sol (hoteles mundo_individual)
      /\ reservas_pendientes_hotel mundo_individual hotel_sol <> [])
  /\ Z.of_nat (List.length (reservas_pendientes_hotel mundo_individual hotel_sol))
     <= get_reservas_pendientes_count mundo_individual.
Proof.
  apply (X5_reservas_pendientes_hotel_spec mundo_individual hotel_sol).
  split; [simpl; lia|]. split.
  - simpl. constructor; [intros []|constructor].
  - intros r [<-|[]]. exists 1. simpl. split; [reflexivity|lia].
Defined.

(* ================================================================== *)
(** ** Last reservation of a room and of a guest *)
(* ================================================================== *)

Lemma ultima_de (l : list Reserva) :
  (head (ordenar por_fecha_desc l) = None <-> l = [])
  /\ (forall r, head (ordenar por_fecha_desc l) = Some r ->
                In r l /\ forall x, In x l -> fecha_reserva x <= fecha_reserva r).
Proof.
  split.
  - pose proof (ordenar_length por_fecha_desc l) as Hlen.
    destruct (ordenar por_fecha_desc l) as [|a s]; destruct l as [|b l'];
      simpl in *; split; intros; try reflexivity; try discriminate.
  - intros r Hr. apply ordenar_head_min in Hr.
    + destruct Hr as [Hin Hmin]. split; [exact Hin|].
      intros x Hx. specialize (Hmin x Hx). unfold por_fecha_desc in Hmin.
      now apply Z.leb_le.
    + intros a b _ _. apply por_fecha_desc_total.
    + intros a b c _ _ _. apply por_fecha_desc_trans.
Qed.

(** X6. [ultima_reserva] of a room (of a guest) is [None] exactly when
    the room (the guest) has no reservation at all; otherwise it is one
    of its stored reservations and none of them has a later date.  For
    a guest it is the first entry of [historial_reservas]. *)
Theorem X6_ultima_reserva_spec (w : Mundo) (hab : Habitacion) (hu : Huesped) :
  (Habitacion_ultima_reserva w hab = None <-> Habitacion_reservas_count w hab = 0)
  /\ (forall r, Habitacion_ultima_reserva w hab = Some r ->
                In r (reservas w) /\ habitacion r = Some (hab_id hab)
                /\ forall x, In x (reservas w) -> habitacion x = Some (hab_id hab) ->
                             fecha_reserva x <= fecha_reserva r)
  /\ (Huesped_ultima_reserva w hu = None <-> Huesped_reservas_count w hu = 0)
  /\ (forall r, Huesped_ultima_reserva w hu = Some r ->
                In r (reservas w) /\ huesped r = hue_id hu
                /\ forall x, In x (reservas w) -> huesped x = hue_id hu ->
                             fecha_reserva x <= fecha_reserva r)
  /\ Huesped_ultima_reserva w hu = head (historial_reservas w hu).
Proof.
  assert (Hcero : forall l : list Reserva, Z.of_nat (List.length l) = 0 <-> l = []).
  { intros l. destruct l; simpl; split; intros; try reflexivity; discriminate. }
  unfold Habitacion_ultima_reserva, Habitacion_reservas_count,
    Huesped_ultima_reserva, Huesped_reservas_count, historial_reservas.
  destruct (ultima_de (Habitacion_reserva_set w hab)) as [Ha1 Ha2].
  destruct (ultima_de (Huesped_reserva_set w hu)) as [Hu1 Hu2].
  split; [now rewrite Ha1, Hcero|]. split; [|split; [now rewrite Hu1, Hcero|split]].
  - intros r Hr. destruct (Ha2 r Hr) as [Hin Hmax].
    unfold Habitacion_reserva_set in Hin, Hmax.
    apply filter_In in Hin. destruct Hin as [Hin Hh]. apply opt_eqb_eq in Hh.
    repeat split; auto. intros x Hx Hxh. apply Hmax. apply filter_In.
    split; [exact Hx|]. now apply opt_eqb_eq.
  - intros r Hr. destruct (Hu2 r Hr) as [Hin Hmax].
    unfold Huesped_reserva_set in Hin, Hmax.
    apply filter_In in Hin. destruct Hin as [Hin Hh]. apply Z.eqb_eq in Hh.
    repeat split; auto. intros x Hx Hxh. apply Hmax. apply filter_In.
    split; [exact Hx|]. now apply Z.eqb_eq.
  - reflexivity.
Qed.

(* ================================================================== *)
(** ** Rooms without reservations, over all hotels *)
(* ================================================================== *)

(** X7. When every pendiente or confirmada reservation of the date has a
    room, [get_habitaciones_sin_reservas] is exactly the rooms, of any
    hotel, for which [esta_disponible] is true on the date, and each
    hotel's [habitaciones_disponibles] is its part of that list. *)
Theorem X7_get_habitaciones_sin_reservas_spec (w : Mundo) (fecha : Fecha) :
  (forall r, In r (reservas w) -> fecha_reserva r = fecha ->
             estado r = pendiente \/ estado r = confirmada ->
             habitacion r <> None) ->
  get_habitaciones_sin_reservas w (Some fecha)
  = List.filter (fun h => esta_disponible w h fecha) (habitaciones w)
  /\ (forall hotel,
        habitaciones_disponibles w hotel (Some fecha)
        = List.filter (fun h => hab_hotel h =? hotel_id hotel)
                      (get_habitaciones_sin_reservas w (Some fecha)))
  /\ get_habitaciones_sin_reservas w None
     = get_habitaciones_sin_reservas w (Some (hoy w)).
Proof.
  intros Hsin.
  assert (E : get_habitaciones_sin_reservas w (Some fecha)
              = List.filter (fun h => esta_disponible w h fecha) (habitaciones w)).
  { unfold get_habitaciones_sin_reservas. apply filter_ext. intros h.
    unfold sql_not_in, esta_disponible.
    assert (Hnull : existsb (opt_eqb None)
                      (map habitacion
                         (List.filter
                            (fun r => (fecha_reserva r =? fecha)
                                      && estado_in_confirmada_pendiente (estado r))
                            (reservas w))) = false).
    { destruct (existsb _ _) eqn:Ex; [|reflexivity]. exfalso.
      apply existsb_exists in Ex. destruct Ex as [o [Ho Hn]].
      apply opt_eqb_eq in Hn. subst o. apply in_map_iff in Ho.
      destruct Ho as [r [Hr Hin]]. apply filter_In in Hin.
      destruct Hin as [Hin Hc]. apply andb_true_iff in Hc. destruct Hc as [Hf He].
      apply Z.eqb_eq in Hf. apply estado_in_confirmada_pendiente_spec in He.
      now apply (Hsin r Hin Hf He). }
    rewrite Hnull, andb_true_r. f_equal.
    apply eq_true_iff_eq. rewrite existsb_exists, existe_true. split.
    - intros [o [Ho Heq]]. apply opt_eqb_eq in Heq. subst o.
      apply in_map_iff in Ho. destruct Ho as [r [Hr Hin]].
      apply filter_In in Hin. destruct Hin as [Hin Hc].
      apply andb_true_iff in Hc. destruct Hc as [Hf He].
      exists r. apply reservas_de_In. apply Z.eqb_eq in Hf.
      apply estado_in_confirmada_pendiente_spec in He. auto.
    - intros [r Hr]. apply reservas_de_In in Hr.
      destruct Hr as [Hin [Hh [Hf He]]].
      exists (habitacion r). split; [|rewrite Hh; apply opt_eqb_refl].
      apply in_map. apply filter_In. split; [exact Hin|].
      apply andb_true_iff. split; [now apply Z.eqb_eq|].
      now apply estado_in_confirmada_pendiente_spec. }
  split; [exact E|]. split; [|reflexivity].
  intros hotel. rewrite habitaciones_disponibles_filter, E.
  unfold habitacion_set. clear.
  induction (habitaciones w) as [|a l IH]; simpl; [reflexivity|].
  destruct (hab_hotel a =? hotel_id hotel) eqn:E1;
    destruct (esta_disponible w a fecha) eqn:E2; simpl;
    rewrite ?E1, ?E2; rewrite IH; reflexivity.
Qed.

Lemma X7_get_habitaciones_sin_reservas_witness :
  get_habitaciones_sin_reservas mundo_individual (Some 200)
  = List.filter (fun h => esta_disponible mundo_individual h 200)
                (habitaciones mundo_individual)
  /\ (forall hotel,
        habitaciones_disponibles mundo_individual hotel (Some 200)
        = List.filter (fun h => hab_hotel h =? hotel_id hotel)
                      (get_habitaciones_sin_reservas mundo_individual (Some 200)))
  /\ get_habitaciones_sin_reservas mundo_individual None
     = get_habitaciones_sin_reservas mundo_individual (Some (hoy mundo_individual)).
Proof.
  apply (X7_get_habitaciones_sin_reservas_spec mundo_individual 200).
  intros r [<-|[]] _ _. simpl. discriminate.
Defined.

(* ================================================================== *)
(** ** Room generation: totality, frame, and the admin action *)
(* ================================================================== *)

Lemma con_nuevas_habitaciones_nil (w : Mundo) : con_nuevas_habitaciones w [] = w.
Proof.
  unfold con_nuevas_habitaciones. simpl.
  rewrite app_nil_r, Z.add_0_r, Nat.add_0_r. now destruct w.
Qed.

Lemma habitacion_set_con_nuevas (w : Mundo) (nuevas : list Habitacion) (h : Hotel) :
  habitacion_set (con_nuevas_habitaciones w nuevas) h
  = habitacion_set w h
    ++ List.filter (fun x => hab_hotel x =? hotel_id h) nuevas.
Proof. unfold habitacion_set. simpl. apply filter_app. Qed.

(** What one call of [generar_habitaciones] does, in every case. *)
Lemma generar_habitaciones_efecto (self : Hotel) (w : Mundo) :
  exists nuevas,
    generar_habitaciones self w
    = (Ok (Z.of_nat (List.length (habitacion_set w self ++ nuevas))),
       con_nuevas_habitaciones w nuevas)
    /\ Forall (fun h => hab_hotel h = hotel_id self) nuevas
    /\ (generado w self -> nuevas = [])
    /\ (habitacion_set w self = [] ->
        Z.of_nat (List.length nuevas) = Z.max 0 (cantidad_habitaciones self)).
Proof.
  destruct (habitacion_set w self) as [|a l] eqn:E.
  - set (n := cantidad_habitaciones self).
    destruct (generar_bucle self (range 1 (n + 1)) 0 w (range_NoDup _ _))
      as [nuevas [Hrun [Hnum Hall]]].
    { intros i h _ Hh Hhot. exfalso.
      assert (Hin : In h (habitacion_set w self)).
      { unfold habitacion_set. apply filter_In. split; [exact Hh|].
        now apply Z.eqb_eq. }
      rewrite E in Hin. exact Hin. }
    assert (Hlen : List.length nuevas = List.length (range 1 (n + 1))).
    { rewrite <- (length_map numero nuevas), Hnum. apply length_map. }
    exists nuevas. split; [|split; [|split]].
    + unfold generar_habitaciones. rewrite E. simpl existe. cbv iota.
      fold n. rewrite Hrun. unfold con_nuevas_habitaciones. cbn [app].
      rewrite Hlen. reflexivity.
    + eapply Forall_impl; [|exact Hall]. now intros h [Hh _].
    + intros [Hne|Hle]; [congruence|].
      apply length_zero_iff_nil. rewrite Hlen, range_length. fold n in Hle. lia.
    + intros _. rewrite Hlen, range_length. lia.
  - exists []. split; [|split; [|split]].
    + unfold generar_habitaciones. rewrite E. simpl existe. cbv iota.
      now rewrite con_nuevas_habitaciones_nil, app_nil_r.
    + constructor.
    + reflexivity.
    + discriminate.
Qed.

(** X8. [generar_habitaciones] never raises and returns the number of
    rooms the hotel has afterwards.  It only appends rooms of that hotel
    (none when the hotel already had rooms, max(0, cantidad_habitaciones)
    otherwise): the rooms of every other hotel, and the hotel, guest and
    reservation tables, are left as they were. *)
Theorem X8_generar_habitaciones_total (self : Hotel) (w : Mundo) :
  exists n w' nuevas,
    generar_habitaciones self w = (Ok n, w')
    /\ n = Z.of_nat (List.length (habitacion_set w' self))
    /\ habitaciones w' = habitaciones w ++ nuevas
    /\ Forall (fun h => hab_hotel h = hotel_id self) nuevas
    /\ Z.of_nat (List.length nuevas)
       = match habitacion_set w self with
         | [] => Z.max 0 (cantidad_habitaciones self)
         | _ :: _ => 0
         end
    /\ (forall otro, hotel_id otro <> hotel_id self ->
                     habitacion_set w' otro = habitacion_set w otro)
    /\ hoteles w' = hoteles w /\ huespedes w' = huespedes w
    /\ reservas w' = reservas w /\ mensajes w' = mensajes w.
Proof.
  destruct (generar_habitaciones_efecto self w) as [nuevas [Hrun [Hall [Hgen Hlen]]]].
  exists (Z.of_nat (List.length (habitacion_set w self ++ nuevas))),
    (con_nuevas_habitaciones w nuevas), nuevas.
  split; [exact Hrun|]. split; [|split; [reflexivity|split; [exact Hall|split]]].
  - rewrite habitacion_set_con_nuevas. f_equal. f_equal. f_equal. symmetry.
    apply filter_todo. intros x Hx. rewrite Forall_forall in Hall.
    rewrite (Hall x Hx). apply Z.eqb_refl.
  - destruct (habitacion_set w self) as [|a l] eqn:E; [now apply Hlen|].
    rewrite Hgen; [reflexivity|]. left. congruence.
  - split; [|repeat split].
    intros otro Hne. rewrite habitacion_set_con_nuevas.
    replace (List.filter (fun x => hab_hotel x =? hotel_id otro) nuevas) with
      (@nil Habitacion); [now rewrite app_nil_r|].
    symmetry. clear -Hall Hne. induction Hall as [|x l Hx _ IH]; simpl;
      [reflexivity|].
    rewrite Hx. destruct (hotel_id self =? hotel_id otro) eqn:E;
      [apply Z.eqb_eq in E; congruence|exact IH].
Qed.

Lemma generado_con_nuevas (w : Mundo) (nuevas : list Habitacion) (h : Hotel) :
  generado w h -> generado (con_nuevas_habitaciones w nuevas) h.
Proof.
  intros [Hne|Hle]; [left|now right].
  rewrite habitacion_set_con_nuevas. intros Happ.
  apply app_eq_nil in Happ. now destruct Happ.
Qed.

Lemma generado_tras_generar (self : Hotel) (w : Mundo) :
  generado (snd (generar_habitaciones self w)) self.
Proof.
  destruct (generar_habitaciones_efecto self w) as [nuevas [Hrun [Hall [_ Hlen]]]].
  rewrite Hrun. simpl snd.
  destruct (habitacion_set w self) as [|a l] eqn:E.
  - specialize (Hlen eq_refl).
    destruct (Z_le_gt_dec (cantidad_habitaciones self) 0) as [Hle|Hgt];
      [now right|left].
    rewrite habitacion_set_con_nuevas, E. simpl.
    rewrite filter_todo.
    + intros Hnil. rewrite Hnil in Hlen. simpl in Hlen. lia.
    + intros x Hx. rewrite Forall_forall in Hall. rewrite (Hall x Hx).
      apply Z.eqb_refl.
  - apply generado_con_nuevas. left. congruence.
Qed.

(** The loop of the action: it never raises, leaves the hotel table
    alone, keeps what was generated and generates every flagged hotel. *)
Lemma generar_habitaciones_action_bucle (filas : list Hotel) :
  forall w,
    let cuerpo := fun (hotel : Hotel) (_ : unit) =>
      if generar_habitaciones_auto hotel
      then
        bind (generar_habitaciones hotel) (fun count =>
        message_user ("Generadas " ^^ str count ^^ " habitaciones para "
                      ^^ hotel_nombre hotel) SUCCESS)
      else ret tt in
    fst (para filas tt cuerpo w) = Ok tt
    /\ hoteles (snd (para filas tt cuerpo w)) = hoteles w
    /\ (forall h, generado w h -> generado (snd (para filas tt cuerpo w)) h)
    /\ (forall h, In h filas -> generar_habitaciones_auto h = true ->
                  generado (snd (para filas tt cuerpo w)) h)
    /\ ((forall h, In h filas -> generar_habitaciones_auto h = true ->
                   generado w h) ->
        habitaciones (snd (para filas tt cuerpo w)) = habitaciones w).
Proof.
  induction filas as [|h0 filas IH]; intros w cuerpo.
  - simpl. repeat split; auto. intros h [].
  - cbn [para]. rewrite bind_eq.
    destruct (generar_habitaciones_efecto h0 w) as [nuevas [Hrun [Hall [Hgen _]]]].
    pose proof (generado_tras_generar h0 w) as Htras.
    assert (Hc : exists w1,
               cuerpo h0 tt w = (Ok tt, w1)
               /\ hoteles w1 = hoteles w
               /\ (forall h, generado w h -> generado w1 h)
               /\ (generar_habitaciones_auto h0 = true -> generado w1 h0)
               /\ ((generar_habitaciones_auto h0 = true -> generado w h0) ->
                   habitaciones w1 = habitaciones w)).
    { unfold cuerpo. destruct (generar_habitaciones_auto h0).
      - rewrite Hrun in Htras. simpl snd in Htras.
        eexists. split; [rewrite bind_eq, Hrun; reflexivity|].
        split; [reflexivity|]. split; [|split].
        + intros h Hh. apply (generado_con_nuevas w nuevas h) in Hh. exact Hh.
        + intros _. exact Htras.
        + intros Hg. rewrite (Hgen (Hg eq_refl)). simpl. apply app_nil_r.
      - exists w. repeat split; auto. discriminate. }
    destruct Hc as [w1 [Hw1 [Hhot [Hmono [Hnew Hsame]]]]].
    rewrite Hw1. cbn [fst snd].
    destruct (IH w1) as [I1 [I2 [I3 [I4 I5]]]]. fold cuerpo in I1, I2, I3, I4, I5.
    split; [exact I1|]. split; [congruence|]. split; [|split].
    + intros h Hh. apply I3. now apply Hmono.
    + intros h [<-|Hin] Hflag; [apply I3; now apply Hnew|now apply I4].
    + intros Hall0. rewrite I5.
      * apply Hsame. intros Hf. apply Hall0; [now left|exact Hf].
      * intros h Hin Hf. apply Hmono. apply Hall0; [now right|exact Hf].
Qed.

(** X9. The admin action [generar_habitaciones_action] never raises, and
    it is idempotent on the room table: run again on the same selection
    of hotels it creates no room. *)
Theorem X9_generar_habitaciones_action_idempotent
    (seleccion : Hotel -> bool) (w : Mundo) :
  let queryset := fun w0 => List.filter seleccion (hoteles w0) in
  let w1 := snd (generar_habitaciones_action queryset w) in
  fst (generar_habitaciones_action queryset w) = Ok tt
  /\ fst (generar_habitaciones_action queryset w1) = Ok tt
  /\ habitaciones (snd (generar_habitaciones_action queryset w1)) = habitaciones w1
  /\ forall h, In h (hoteles w) -> seleccion h = true ->
               generar_habitaciones_auto h = true ->
               0 < cantidad_habitaciones h -> habitacion_set w1 h <> [].
Proof.
  intros queryset w1. subst w1. unfold generar_habitaciones_action.
  rewrite !bind_consulta.
  destruct (generar_habitaciones_action_bucle (queryset w) w)
    as [H1 [H2 [H3 [H4 H5]]]].
  cbv zeta in H1, H2, H3, H4, H5.
  set (w1 := snd (para (queryset w) tt _ w)) in *.
  assert (Hq : queryset w1 = queryset w) by (unfold queryset; now rewrite H2).
  rewrite Hq.
  destruct (generar_habitaciones_action_bucle (queryset w) w1)
    as [J1 [_ [_ [_ J5]]]].
  cbv zeta in J1, J5.
  split; [exact H1|]. split; [exact J1|]. split; [now apply J5|].
  intros h Hin Hsel Hflag Hpos.
  destruct (H4 h) as [Hne|Hle]; auto; [|lia].
  unfold queryset. apply filter_In. now split.
Qed.

(* ================================================================== *)
(** ** Admin list filters *)
(* ================================================================== *)

(** X10. The date filter of the reservation list only narrows the
    queryset, leaves it alone for an absent or unknown value, and its
    choices are nested: today and tomorrow are within "semana", "semana"
    within "proximas" (two weeks), and "proximas" within "mes".  It
    commutes with the hotel filter. *)
Theorem X10_FechaReservaFilter_nested (w : Mundo) (value : option string)
    (hotel : option Z) (queryset : list Reserva) :
  incl (FechaReservaFilter_queryset w value queryset) queryset
  /\ FechaReservaFilter_queryset w None queryset = queryset
  /\ (forall v, v <> "hoy" -> v <> "manana" -> v <> "semana" -> v <> "mes" ->
                v <> "proximas" ->
                FechaReservaFilter_queryset w (Some v) queryset = queryset)
  /\ incl (FechaReservaFilter_queryset w (Some "hoy") queryset)
          (FechaReservaFilter_queryset w (Some "semana") queryset)
  /\ incl (FechaReservaFilter_queryset w (Some "manana") queryset)
          (FechaReservaFilter_queryset w (Some "semana") queryset)
  /\ incl (FechaReservaFilter_queryset w (Some "semana") queryset)
          (FechaReservaFilter_queryset w (Some "proximas") queryset)
  /\ incl (FechaReservaFilter_queryset w (Some "proximas") queryset)
          (FechaReservaFilter_queryset w (Some "mes") queryset)
  /\ HotelFilter_queryset w hotel (FechaReservaFilter_queryset w value queryset)
     = FechaReservaFilter_queryset w value (HotelFilter_queryset w hotel queryset).
Proof.
  assert (Hcomm : forall (p q : Reserva -> bool) (l : list Reserva),
             List.filter p (List.filter q l) = List.filter q (List.filter p l)).
  { intros p q l. induction l as [|a l IH]; simpl; [reflexivity|].
    destruct (p a) eqn:Ep; destruct (q a) eqn:Eq; simpl;
      rewrite ?Ep, ?Eq, IH; reflexivity. }
  split; [|split; [reflexivity|split]].
  2:{ intros v H1 H2 H3 H4 H5. unfold FechaReservaFilter_queryset.
      apply String.eqb_neq in H1, H2, H3, H4, H5.
      now rewrite H1, H2, H3, H4, H5. }
  - unfold FechaReservaFilter_queryset. destruct value as [v|]; [|apply incl_refl].
    repeat (match goal with |- context [if ?c then _ else _] => destruct c end);
      try apply incl_refl; intros r Hr; apply filter_In in Hr; tauto.
  - repeat split.
    + intros r. simpl. rewrite !filter_In, andb_true_iff, Z.eqb_eq, !Z.leb_le.
      intros [Hin Hf]. split; [exact Hin|]. lia.
    + intros r. simpl. rewrite !filter_In, andb_true_iff, Z.eqb_eq, !Z.leb_le.
      intros [Hin Hf]. split; [exact Hin|]. lia.
    + intros r. simpl. rewrite !filter_In, !andb_true_iff, !Z.leb_le.
      intros [Hin Hf]. split; [exact Hin|]. lia.
    + intros r. simpl. rewrite !filter_In, !andb_true_iff, !Z.leb_le.
      intros [Hin Hf]. split; [exact Hin|]. lia.
    + unfold FechaReservaFilter_queryset, HotelFilter_queryset.
      destruct hotel as [v|]; [|reflexivity].
      destruct value as [u|]; [|reflexivity].
      repeat (match goal with |- context [if ?c then _ else _] => destruct c end);
        try reflexivity; apply Hcomm.
Qed.

(* ================================================================== *)
(** ** The availability badge of a room *)
(* ================================================================== *)

(** X11. [estado_hoy] shows the available badge exactly when
    [esta_disponible] holds for today; otherwise it shows the occupied
    badge, linking a stored pendiente or confirmada reservation of that
    room for today.  The third, plain not-available badge is never
    rendered. *)
Theorem X11_estado_hoy_spec (w : Mundo) (obj : Habitacion) :
  (estado_hoy w obj = Disponible <-> esta_disponible w obj (hoy w) = true)
  /\ estado_hoy w obj <> No_disponible
  /\ (forall k, estado_hoy w obj = Ocupada k ->
                exists r, In r (reservas w) /\ pk r = k
                          /\ habitacion r = Some (hab_id obj)
                          /\ fecha_reserva r = hoy w
                          /\ (estado r = pendiente \/ estado r = confirmada)).
Proof.
  unfold estado_hoy, Reserva_first.
  destruct (esta_disponible w obj (hoy w)) eqn:E.
  - repeat split; try discriminate.
  - unfold esta_disponible in E. apply negb_false_iff, existe_true in E.
    destruct E as [r0 Hr0].
    destruct (ordenar Reserva_ordering (reservas_de w (hab_id obj) (hoy w)))
      as [|r s] eqn:Eo.
    + exfalso. apply (ordenar_In Reserva_ordering) in Hr0. rewrite Eo in Hr0.
      exact Hr0.
    + simpl. repeat split; try discriminate.
      intros k [= <-].
      assert (Hr : In r (reservas_de w (hab_id obj) (hoy w))).
      { apply (ordenar_In Reserva_ordering). rewrite Eo. now left. }
      apply reservas_de_In in Hr. exists r. tauto.
Qed.

(* ================================================================== *)
(** ** The bulk cancellation action *)
(* ================================================================== *)

(** Saving a stored row as cancelada rewrites the rows of its key. *)
Lemma guardar_cancelada (w : Mundo) (r : Reserva) (i : Z) :
  pk r = Some i ->
  In (Some i) (map pk (reservas w)) ->
  Reserva_save (con_estado r cancelada) w
  = (Ok (con_sellos (con_estado r cancelada) (Some i) (fecha_creacion r) (ahora w)),
     con_reservas w
       (map (fun x => if opt_eqb (pk x) (Some i)
                      then con_sellos (con_estado r cancelada) (Some i)
                             (fecha_creacion r) (ahora w)
                      else x) (reservas w))
       (sec_reserva w)).
Proof.
  intros Hpk Hin.
  assert (Hex : existsb (fun x => opt_eqb (pk x) (Some i)) (reservas w) = true).
  { apply in_map_iff in Hin. destruct Hin as [x [Hx Hinx]].
    apply existsb_exists. exists x. split; [exact Hinx|]. now apply opt_eqb_eq. }
  assert (Hm : Model_save (con_estado r cancelada) w
               = (Ok (con_sellos (con_estado r cancelada) (Some i)
                        (fecha_creacion r) (ahora w)),
                  con_reservas w
                    (map (fun x => if opt_eqb (pk x) (Some i)
                                   then con_sellos (con_estado r cancelada) (Some i)
                                          (fecha_creacion r) (ahora w)
                                   else x) (reservas w))
                    (sec_reserva w))).
  { unfold Model_save. cbn [pk con_estado]. rewrite Hpk. now rewrite Hex. }
  unfold Reserva_save. cbn [habitacion estado con_estado Estado_eqb andb].
  now destruct (habitacion r).
Qed.

(** The loop of [cancelar_reservas] over rows fetched from the table
    [w0], after the rows [procesadas]. *)
Lemma cancelar_reservas_bucle (w0 : Mundo) (filas : list Reserva) :
  NoDup (map pk (reservas w0)) ->
  (forall r, In r filas -> In r (reservas w0) /\ exists i, pk r = Some i) ->
  forall (procesadas : list Reserva) (w : Mundo),
    map pk (reservas w) = map pk (reservas w0) ->
    (forall x, In x (reservas w) -> estado x <> cancelada -> In x (reservas w0)) ->
    (forall p y, In p procesadas -> In y (reservas w) -> pk y = pk p ->
                 estado y = cancelada) ->
    (forall x, In x (reservas w0) ->
               (forall p, In p (procesadas ++ filas) -> pk x <> pk p) ->
               In x (reservas w)) ->
    let w' := snd (para filas tt
                     (fun reserva _ =>
                        if negb (Estado_eqb (estado reserva) cancelada)
                        then
                          bind (Reserva_save (con_estado reserva cancelada))
                               (fun reserva =>
                          message_user ("Reserva #" ^^ str_id (pk reserva)
                                        ^^ " cancelada") WARNING)
                        else ret tt) w) in
    fst (para filas tt
           (fun reserva _ =>
              if negb (Estado_eqb (estado reserva) cancelada)
              then
                bind (Reserva_save (con_estado reserva cancelada))
                     (fun reserva =>
                message_user ("Reserva #" ^^ str_id (pk reserva)
                              ^^ " cancelada") WARNING)
              else ret tt) w) = Ok tt
    /\ map pk (reservas w') = map pk (reservas w0)
    /\ (forall p y, In p (procesadas ++ filas) -> In y (reservas w') ->
                    pk y = pk p -> estado y = cancelada)
    /\ (forall x, In x (reservas w0) ->
                  (forall p, In p (procesadas ++ filas) -> pk x <> pk p) ->
                  In x (reservas w')).
Proof.
  intros Hnd. induction filas as [|r filas IH];
    intros Hfilas procesadas w Hk Horig Hproc Hresto w'.
  - subst w'. simpl. rewrite app_nil_r in *. auto.
  - subst w'. cbn [para]. rewrite bind_eq.
    destruct (Hfilas r (or_introl eq_refl)) as [Hr0 [i Hpk]].
    assert (Hfilas' : forall r0, In r0 filas ->
                        In r0 (reservas w0) /\ exists i0, pk r0 = Some i0)
      by (intros r0 H0; apply Hfilas; now right).
    replace (procesadas ++ r :: filas) with ((procesadas ++ [r]) ++ filas)
      by (rewrite <- app_assoc; reflexivity).
    destruct (Estado_eqb (estado r) cancelada) eqn:Ee; cbn [negb].
    + apply Estado_eqb_eq in Ee. cbn [ret fst snd].
      apply (IH Hfilas' (procesadas ++ [r]) w); auto.
      * intros p y Hp Hy Hpy. apply in_app_iff in Hp.
        destruct Hp as [Hp|[<-|[]]]; [now apply (Hproc p y)|].
        destruct (Estado_eqb (estado y) cancelada) eqn:Ey;
          [now apply Estado_eqb_eq|].
        assert (Hy0 : In y (reservas w0)).
        { apply Horig; [exact Hy|]. intros Hc. apply Estado_eqb_eq in Hc.
          congruence. }
        now rewrite (misma_clave_misma_fila (reservas w0) y r Hnd Hy0 Hr0 Hpy).
      * intros x Hx Hne. apply Hresto; [exact Hx|].
        intros p Hp. apply Hne. rewrite <- app_assoc. exact Hp.
    + assert (Hin : In (Some i) (map pk (reservas w))).
      { rewrite Hk, <- Hpk. now apply in_map. }
      rewrite bind_eq, (guardar_cancelada w r i Hpk Hin). cbn [fst snd].
      set (r' := con_sellos (con_estado r cancelada) (Some i) (fecha_creacion r)
                            (ahora w)).
      set (g := fun x : Reserva => if opt_eqb (pk x) (Some i) then r' else x).
      apply (IH Hfilas' (procesadas ++ [r])
                (con_mensaje (con_reservas w (map g (reservas w)) (sec_reserva w))
                   (WARNING, "Reserva #" ^^ str_id (pk r') ^^ " cancelada"))).
      * simpl. rewrite <- Hk. now apply claves_tras_actualizar.
      * simpl. intros x Hx Hne. apply in_map_iff in Hx.
        destruct Hx as [y [Hy Hiny]]. unfold g in Hy.
        destruct (opt_eqb (pk y) (Some i)); subst x;
          [exfalso; now apply Hne|now apply Horig].
      * simpl. intros p y Hp Hy Hpy. apply in_map_iff in Hy.
        destruct Hy as [z [Hz Hinz]]. unfold g in Hz.
        destruct (opt_eqb (pk z) (Some i)) eqn:Ez; subst y; [reflexivity|].
        apply in_app_iff in Hp. destruct Hp as [Hp|[<-|[]]];
          [now apply (Hproc p z)|].
        rewrite Hpy, Hpk, opt_eqb_refl in Ez. discriminate.
      * simpl. intros x Hx Hne. apply in_map_iff. exists x.
        assert (Hxi : opt_eqb (pk x) (Some i) = false).
        { destruct (opt_eqb (pk x) (Some i)) eqn:E; [|reflexivity].
          apply opt_eqb_eq in E. exfalso.
          apply (Hne r); [|congruence].
          apply in_app_iff. left. apply in_app_iff. right. now left. }
        unfold g. rewrite Hxi. split; [reflexivity|].
        apply Hresto; [exact Hx|]. intros p Hp. apply Hne.
        rewrite <- app_assoc. exact Hp.
Qed.

Lemma cancelar_reservas_nada (filas : list Reserva) (w : Mundo) :
  (forall r, In r filas -> estado r = cancelada) ->
  para filas tt
    (fun reserva _ =>
       if negb (Estado_eqb (estado reserva) cancelada)
       then
         bind (Reserva_save (con_estado reserva cancelada)) (fun reserva =>
         message_user ("Reserva #" ^^ str_id (pk reserva) ^^ " cancelada") WARNING)
       else ret tt) w
  = (Ok tt, w).
Proof.
  induction filas as [|r filas IH]; intros Hall; [reflexivity|].
  cbn [para]. rewrite (Hall r (or_introl eq_refl)). simpl negb. cbv iota.
  rewrite bind_ret. apply IH. intros r0 H0. apply Hall. now right.
Qed.

(** X12. The bulk action [cancelar_reservas] on the reservations selected
    by id never raises; afterwards every selected reservation is
    cancelada, the others are as they were and no row was added or
    removed; and running it again on the same selection does nothing at
    all (no write, no message). *)
Theorem X12_cancelar_reservas_idempotent (w : Mundo) (seleccion : list Z) :
  NoDup (map pk (reservas w)) ->
  let queryset := fun w0 : Mundo =>
    List.filter (fun r => existsb (fun i => opt_eqb (pk r) (Some i)) seleccion)
                (reservas w0) in
  let w1 := snd (cancelar_reservas queryset w) in
  fst (cancelar_reservas queryset w) = Ok tt
  /\ map pk (reservas w1) = map pk (reservas w)
  /\ (forall y, In y (queryset w1) -> estado y = cancelada)
  /\ (forall x, In x (reservas w) -> ~ In x (queryset w) -> In x (reservas w1))
  /\ cancelar_reservas queryset w1 = (Ok tt, w1).
Proof.
  intros Hnd queryset w1. subst w1. unfold cancelar_reservas.
  rewrite !bind_consulta.
  assert (Hsel : forall (w0 : Mundo) r,
             In r (queryset w0) <->
             In r (reservas w0) /\ exists i, pk r = Some i /\ In i seleccion).
  { intros w0 r. unfold queryset. rewrite filter_In, existsb_exists. split.
    - intros [Hin [i [Hi Heq]]]. apply opt_eqb_eq in Heq. eauto.
    - intros [Hin [i [Hpk Hi]]]. split; [exact Hin|]. exists i.
      split; [exact Hi|]. now apply opt_eqb_eq. }
  assert (Hf : forall r, In r (queryset w) ->
                         In r (reservas w) /\ exists i, pk r = Some i).
  { intros r Hr. apply Hsel in Hr. destruct Hr as [Hin [i [Hpk _]]]. eauto. }
  destruct (cancelar_reservas_bucle w (queryset w) Hnd Hf [] w eq_refl
              (fun x Hx _ => Hx)
              (fun p y (Hp : In p []) _ _ => match Hp with end)
              (fun x Hx _ => Hx))
    as [H1 [H2 [H3 H4]]].
  cbn [app] in H3, H4.
  set (w1 := snd (para (queryset w) tt _ w)) in *.
  assert (Hcan : forall y, In y (queryset w1) -> estado y = cancelada).
  { intros y Hy. apply Hsel in Hy. destruct Hy as [Hy [i [Hpk Hi]]].
    assert (Hk : In (pk y) (map pk (reservas w))) by (rewrite <- H2; now apply in_map).
    apply in_map_iff in Hk. destruct Hk as [x [Hxy Hx]].
    apply (H3 x y); auto. apply Hsel. split; [exact Hx|]. exists i.
    split; [congruence|exact Hi]. }
  split; [exact H1|]. split; [exact H2|]. split; [exact Hcan|]. split.
  - intros x Hx Hno. apply H4; [exact Hx|]. intros p Hp Hpk. apply Hno.
    destruct (proj1 (Hsel w p) Hp) as [Hp0 _].
    now rewrite (misma_clave_misma_fila (reservas w) x p Hnd Hx Hp0 Hpk).
  - now apply cancelar_reservas_nada.
Qed.

Lemma X12_cancelar_reservas_witness :
  let queryset := fun w0 : Mundo =>
    List.filter (fun r => existsb (fun i => opt_eqb (pk r) (Some i)) [1; 2])
                (reservas w0) in
  let w1 := snd (cancelar_reservas queryset mundo_lleno) in
  fst (cancelar_reservas queryset mundo_lleno) = Ok tt
  /\ map pk (reservas w1) = map pk (reservas mundo_lleno)
  /\ (forall y, In y (queryset w1) -> estado y = cancelada)
  /\ (forall x, In x (reservas mundo_lleno) -> ~ In x (queryset mundo_lleno) ->
                In x (reservas w1))
  /\ cancelar_reservas queryset w1 = (Ok tt, w1).
Proof.
  apply (X12_cancelar_reservas_idempotent mundo_lleno [1; 2]).
  simpl. constructor; [intros [H|[]]; discriminate H|].
  constructor; [intros []|constructor].
Defined.

(* ================================================================== *)
(** ** Cancelling frees the room *)
(* ================================================================== *)

Lemma a_lo_sumo_uno {A : Type} (l : list A) (a b : A) :
  (List.length l <= 1)%nat -> In a l -> In b l -> a = b.
Proof.
  destruct l as [|x [|y l]]; simpl; intros Hlen Ha Hb.
  - contradiction.
  - destruct Ha as [<-|[]], Hb as [<-|[]]. reflexivity.
  - lia.
Qed.

Lemma esta_disponible_false (w : Mundo) (hab : Habitacion) (fecha : Fecha) :
  esta_disponible w hab fecha = false <->
  exists r, In r (reservas_de w (hab_id hab) fecha).
Proof.
  unfold esta_disponible. now rewrite negb_false_iff, existe_true.
Qed.

(** X13. Under room-date exclusivity, cancelling the stored pendiente or
    confirmada reservation of a room frees that room for the date, and
    changes the availability of no other room or date. *)
Theorem X13_cancelar_reserva_frees_room
    (w : Mundo) (i : Z) (r : Reserva) (hab : Habitacion) :
  exclusividad w ->
  Reserva_get i w = Ok r ->
  habitacion r = Some (hab_id hab) ->
  estado r = pendiente \/ estado r = confirmada ->
  esta_disponible w hab (fecha_reserva r) = false
  /\ esta_disponible (snd (cancelar_reserva i w)) hab (fecha_reserva r) = true
  /\ forall (otra : Habitacion) (fecha : Fecha),
       hab_id otra <> hab_id hab \/ fecha <> fecha_reserva r ->
       esta_disponible (snd (cancelar_reserva i w)) otra fecha
       = esta_disponible w otra fecha.
Proof.
  intros Hex Hget Hhab Hact.
  destruct (Reserva_get_Ok _ _ _ Hget) as [Hin [Hpk Huniq]].
  rewrite (cancelar_reserva_siempre w i r Hget). cbn [snd].
  set (r' := con_sellos (con_estado r cancelada) (Some i) (fecha_creacion r)
                        (ahora w)).
  set (g := fun x : Reserva => if opt_eqb (pk x) (Some i) then r' else x).
  assert (Hde : forall h f y,
             In y (reservas_de
                     (con_mensaje (con_reservas w (map g (reservas w)) (sec_reserva w))
                        (WARNING, "❌ Reserva #" ^^ str i ^^ " cancelada")) h f)
             <-> In y (reservas_de w h f) /\ pk y <> Some i).
  { intros h f y. rewrite !reservas_de_In. cbn [reservas con_mensaje con_reservas].
    rewrite in_map_iff. split.
    - intros [[z [Hz Hinz]] [Hh [Hf He]]]. unfold g in Hz.
      destruct (opt_eqb (pk z) (Some i)) eqn:Ez; subst y.
      + exfalso. destruct He as [He|He]; discriminate He.
      + repeat split; auto. intros Hc. rewrite Hc, opt_eqb_refl in Ez.
        discriminate.
    - intros [[Hiny [Hh [Hf He]]] Hne]. repeat split; auto.
      exists y. split; [|exact Hiny]. unfold g.
      destruct (opt_eqb (pk y) (Some i)) eqn:Ey; [|reflexivity].
      apply opt_eqb_eq in Ey. contradiction. }
  assert (Hr : In r (reservas_de w (hab_id hab) (fecha_reserva r)))
    by (apply reservas_de_In; auto).
  split; [|split].
  - apply esta_disponible_false. now exists r.
  - destruct (esta_disponible _ hab (fecha_reserva r)) eqn:E; [reflexivity|].
    apply esta_disponible_false in E. destruct E as [y Hy].
    apply Hde in Hy. destruct Hy as [Hy Hne]. exfalso. apply Hne.
    now rewrite (a_lo_sumo_uno _ y r (Hex _ _) Hy Hr).
  - intros otra fecha Hotra. apply eq_true_iff_eq.
    rewrite <- !not_false_iff_true, !esta_disponible_false.
    split; intros Hn [y Hy]; apply Hn; exists y.
    + apply Hde. split; [exact Hy|]. intros Hc.
      apply reservas_de_In in Hy. destruct Hy as [Hiny [Hh [Hf _]]].
      rewrite (Huniq y Hiny Hc) in Hh, Hf.
      destruct Hotra as [Ho|Ho]; [apply Ho; congruence|now apply Ho].
    + now apply Hde in Hy.
Qed.

Lemma X13_cancelar_reserva_witness :
  esta_disponible mundo_individual hab_101 200 = false
  /\ esta_disponible (snd (cancelar_reserva 1 mundo_individual)) hab_101 200 = true
  /\ forall (otra : Habitacion) (fecha : Fecha),
       hab_id otra <> hab_id hab_101 \/ fecha <> 200 ->
       esta_disponible (snd (cancelar_reserva 1 mundo_individual)) otra fecha
       = esta_disponible mundo_individual otra fecha.
Proof.
  apply (X13_cancelar_reserva_frees_room mundo_individual 1 reserva_individual hab_101).
  - intros h fecha. unfold reservas_de. simpl.
    destruct (_ && _); simpl; lia.
  - reflexivity.
  - reflexivity.
  - left. reflexivity.
Defined.

(* ================================================================== *)
(** ** Creation from the admin panel: outcomes and round trip *)
(* ================================================================== *)

(** The four ways [crear_reserva_desde_admin] can end. *)
Lemma crear_reserva_desde_admin_casos
    (huesped_id : Z) (fecha : Fecha) (cantidad hotel_id_ : Z)
    (habitacion_id : option Z) (w : Mundo) :
  (exists e, crear_reserva_desde_admin huesped_id fecha cantidad hotel_id_
                                       habitacion_id w
             = (Ok (None, "Error: " ^^ Excepcion_str e), w))
  \/ crear_reserva_desde_admin huesped_id fecha cantidad hotel_id_ habitacion_id w
     = (Ok (None, "No hay habitaciones disponibles"), w)
  \/ crear_reserva_desde_admin huesped_id fecha cantidad hotel_id_ habitacion_id w
     = (Ok (None, "La habitación seleccionada no está disponible"), w)
  \/ exists hu hotel hab,
       Huesped_get huesped_id w = Ok hu
       /\ Hotel_get hotel_id_ w = Ok hotel
       /\ In hab (habitaciones w)
       /\ esta_disponible w hab fecha = true
       /\ (verdadero habitacion_id = true ->
           exists i, habitacion_id = Some i /\ Habitacion_get i w = Ok hab)
       /\ (verdadero habitacion_id = false ->
           hab_hotel hab = hotel_id hotel /\ cantidad <= cantidad_plazas hab)
       /\ crear_reserva_desde_admin huesped_id fecha cantidad hotel_id_
                                    habitacion_id w
          = (Ok (Some (mkReserva (Some (sec_reserva w)) (hue_id hu) fecha cantidad
                                 (Some (hab_id hab)) confirmada (ahora w) (ahora w) ""),
                 "Reserva creada exitosamente"),
             con_reservas w
               (reservas w
                ++ [mkReserva (Some (sec_reserva w)) (hue_id hu) fecha cantidad
                              (Some (hab_id hab)) confirmada (ahora w) (ahora w) ""])
               (sec_reserva w + 1)).
Proof.
  unfold crear_reserva_desde_admin. cbv zeta.
  unfold intenta. rewrite !bind_eleva.
  destruct (Huesped_get huesped_id w) as [hu|e] eqn:Ehu; [|left; now exists e].
  rewrite !bind_eleva.
  destruct (Hotel_get hotel_id_ w) as [hotel|e] eqn:Eho; [|left; now exists e].
  assert (Hver : forall hab,
             In hab (habitaciones w) ->
             (verdadero habitacion_id = true ->
              exists i, habitacion_id = Some i /\ Habitacion_get i w = Ok hab) ->
             (verdadero habitacion_id = false ->
              hab_hotel hab = hotel_id hotel /\ cantidad <= cantidad_plazas hab) ->
             let res :=
               bind (consulta (fun w0 => esta_disponible w0 hab fecha))
                 (fun disponible =>
                    if negb disponible
                    then ret (None, "La habitación seleccionada no está disponible")
                    else
                      bind (Reserva_create hu fecha cantidad hab confirmada)
                        (fun reserva =>
                           ret (Some reserva, "Reserva creada exitosamente"))) w in
             res = (Ok (None, "La habitación seleccionada no está disponible"), w)
             \/ (esta_disponible w hab fecha = true
                 /\ res
                    = (Ok (Some (mkReserva (Some (sec_reserva w)) (hue_id hu) fecha
                                   cantidad (Some (hab_id hab)) confirmada
                                   (ahora w) (ahora w) ""),
                           "Reserva creada exitosamente"),
                       con_reservas w
                         (reservas w
                          ++ [mkReserva (Some (sec_reserva w)) (hue_id hu) fecha
                                cantidad (Some (hab_id hab)) confirmada
                                (ahora w) (ahora w) ""])
                         (sec_reserva w + 1)))).
  { intros hab _ _ _ res. subst res. rewrite bind_consulta.
    destruct (esta_disponible w hab fecha) eqn:Ed; cbn [negb];
      [right; split; [reflexivity|]|left; reflexivity].
    unfold bind. rewrite crear_en_habitacion_libre. reflexivity. }
  assert (Hauto : verdadero habitacion_id = false ->
    let res :=
      bind (consulta (fun w0 =>
              List.filter (fun x => cantidad_plazas x >=? cantidad)
                          (habitaciones_disponibles w0 hotel (Some fecha))))
        (fun disponibles =>
           if negb (existe disponibles)
           then ret (None, "No hay habitaciones disponibles")
           else
             bind (consulta (fun w0 => Habitacion_first w0 disponibles))
               (fun primera =>
                  match primera with
                  | Some hab =>
                      bind (consulta (fun w0 => esta_disponible w0 hab fecha))
                        (fun disponible =>
                           if negb disponible
                           then ret (None, "La habitación seleccionada no está disponible")
                           else
                             bind (Reserva_create hu fecha cantidad hab confirmada)
                               (fun reserva =>
                                  ret (Some reserva, "Reserva creada exitosamente")))
                  | None =>
                      lanza (AttributeError
                        "'NoneType' object has no attribute 'esta_disponible'")
                  end)) w in
    res = (Ok (None, "No hay habitaciones disponibles"), w)
    \/ res = (Ok (None, "La habitación seleccionada no está disponible"), w)
    \/ exists hab,
         In hab (habitaciones w) /\ esta_disponible w hab fecha = true
         /\ hab_hotel hab = hotel_id hotel /\ cantidad <= cantidad_plazas hab
         /\ res
            = (Ok (Some (mkReserva (Some (sec_reserva w)) (hue_id hu) fecha
                           cantidad (Some (hab_id hab)) confirmada
                           (ahora w) (ahora w) ""),
                   "Reserva creada exitosamente"),
               con_reservas w
                 (reservas w
                  ++ [mkReserva (Some (sec_reserva w)) (hue_id hu) fecha
                        cantidad (Some (hab_id hab)) confirmada
                        (ahora w) (ahora w) ""])
                 (sec_reserva w + 1))).
  { intros Hv res. subst res. rewrite bind_consulta.
    set (candidatas := List.filter _ _).
    destruct (existe candidatas) eqn:Eex; cbn [negb]; [|left; reflexivity].
    assert (Hne : candidatas <> []) by (intros Hc; rewrite Hc in Eex; discriminate).
    destruct (Habitacion_first_Some w candidatas Hne) as [hab Hfirst].
    rewrite bind_consulta, Hfirst.
    assert (Hin : In hab candidatas).
    { unfold Habitacion_first in Hfirst.
      apply (ordenar_In (Habitacion_ordering w)).
      destruct (ordenar _ candidatas) as [|x s]; [discriminate|].
      injection Hfirst as ->. now left. }
    apply candidatas_In in Hin. destruct Hin as [Hin [Hhot [Hd Hcap]]].
    right. right. exists hab.
    destruct (Hver hab Hin) as [Hno|[_ Hsi]].
    - intros Ht. rewrite Hv in Ht. discriminate.
    - intros _. now split.
    - rewrite bind_consulta, Hd in Hno. cbn [negb] in Hno. unfold bind in Hno.
      rewrite crear_en_habitacion_libre in Hno. discriminate Hno.
    - repeat split; auto. }
  destruct habitacion_id as [i|].
  - destruct (verdadero (Some i)) eqn:Ev.
    + rewrite !bind_eleva.
      destruct (Habitacion_get i w) as [hab|e] eqn:Ehab; [|left; now exists e].
      destruct (Habitacion_get_Ok _ _ _ Ehab) as [Hin _].
      destruct (Hver hab Hin) as [Hno|[Hd Hsi]].
      * intros _. now exists i.
      * intros Hc. discriminate Hc.
      * right. right. left. cbv zeta in Hno. now rewrite Hno.
      * right. right. right. exists hu, hotel, hab. cbv zeta in Hsi.
        rewrite Hsi. repeat split; auto.
        -- intros _. now exists i.
        -- discriminate.
        -- discriminate.
    + destruct (Hauto eq_refl) as [H|[H|[hab [Hin [Hd [Hhot [Hcap H]]]]]]];
        cbv zeta in H; rewrite H.
      * right. left. reflexivity.
      * right. right. left. reflexivity.
      * right. right. right. exists hu, hotel, hab. repeat split; auto.
        intros Hc. discriminate Hc.
  - destruct (Hauto eq_refl) as [H|[H|[hab [Hin [Hd [Hhot [Hcap H]]]]]]];
      cbv zeta in H; rewrite H.
    + right. left. reflexivity.
    + right. right. left. reflexivity.
    + right. right. right. exists hu, hotel, hab. repeat split; auto.
      intros Hc. discriminate Hc.
Qed.

Lemma filter_nada {A : Type} (p : A -> bool) (l : list A) :
  (forall x, In x l -> p x = false) -> List.filter p l = [].
Proof.
  induction l as [|a l IH]; simpl; intros H; [reflexivity|].
  rewrite (H a (or_introl eq_refl)). apply IH. intros x Hx. apply H. now right.
Qed.

(** A row appended with the next key of the sequence is the one [get]
    returns for that key. *)
Lemma Reserva_get_nueva (w : Mundo) (r : Reserva) (s : Z) :
  claves_validas w ->
  pk r = Some (sec_reserva w) ->
  Reserva_get (sec_reserva w) (con_reservas w (reservas w ++ [r]) s) = Ok r.
Proof.
  intros [_ [_ Hpks]] Hpk. unfold Reserva_get, get. cbn [reservas con_reservas].
  rewrite filter_app, filter_nada.
  - simpl. now rewrite Hpk, opt_eqb_refl.
  - intros x Hx. destruct (Hpks x Hx) as [j [Hj Hrange]]. rewrite Hj. simpl.
    apply Z.eqb_neq. lia.
Qed.

(** X14. [crear_reserva_desde_admin] never raises and is all or nothing:
    either it returns no reservation and the world is untouched, or it
    returns the reservation it appended, which is confirmada, has the
    next key, the requested date and party size, and a room that was
    free on that date; nothing else is written. *)
Theorem X14_crear_reserva_desde_admin_all_or_nothing
    (huesped_id : Z) (fecha : Fecha) (cantidad hotel_id_ : Z)
    (habitacion_id : option Z) (w : Mundo) :
  exists res texto w',
    crear_reserva_desde_admin huesped_id fecha cantidad hotel_id_ habitacion_id w
    = (Ok (res, texto), w')
    /\ match res with
       | None => w' = w
       | Some r =>
           texto = "Reserva creada exitosamente"
           /\ w' = con_reservas w (reservas w ++ [r]) (sec_reserva w + 1)
           /\ pk r = Some (sec_reserva w)
           /\ estado r = confirmada
           /\ fecha_reserva r = fecha
           /\ cantidad_personas r = cantidad
           /\ exists hab, In hab (habitaciones w)
                          /\ habitacion r = Some (hab_id hab)
                          /\ esta_disponible w hab fecha = true
       end.
Proof.
  destruct (crear_reserva_desde_admin_casos huesped_id fecha cantidad hotel_id_
              habitacion_id w)
    as [[e H]|[H|[H|[hu [hotel [hab [_ [_ [Hin [Hd [_ [_ H]]]]]]]]]]]];
    rewrite H; do 3 eexists; (split; [reflexivity|]); try reflexivity.
  repeat split. now exists hab.
Qed.

(** X15. After [crear_reserva_desde_admin] returns a reservation on a
    well-formed store, looking the new key up returns that reservation,
    its room is no longer available on the date nor offered by any
    hotel's availability query, the store invariant still holds, and the
    same request for an explicit room is now refused with the
    not-available outcome, writing nothing. *)
Theorem X15_crear_reserva_desde_admin_round_trip
    (huesped_id : Z) (fecha : Fecha) (cantidad hotel_id_ : Z)
    (habitacion_id : option Z) (w w' : Mundo) (r : Reserva) (texto : string) :
  invariante w ->
  crear_reserva_desde_admin huesped_id fecha cantidad hotel_id_ habitacion_id w
  = (Ok (Some r, texto), w') ->
  Reserva_get (sec_reserva w) w' = Ok r
  /\ invariante w'
  /\ (exists hab,
        In hab (habitaciones w') /\ habitacion r = Some (hab_id hab)
        /\ esta_disponible w hab fecha = true
        /\ esta_disponible w' hab fecha = false
        /\ forall hotel, ~ In hab (habitaciones_disponibles w' hotel (Some fecha)))
  /\ (verdadero habitacion_id = true ->
      crear_reserva_desde_admin huesped_id fecha cantidad hotel_id_ habitacion_id w'
      = (Ok (None, "La habitación seleccionada no está disponible"), w')).
Proof.
  intros Hinv Hrun.
  assert (Hinv' : invariante w').
  { replace w' with (snd (crear_reserva_desde_admin huesped_id fecha cantidad
                            hotel_id_ habitacion_id w)) by now rewrite Hrun.
    apply con_claves_nil. apply crear_reserva_desde_admin_conserva.
    now apply con_claves_nil. }
  destruct (crear_reserva_desde_admin_casos huesped_id fecha cantidad hotel_id_
              habitacion_id w)
    as [[e H]|[H|[H|[hu [hotel [hab [Ehu [Eho [Hin [Hd [Hexp [_ H]]]]]]]]]]]];
    rewrite H in Hrun; try discriminate Hrun.
  injection Hrun as <- <- <-.
  set (r := mkReserva (Some (sec_reserva w)) (hue_id hu) fecha cantidad
                      (Some (hab_id hab)) confirmada (ahora w) (ahora w) "") in *.
  set (w' := con_reservas w (reservas w ++ [r]) (sec_reserva w + 1)) in *.
  assert (Hocupada : esta_disponible w' hab fecha = false).
  { apply esta_disponible_false. exists r. apply reservas_de_In.
    cbn [reservas con_reservas w']. split; [apply in_app_iff; right; now left|].
    repeat split. now right. }
  split; [apply Reserva_get_nueva; [apply Hinv|reflexivity]|].
  split; [exact Hinv'|]. split.
  - exists hab. repeat split; auto.
    intros hotel0 Hc. rewrite habitaciones_disponibles_filter in Hc.
    apply filter_In in Hc. destruct Hc as [_ Hc]. congruence.
  - intros Hv. destruct (Hexp Hv) as [i [-> Hget]].
    apply (crear_reserva_desde_admin_ocupada w' huesped_id hotel_id_ i fecha
             cantidad hu hotel hab); auto.
    simpl in Hv. intros ->. discriminate Hv.
Qed.

Lemma X15_crear_reserva_desde_admin_witness :
  let r := mkReserva (Some 1) 1 200 2 (Some 2) confirmada 8640005 8640005 "" in
  let w' := snd (crear_reserva_desde_admin 1 200 2 1 (Some 2) mundo_capacidades) in
  Reserva_get (sec_reserva mundo_capacidades) w' = Ok r
  /\ invariante w'
  /\ (exists hab,
        In hab (habitaciones w') /\ habitacion r = Some (hab_id hab)
        /\ esta_disponible mundo_capacidades hab 200 = true
        /\ esta_disponible w' hab 200 = false
        /\ forall hotel, ~ In hab (habitaciones_disponibles w' hotel (Some 200)))
  /\ (verdadero (Some 2) = true ->
      crear_reserva_desde_admin 1 200 2 1 (Some 2) w'
      = (Ok (None, "La habitación seleccionada no está disponible"), w')).
Proof.
  intros r w'.
  apply (X15_crear_reserva_desde_admin_round_trip 1 200 2 1 (Some 2)
           mundo_capacidades w' r "Reserva creada exitosamente").
  - split; [split; [simpl; lia|split; [constructor|intros x []]]|].
    intros h fecha. simpl. lia.
  - reflexivity.
Defined.

(* ================================================================== *)
(** ** The guest submission: when it writes, and what it leaves *)
(* ================================================================== *)

Lemma resolver_huesped_habitaciones (f : Formulario) (w : Mundo) :
  habitaciones (snd (resolver_huesped f w)) = habitaciones w
  /\ mensajes (snd (resolver_huesped f w)) = mensajes w.
Proof.
  unfold resolver_huesped, Huesped_get_or_create. rewrite bind_eq.
  destruct (get "Huesped" _ (huespedes w)) as [hu|e].
  - cbn [fst snd negb].
    destruct (negb (String.eqb (nombre hu) (post_nombre f))
              || negb (String.eqb (telefono hu) (post_telefono f)));
      repeat split.
  - destruct e; repeat split.
Qed.

Lemma get_object_or_404_eq {A : Type} (modelo : string)
    (q : Mundo -> Resultado A) (w : Mundo) :
  get_object_or_404 modelo q w
  = (match q w with
     | Lanza (DoesNotExist _) => Lanza (Http404 modelo)
     | r => r
     end, w).
Proof. unfold get_object_or_404. now destruct (q w) as [a|[]]. Qed.

(** X16. [completar_reserva] writes to the guest or reservation table
    only on a POST with a complete session (date, non-zero party size,
    non-zero hotel id, room id) whose hotel and room exist; a session
    that is not complete is answered with the error message and a
    redirect home, the session kept. *)
Theorem X16_completar_reserva_writes_only_when_complete
    (ses : Sesion) (metodo : Metodo) (f : Formulario) (w : Mundo) :
  (reservas (snd (completar_reserva ses metodo f w)) <> reservas w
   \/ huespedes (snd (completar_reserva ses metodo f w)) <> huespedes w ->
   metodo = POST
   /\ exists fecha cantidad hotel_id_ habitacion_id hotel hab,
        ses = mkSesion (Some fecha) (Some cantidad) (Some hotel_id_)
                       (Some habitacion_id)
        /\ cantidad <> 0 /\ hotel_id_ <> 0
        /\ Hotel_get hotel_id_ w = Ok hotel
        /\ Habitacion_get habitacion_id w = Ok hab)
  /\ (ses_fecha_reserva ses = None \/ verdadero (ses_cantidad_personas ses) = false
      \/ verdadero (ses_hotel_id ses) = false \/ ses_habitacion_id ses = None ->
      completar_reserva ses metodo f w
      = (Ok (Redirect "home" None, ses),
         con_mensaje w (ERROR, "Información de reserva incompleta."))).
Proof.
  destruct ses as [[fecha|] [cantidad|] [hid|] [habid|]];
    try (split; [intros [H|H]; exfalso; apply H; reflexivity
                |intros _; reflexivity]).
  unfold completar_reserva. cbn [ses_fecha_reserva ses_cantidad_personas
                                  ses_hotel_id ses_habitacion_id].
  destruct (verdadero (Some cantidad)) eqn:Ec;
    [|split; [intros [H|H]; exfalso; apply H; reflexivity|intros _; reflexivity]].
  destruct (verdadero (Some hid)) eqn:Eh;
    [|split; [intros [H|H]; exfalso; apply H; reflexivity|intros _; reflexivity]].
  cbn [andb]. split.
  - rewrite bind_eq, get_object_or_404_eq. cbn [fst snd].
    destruct (Hotel_get hid w) as [hotel|e] eqn:Eho.
    + rewrite bind_eq, get_object_or_404_eq. cbn [fst snd].
      destruct (Habitacion_get habid w) as [hab|e] eqn:Eha.
      * destruct metodo.
        -- intros [H|H]; exfalso; apply H; reflexivity.
        -- intros _. split; [reflexivity|].
           exists fecha, cantidad, hid, habid, hotel, hab.
           simpl in Ec, Eh. apply negb_true_iff in Ec, Eh.
           apply Z.eqb_neq in Ec, Eh. repeat split; auto.
      * destruct e; intros [H|H]; exfalso; apply H; reflexivity.
    + destruct e; intros [H|H]; exfalso; apply H; reflexivity.
  - intros [H|[H|[H|H]]]; discriminate H.
Qed.

(** X17. A POST to [completar_reserva] with a complete session, existing
    hotel and room, and a guest that resolves, answers with a redirect to
    the detail page of the new key and an empty session.  On a
    well-formed store [detalle_reserva] of that key then shows the new
    pendiente reservation, the room is no longer available on the date,
    and that reservation does not pass [puede_confirmar]. *)
Theorem X17_completar_reserva_round_trip
    (w : Mundo) (fecha : Fecha) (cantidad hotel_id_ habitacion_id : Z)
    (f : Formulario) (hotel : Hotel) (hab : Habitacion) (hu : Huesped) :
  claves_validas w ->
  cantidad <> 0 -> hotel_id_ <> 0 ->
  Hotel_get hotel_id_ w = Ok hotel ->
  Habitacion_get habitacion_id w = Ok hab ->
  fst (resolver_huesped f w) = Ok hu ->
  let nueva := mkReserva (Some (sec_reserva w)) (hue_id hu) fecha cantidad
                         (Some (hab_id hab)) pendiente (ahora w) (ahora w) "" in
  let res := completar_reserva
               (mkSesion (Some fecha) (Some cantidad) (Some hotel_id_)
                         (Some habitacion_id)) POST f w in
  fst res = Ok (Redirect "detalle_reserva" (Some (sec_reserva w)), sesion_limpia)
  /\ reservas (snd res) = reservas w ++ [nueva]
  /\ mensajes (snd res)
     = mensajes w ++ [(SUCCESS, "✅ Reserva creada exitosamente. Número de reserva: #"
                                ^^ str (sec_reserva w))]
  /\ detalle_reserva (sec_reserva w) (snd res)
     = (Ok (Muestra "detalle_reserva.html" nueva), snd res)
  /\ esta_disponible (snd res) hab fecha = false
  /\ puede_confirmar nueva (snd res) = (Ok false, snd res).
Proof.
  intros Hcl Hc Hh Hhotel Hhab Hhu nueva res.
  destruct (resolver_huesped_reservas f w) as [Hr [Hs Ha]].
  destruct (resolver_huesped_habitaciones f w) as [Hhabs Hmsg].
  destruct (Habitacion_get_Ok _ _ _ Hhab) as [_ Hid].
  set (w1 := snd (resolver_huesped f w)) in *.
  assert (Hres : res
                 = (Ok (Redirect "detalle_reserva" (Some (sec_reserva w)),
                        sesion_limpia),
                    con_mensaje (con_reservas w1 (reservas w ++ [nueva])
                                              (sec_reserva w + 1))
                      (SUCCESS,
                       "✅ Reserva creada exitosamente. Número de reserva: #"
                       ^^ str (sec_reserva w)))).
  { subst res. unfold completar_reserva. simpl.
    destruct (cantidad =? 0) eqn:E1; [apply Z.eqb_eq in E1; contradiction|].
    destruct (hotel_id_ =? 0) eqn:E2; [apply Z.eqb_eq in E2; contradiction|].
    simpl. unfold bind at 1. unfold get_object_or_404 at 1. rewrite Hhotel.
    unfold bind at 1. unfold get_object_or_404 at 1. rewrite Hhab.
    rewrite bind_eq, Hhu. fold w1.
    unfold bind at 1. rewrite Reserva_create_pendiente.
    unfold bind, message_user, ret. cbn [pk str_id].
    rewrite Hr, Hs, Ha. reflexivity. }
  rewrite Hres. cbn [fst snd].
  assert (Hget : Reserva_get (sec_reserva w)
                   (con_mensaje (con_reservas w1 (reservas w ++ [nueva])
                                              (sec_reserva w + 1))
                      (SUCCESS,
                       "✅ Reserva creada exitosamente. Número de reserva: #"
                       ^^ str (sec_reserva w))) = Ok nueva).
  { pose proof (Reserva_get_nueva w nueva 0 Hcl eq_refl) as G.
    unfold Reserva_get in *. cbn [reservas con_reservas con_mensaje] in *.
    exact G. }
  split; [reflexivity|]. split; [reflexivity|]. split.
  { cbn [mensajes con_mensaje con_reservas]. now rewrite Hmsg. }
  split.
  { unfold detalle_reserva. rewrite bind_eq, get_object_or_404_eq. cbn [fst snd].
    now rewrite Hget. }
  assert (Hin : In nueva (reservas
                   (con_mensaje (con_reservas w1 (reservas w ++ [nueva])
                                              (sec_reserva w + 1))
                      (SUCCESS,
                       "✅ Reserva creada exitosamente. Número de reserva: #"
                       ^^ str (sec_reserva w))))).
  { cbn [reservas con_mensaje con_reservas]. apply in_app_iff. right. now left. }
  split.
  - apply (esta_disponible_propia _ nueva hab Hin); [reflexivity|now left].
  - destruct (puede_confirmar_pendiente _ nueva (hab_id hab) Hin eq_refl eq_refl)
      as [[hab' [_ Hp]]|[e [He _]]]; [exact Hp|].
    exfalso.
    assert (Hsame : Habitacion_get (hab_id hab)
                      (con_mensaje (con_reservas w1 (reservas w ++ [nueva])
                                                 (sec_reserva w + 1))
                         (SUCCESS,
                          "✅ Reserva creada exitosamente. Número de reserva: #"
                          ^^ str (sec_reserva w)))
                    = Habitacion_get habitacion_id w).
    { unfold Habitacion_get. cbn [habitaciones con_mensaje con_reservas].
      now rewrite Hhabs, Hid. }
    rewrite Hsame, Hhab in He. discriminate He.
Qed.

Lemma X17_completar_reserva_witness :
  let nueva := mkReserva (Some 1) 1 200 2 (Some 1) pendiente 8640005 8640005 "" in
  let res := completar_reserva sesion_ana POST formulario_ana mundo_abierto in
  fst res = Ok (Redirect "detalle_reserva" (Some 1), sesion_limpia)
  /\ reservas (snd res) = reservas mundo_abierto ++ [nueva]
  /\ mensajes (snd res)
     = mensajes mundo_abierto
       ++ [(SUCCESS, "✅ Reserva creada exitosamente. Número de reserva: #" ^^ str 1)]
  /\ detalle_reserva 1 (snd res) = (Ok (Muestra "detalle_reserva.html" nueva), snd res)
  /\ esta_disponible (snd res) hab_101 200 = false
  /\ puede_confirmar nueva (snd res) = (Ok false, snd res).
Proof.
  apply (X17_completar_reserva_round_trip mundo_abierto 200 2 1 1 formulario_ana
           hotel_sol hab_101 (mkHuesped 1 "Ana Maria" "ana@example.org" "555-0199")).
  - split; [simpl; lia|split; [constructor|intros r []]].
  - lia.
  - lia.
  - reflexivity.
  - reflexivity.
  - reflexivity.
Defined.

(* ================================================================== *)
(** ** Step 1: the date window *)
(* ================================================================== *)

Lemma texto_verdadero_spec (s : option string) :
  texto_verdadero s = true <-> exists t, s = Some t /\ t <> "".
Proof.
  destruct s as [t|]; simpl.
  - rewrite negb_true_iff, String.eqb_neq. split.
    + intros H. now exists t.
    + intros [t' [[= <-] H]]. exact H.
  - split; [discriminate|]. intros [t [H _]]. discriminate H.
Qed.

(** The cases of [reservar_hotel]. *)
Lemma reservar_hotel_casos
    (strptime : string -> option Fecha) (int : string -> option Z)
    (ses : Sesion) (metodo : Metodo)
    (post_fecha_reserva post_cantidad_personas : option string)
    (hotel_id_ : Z) (w : Mundo) :
  (forall ses',
     fst (reservar_hotel strptime int ses metodo post_fecha_reserva
                         post_cantidad_personas hotel_id_ w)
     = Ok (Redirige "seleccionar_habitacion", ses')
     <-> metodo = POST
         /\ (exists hotel, Hotel_get hotel_id_ w = Ok hotel)
         /\ exists s1 s2 d n,
              post_fecha_reserva = Some s1 /\ post_cantidad_personas = Some s2
              /\ s1 <> "" /\ s2 <> ""
              /\ strptime s1 = Some d /\ hoy w <= d <= hoy w + 365
              /\ int s2 = Some n
              /\ ses' = mkSesion (Some d) (Some n) (Some hotel_id_)
                                 (ses_habitacion_id ses))
  /\ (forall hotel s1 s2 d,
        metodo = POST -> Hotel_get hotel_id_ w = Ok hotel ->
        post_fecha_reserva = Some s1 -> post_cantidad_personas = Some s2 ->
        s1 <> "" -> s2 <> "" ->
        strptime s1 = Some d -> hoy w <= d <= hoy w + 365 ->
        int s2 = None ->
        reservar_hotel strptime int ses metodo post_fecha_reserva
                       post_cantidad_personas hotel_id_ w
        = (Ok (Muestra "seleccionar_fecha.html"
                       (mkContextoFecha hotel (hoy w) (hoy w + 365) (hoy w)),
               mkSesion (Some d) (ses_cantidad_personas ses) (ses_hotel_id ses)
                        (ses_habitacion_id ses)),
           con_mensaje w (ERROR, "Fecha inválida.")))
  /\ (let w' := snd (reservar_hotel strptime int ses metodo post_fecha_reserva
                                    post_cantidad_personas hotel_id_ w) in
      hoteles w' = hoteles w /\ habitaciones w' = habitaciones w
      /\ huespedes w' = huespedes w /\ reservas w' = reservas w).
Proof.
  unfold reservar_hotel. rewrite bind_eq, get_object_or_404_eq. cbn [fst snd].
  destruct (Hotel_get hotel_id_ w) as [hotel|e] eqn:Eh.
  2:{ split; [|split].
      - intros ses'. split.
        + destruct e; discriminate.
        + intros [_ [[h Hh] _]]. discriminate Hh.
      - intros h s1 s2 d _ Hh. discriminate Hh.
      - destruct e; repeat split. }
  rewrite bind_consulta.
  destruct metodo.
  { split; [|split].
    - intros ses'. split; [discriminate|]. intros [H _]. discriminate H.
    - intros h s1 s2 d H. discriminate H.
    - repeat split. }
  destruct (texto_verdadero post_fecha_reserva) eqn:E1.
  2:{ cbn [andb]. split; [|split].
      - intros ses'. split; [discriminate|].
        intros [_ [_ [s1 [s2 [d [n [H1 [_ [H3 _]]]]]]]]].
        assert (texto_verdadero post_fecha_reserva = true)
          by (apply texto_verdadero_spec; now exists s1).
        congruence.
      - intros h s1 s2 d _ _ H1 _ H3.
        assert (texto_verdadero post_fecha_reserva = true)
          by (apply texto_verdadero_spec; now exists s1).
        congruence.
      - repeat split. }
  destruct (texto_verdadero post_cantidad_personas) eqn:E2.
  2:{ cbn [andb]. split; [|split].
      - intros ses'. split; [discriminate|].
        intros [_ [_ [s1 [s2 [d [n [_ [H2 [_ [H4 _]]]]]]]]]].
        assert (texto_verdadero post_cantidad_personas = true)
          by (apply texto_verdadero_spec; now exists s2).
        congruence.
      - intros h s1 s2 d _ _ _ H2 _ H4.
        assert (texto_verdadero post_cantidad_personas = true)
          by (apply texto_verdadero_spec; now exists s2).
        congruence.
      - repeat split. }
  cbn [andb].
  apply texto_verdadero_spec in E1, E2.
  destruct E1 as [t1 [-> Ht1]]. destruct E2 as [t2 [-> Ht2]].
  destruct (strptime t1) as [fecha_obj|] eqn:Es.
  2:{ split; [|split].
      - intros ses'. split; [discriminate|].
        intros [_ [_ [s1 [s2 [d [n [[= <-] [_ [_ [_ [Hs _]]]]]]]]]]]. congruence.
      - intros h s1 s2 d _ _ [= <-] _ _ _ Hs. congruence.
      - repeat split. }
  destruct (fecha_obj <? hoy w) eqn:Emin.
  { apply Z.ltb_lt in Emin. split; [|split].
    - intros ses'. split; [discriminate|].
      intros [_ [_ [s1 [s2 [d [n [[= <-] [_ [_ [_ [Hs [Hd _]]]]]]]]]]]].
      rewrite Es in Hs. injection Hs as <-. lia.
    - intros h s1 s2 d _ _ [= <-] _ _ _ Hs Hd.
      rewrite Es in Hs. injection Hs as <-. lia.
    - repeat split. }
  apply Z.ltb_ge in Emin.
  destruct (fecha_obj >? hoy w + 365) eqn:Emax.
  { apply Z.gtb_lt in Emax. split; [|split].
    - intros ses'. split; [discriminate|].
      intros [_ [_ [s1 [s2 [d [n [[= <-] [_ [_ [_ [Hs [Hd _]]]]]]]]]]]].
      rewrite Es in Hs. injection Hs as <-. lia.
    - intros h s1 s2 d _ _ [= <-] _ _ _ Hs Hd.
      rewrite Es in Hs. injection Hs as <-. lia.
    - repeat split. }
  assert (Hmax : fecha_obj <= hoy w + 365).
  { rewrite Z.gtb_ltb in Emax. apply Z.ltb_ge in Emax. exact Emax. }
  destruct (int t2) as [n|] eqn:Ei.
  - split; [|split].
    + intros ses'. cbn [ret fst]. split.
      * intros [= <-]. split; [reflexivity|]. split; [now exists hotel|].
        exists t1, t2, fecha_obj, n. repeat split; auto.
      * intros [_ [_ [s1 [s2 [d [n' [[= <-] [[= <-] [_ [_ [Hs [_ [Hn ->]]]]]]]]]]]]].
        rewrite Es in Hs. injection Hs as <-.
        rewrite Ei in Hn. injection Hn as <-. reflexivity.
    + intros h s1 s2 d _ _ _ [= <-] _ _ _ _ Hn. congruence.
    + repeat split.
  - split; [|split].
    + intros ses'. split; [discriminate|].
      intros [_ [_ [s1 [s2 [d [n' [_ [[= <-] [_ [_ [_ [_ [Hn _]]]]]]]]]]]]]. congruence.
    + intros h s1 s2 d _ [= <-] [= <-] _ _ _ Hs _ _.
      rewrite Es in Hs. injection Hs as <-. reflexivity.
    + repeat split.
Qed.

(** X18. [reservar_hotel] redirects to step 2 exactly on a POST for an
    existing hotel with both fields filled, a date that parses and lies
    between today and 365 days from today, and a party size that parses;
    the session then holds that date, size and hotel.  When the date is
    accepted and the party size does not parse, the form is shown again
    with the invalid-date message and the date is already in the session.
    No table is written in any case. *)
Theorem X18_reservar_hotel_window
    (strptime : string -> option Fecha) (int : string -> option Z)
    (ses : Sesion) (metodo : Metodo)
    (post_fecha_reserva post_cantidad_personas : option string)
    (hotel_id_ : Z) (w : Mundo) :
  (forall ses',
     fst (reservar_hotel strptime int ses metodo post_fecha_reserva
                         post_cantidad_personas hotel_id_ w)
     = Ok (Redirige "seleccionar_habitacion", ses')
     <-> metodo = POST
         /\ (exists hotel, Hotel_get hotel_id_ w = Ok hotel)
         /\ exists s1 s2 d n,
              post_fecha_reserva = Some s1 /\ post_cantidad_personas = Some s2
              /\ s1 <> "" /\ s2 <> ""
              /\ strptime s1 = Some d /\ hoy w <= d <= hoy w + 365
              /\ int s2 = Some n
              /\ ses' = mkSesion (Some d) (Some n) (Some hotel_id_)
                                 (ses_habitacion_id ses))
  /\ (forall hotel s1 s2 d,
        metodo = POST -> Hotel_get hotel_id_ w = Ok hotel ->
        post_fecha_reserva = Some s1 -> post_cantidad_personas = Some s2 ->
        s1 <> "" -> s2 <> "" ->
        strptime s1 = Some d -> hoy w <= d <= hoy w + 365 ->
        int s2 = None ->
        reservar_hotel strptime int ses metodo post_fecha_reserva
                       post_cantidad_personas hotel_id_ w
        = (Ok (Muestra "seleccionar_fecha.html"
                       (mkContextoFecha hotel (hoy w) (hoy w + 365) (hoy w)),
               mkSesion (Some d) (ses_cantidad_personas ses) (ses_hotel_id ses)
                        (ses_habitacion_id ses)),
           con_mensaje w (ERROR, "Fecha inválida.")))
  /\ (let w' := snd (reservar_hotel strptime int ses metodo post_fecha_reserva
                                    post_cantidad_personas hotel_id_ w) in
      hoteles w' = hoteles w /\ habitaciones w' = habitaciones w
      /\ huespedes w' = huespedes w /\ reservas w' = reservas w).
Proof. apply reservar_hotel_casos. Qed.

(* ================================================================== *)
(** ** Step 2: the rooms offered *)
(* ================================================================== *)

Lemma por_plazas_numero_spec (a b : Habitacion) :
  por_plazas_numero a b = true
  <-> cantidad_plazas a < cantidad_plazas b
      \/ (cantidad_plazas a = cantidad_plazas b
          /\ str_leb (numero a) (numero b) = true).
Proof.
  unfold por_plazas_numero.
  rewrite orb_true_iff, andb_true_iff, Z.ltb_lt, Z.eqb_eq. tauto.
Qed.

Lemma por_plazas_numero_total (a b : Habitacion) :
  por_plazas_numero a b = true \/ por_plazas_numero b a = true.
Proof.
  rewrite !por_plazas_numero_spec.
  destruct (Z.lt_trichotomy (cantidad_plazas a) (cantidad_plazas b)) as [H|[H|H]];
    [now left; left| |now right; left].
  destruct (str_leb_total (numero a) (numero b)) as [Hs|Hs].
  - left. right. now split.
  - right. right. now split.
Qed.

Lemma por_plazas_numero_trans (a b c : Habitacion) :
  por_plazas_numero a b = true -> por_plazas_numero b c = true ->
  por_plazas_numero a c = true.
Proof.
  rewrite !por_plazas_numero_spec.
  intros [H1|[H1 S1]] [H2|[H2 S2]]; try (left; lia).
  right. split; [lia|]. exact (str_leb_trans _ _ _ S1 S2).
Qed.

(** Without a NULL in the subquery, [NOT IN] is the availability
    predicate. *)
Lemma sql_not_in_esta_disponible (w : Mundo) (fecha : Fecha) (h : Habitacion) :
  (forall r, In r (reservas w) -> fecha_reserva r = fecha ->
             estado r = pendiente \/ estado r = confirmada ->
             habitacion r <> None) ->
  sql_not_in (hab_id h) (habitaciones_reservadas_en w fecha)
  = esta_disponible w h fecha.
Proof.
  intros Hsin. unfold sql_not_in, esta_disponible, habitaciones_reservadas_en.
  assert (Hnull : existsb (opt_eqb None)
                    (map habitacion
                       (List.filter
                          (fun r => (fecha_reserva r =? fecha)
                                    && estado_in_confirmada_pendiente (estado r))
                          (reservas w))) = false).
  { destruct (existsb _ _) eqn:Ex; [|reflexivity]. exfalso.
    apply existsb_exists in Ex. destruct Ex as [o [Ho Hn]].
    apply opt_eqb_eq in Hn. subst o. apply in_map_iff in Ho.
    destruct Ho as [r [Hr Hin]]. apply filter_In in Hin.
    destruct Hin as [Hin Hc]. apply andb_true_iff in Hc. destruct Hc as [Hf He].
    apply Z.eqb_eq in Hf. apply estado_in_confirmada_pendiente_spec in He.
    now apply (Hsin r Hin Hf He). }
  rewrite Hnull, andb_true_r. f_equal.
  apply eq_true_iff_eq. rewrite existsb_exists, existe_true. split.
  - intros [o [Ho Heq]]. apply opt_eqb_eq in Heq. subst o.
    apply in_map_iff in Ho. destruct Ho as [r [Hr Hin]].
    apply filter_In in Hin. destruct Hin as [Hin Hc].
    apply andb_true_iff in Hc. destruct Hc as [Hf He].
    exists r. apply reservas_de_In. apply Z.eqb_eq in Hf.
    apply estado_in_confirmada_pendiente_spec in He. auto.
  - intros [r Hr]. apply reservas_de_In in Hr.
    destruct Hr as [Hin [Hh [Hf He]]].
    exists (habitacion r). split; [|rewrite Hh; apply opt_eqb_refl].
    apply in_map. apply filter_In. split; [exact Hin|].
    apply andb_true_iff. split; [now apply Z.eqb_eq|].
    now apply estado_in_confirmada_pendiente_spec.
Qed.

Lemma filter_filter {A : Type} (p q : A -> bool) (l : list A) :
  List.filter p (List.filter q l) = List.filter (fun x => q x && p x) l.
Proof.
  induction l as [|a l IH]; simpl; [reflexivity|].
  destruct (q a); simpl; [destruct (p a); now rewrite IH|exact IH].
Qed.

(** The view on a complete session, when nothing is posted. *)
Lemma seleccionar_habitacion_muestra (w : Mundo) (fecha : Fecha)
    (cantidad hotel_id_ : Z) (hab0 : option Z) (metodo : Metodo) (hotel : Hotel) :
  cantidad <> 0 -> hotel_id_ <> 0 ->
  Hotel_get hotel_id_ w = Ok hotel ->
  let ses := mkSesion (Some fecha) (Some cantidad) (Some hotel_id_) hab0 in
  let disponibles := seleccion_disponibles w hotel fecha cantidad in
  seleccionar_habitacion ses metodo None w
  = (Ok (Muestra "seleccionar_habitacion.html"
           (mkContextoHabitaciones
              hotel fecha cantidad disponibles
              (habitaciones_por_plazas disponibles)
              (Z.of_nat (List.length disponibles))
              (Z.of_nat (List.length (habitaciones_reservadas_en w fecha)))),
         ses), w).
Proof.
  intros Hc Hh Hhotel ses disponibles.
  unfold seleccionar_habitacion. simpl.
  destruct (cantidad =? 0) eqn:E1; [apply Z.eqb_eq in E1; contradiction|].
  destruct (hotel_id_ =? 0) eqn:E2; [apply Z.eqb_eq in E2; contradiction|].
  simpl. rewrite bind_eq, get_object_or_404_eq, Hhotel. cbn [fst snd].
  rewrite bind_consulta. destruct metodo; now rewrite bind_consulta.
Qed.

(** X19. On a complete session for an existing hotel, when every
    pendiente or confirmada reservation of the date has a room,
    [seleccionar_habitacion] shows exactly the hotel's rooms with enough
    seats that [esta_disponible] accepts on the date, each as often as
    the admin search [crear_reserva_desde_admin] has it among its
    candidates, in ascending order of seats and, within equal seats, of
    room number. *)
Theorem X19_seleccionar_habitacion_listing
    (w : Mundo) (fecha : Fecha) (cantidad hotel_id_ : Z) (hab0 : option Z)
    (hotel : Hotel) :
  (forall r, In r (reservas w) -> fecha_reserva r = fecha ->
             estado r = pendiente \/ estado r = confirmada ->
             habitacion r <> None) ->
  cantidad <> 0 -> hotel_id_ <> 0 ->
  Hotel_get hotel_id_ w = Ok hotel ->
  let ses := mkSesion (Some fecha) (Some cantidad) (Some hotel_id_) hab0 in
  exists ctx,
    seleccionar_habitacion ses GET None w
    = (Ok (Muestra "seleccionar_habitacion.html" ctx, ses), w)
    /\ ch_hotel ctx = hotel
    /\ (forall h, In h (ch_habitaciones_disponibles ctx)
                  <-> In h (habitaciones w) /\ hab_hotel h = hotel_id_
                      /\ cantidad <= cantidad_plazas h
                      /\ esta_disponible w h fecha = true)
    /\ Permutation (ch_habitaciones_disponibles ctx)
                   (List.filter (fun x => cantidad_plazas x >=? cantidad)
                                (habitaciones_disponibles w hotel (Some fecha)))
    /\ StronglySorted
         (fun a b => cantidad_plazas a < cantidad_plazas b
                     \/ (cantidad_plazas a = cantidad_plazas b
                         /\ str_leb (numero a) (numero b) = true))
         (ch_habitaciones_disponibles ctx)
    /\ ch_total_disponibles ctx
       = Z.of_nat (List.length
                     (List.filter (fun x => cantidad_plazas x >=? cantidad)
                                  (habitaciones_disponibles w hotel (Some fecha)))).
Proof.
  intros Hsin Hc Hh Hhotel ses.
  destruct (Hotel_get_Ok _ _ _ Hhotel) as [_ Hid].
  assert (Hfil : List.filter
                   (fun h => (hab_hotel h =? hotel_id hotel)
                             && (cantidad_plazas h >=? cantidad)
                             && sql_not_in (hab_id h)
                                           (habitaciones_reservadas_en w fecha))
                   (habitaciones w)
                 = List.filter (fun x => cantidad_plazas x >=? cantidad)
                               (habitaciones_disponibles w hotel (Some fecha))).
  { rewrite habitaciones_disponibles_filter. unfold habitacion_set.
    rewrite !filter_filter. apply filter_ext. intros h.
    rewrite (sql_not_in_esta_disponible w fecha h Hsin).
    destruct (hab_hotel h =? hotel_id hotel), (cantidad_plazas h >=? cantidad),
      (esta_disponible w h fecha); reflexivity. }
  assert (Hperm : Permutation (seleccion_disponibles w hotel fecha cantidad)
                    (List.filter (fun x => cantidad_plazas x >=? cantidad)
                                 (habitaciones_disponibles w hotel (Some fecha)))).
  { unfold seleccion_disponibles. rewrite Hfil. apply ordenar_Permutation. }
  eexists. split; [apply (seleccionar_habitacion_muestra w fecha cantidad hotel_id_
                            hab0 GET hotel Hc Hh Hhotel)|].
  cbn [ch_hotel ch_habitaciones_disponibles ch_total_disponibles].
  split; [reflexivity|]. split; [|split; [exact Hperm|split]].
  - intros h. unfold seleccion_disponibles. rewrite ordenar_In, Hfil, candidatas_In.
    rewrite Hid. tauto.
  - apply (StronglySorted_impl (fun a b => por_plazas_numero a b = true)).
    + intros a b. apply por_plazas_numero_spec.
    + apply ordenar_ordenado.
      * apply por_plazas_numero_total.
      * apply por_plazas_numero_trans.
  - f_equal. apply Permutation_length. exact Hperm.
Qed.

Lemma X19_seleccionar_habitacion_witness :
  exists ctx,
    seleccionar_habitacion (mkSesion (Some 200) (Some 1) (Some 1) None) GET None
                           mundo_individual
    = (Ok (Muestra "seleccionar_habitacion.html" ctx,
           mkSesion (Some 200) (Some 1) (Some 1) None), mundo_individual)
    /\ ch_hotel ctx = hotel_sol
    /\ (forall h, In h (ch_habitaciones_disponibles ctx)
                  <-> In h (habitaciones mundo_individual) /\ hab_hotel h = 1
                      /\ 1 <= cantidad_plazas h
                      /\ esta_disponible mundo_individual h 200 = true)
    /\ Permutation (ch_habitaciones_disponibles ctx)
                   (List.filter (fun x => cantidad_plazas x >=? 1)
                                (habitaciones_disponibles mundo_individual hotel_sol
                                                          (Some 200)))
    /\ StronglySorted
         (fun a b => cantidad_plazas a < cantidad_plazas b
                     \/ (cantidad_plazas a = cantidad_plazas b
                         /\ str_leb (numero a) (numero b) = true))
         (ch_habitaciones_disponibles ctx)
    /\ ch_total_disponibles ctx
       = Z.of_nat (List.length
                     (List.filter (fun x => cantidad_plazas x >=? 1)
                                  (habitaciones_disponibles mundo_individual hotel_sol
                                                            (Some 200)))).
Proof.
  apply (X19_seleccionar_habitacion_listing mundo_individual 200 1 1 None hotel_sol).
  - intros r [<-|[]] _ _. simpl. discriminate.
  - lia.
  - lia.
  - reflexivity.
Defined.

(** A NULL in the subquery makes [NOT IN] reject every row. *)
Lemma sql_not_in_null (x : Z) (valores : list (option Z)) :
  In None valores -> sql_not_in x valores = false.
Proof.
  intros H. unfold sql_not_in.
  assert (E : existsb (opt_eqb None) valores = true).
  { apply existsb_exists. exists None. split; [exact H|apply opt_eqb_refl]. }
  rewrite E. apply andb_false_r.
Qed.

(** X20. One pendiente or confirmada reservation of the date whose room
    is NULL (the room was deleted: [on_delete=SET_NULL]) empties both
    [get_habitaciones_sin_reservas] and the listing of
    [seleccionar_habitacion], for every hotel and party size, whatever
    [esta_disponible] says of the rooms: both exclude by [id NOT IN] a
    subquery that then holds a NULL. *)
Theorem X20_null_room_hides_every_room (w : Mundo) (fecha : Fecha) (r : Reserva) :
  In r (reservas w) -> fecha_reserva r = fecha ->
  estado r = pendiente \/ estado r = confirmada ->
  habitacion r = None ->
  get_habitaciones_sin_reservas w (Some fecha) = []
  /\ forall hotel cantidad, seleccion_disponibles w hotel fecha cantidad = [].
Proof.
  intros Hin Hf He Hn.
  assert (Hnull : In None (habitaciones_reservadas_en w fecha)).
  { unfold habitaciones_reservadas_en. rewrite <- Hn. apply in_map.
    apply filter_In. split; [exact Hin|]. apply andb_true_iff.
    split; [now apply Z.eqb_eq|now apply estado_in_confirmada_pendiente_spec]. }
  split.
  - unfold get_habitaciones_sin_reservas. apply filter_nada. intros h _.
    now apply sql_not_in_null.
  - intros hotel cantidad. unfold seleccion_disponibles.
    rewrite filter_nada; [reflexivity|]. intros h _.
    rewrite (sql_not_in_null _ _ Hnull). apply andb_false_r.
Qed.

Lemma X20_null_room_witness :
  let huerfana := mkReserva (Some 2) 1 200 1 None confirmada 8640000 8640000 "" in
  let w := con_reservas mundo_individual [reserva_individual; huerfana] 3 in
  esta_disponible w hab_102 200 = true
  /\ get_habitaciones_sin_reservas w (Some 200) = []
  /\ forall hotel cantidad, seleccion_disponibles w hotel 200 cantidad = [].
Proof.
  intros huerfana w. split; [reflexivity|].
  apply (X20_null_room_hides_every_room w 200 huerfana).
  - right. now left.
  - reflexivity.
  - now right.
  - reflexivity.
Defined.

(* ================================================================== *)
(** ** Step 2: the grouping by seats *)
(* ================================================================== *)

Lemma agrupar_nil (h : Habitacion) : agrupar [] h = [(cantidad_plazas h, [h])].
Proof. unfold agrupar. simpl. now rewrite Z.eqb_refl. Qed.

Lemma agrupar_cons (k : Z) (g : list Habitacion) (d : Dict (list Habitacion))
    (h : Habitacion) :
  agrupar ((k, g) :: d) h
  = if k =? cantidad_plazas h then (k, g ++ [h]) :: d
    else (k, g) :: agrupar d h.
Proof.
  unfold agrupar, dict_contains. simpl existsb.
  destruct (k =? cantidad_plazas h) eqn:E; simpl.
  - rewrite E. reflexivity.
  - rewrite ?E.
    destruct (existsb _ d); simpl; rewrite ?E;
      (destruct (dict_get _ _); simpl; rewrite ?E; reflexivity).
Qed.

Lemma dict_contains_In {V : Type} (k : Z) (d : Dict V) :
  dict_contains k d = true <-> In k (map fst d).
Proof.
  unfold dict_contains. rewrite existsb_exists, in_map_iff. split.
  - intros [kv [Hin Hk]]. apply Z.eqb_eq in Hk. now exists kv.
  - intros [kv [Hk Hin]]. exists kv. split; [exact Hin|now apply Z.eqb_eq].
Qed.

Lemma agrupar_claves (d : Dict (list Habitacion)) (h : Habitacion) :
  map fst (agrupar d h)
  = if dict_contains (cantidad_plazas h) d then map fst d
    else map fst d ++ [cantidad_plazas h].
Proof.
  induction d as [|[k g] d IH].
  - now rewrite agrupar_nil.
  - rewrite agrupar_cons. cbn [dict_contains existsb fst].
    destruct (k =? cantidad_plazas h) eqn:E; [reflexivity|].
    cbn [orb map fst]. rewrite IH. unfold dict_contains.
    now destruct (existsb _ d).
Qed.

Lemma agrupar_In (d : Dict (list Habitacion)) (h : Habitacion)
    (k : Z) (g : list Habitacion) :
  NoDup (map fst d) ->
  In (k, g) (agrupar d h) ->
  (k <> cantidad_plazas h /\ In (k, g) d)
  \/ (k = cantidad_plazas h
      /\ exists g0, g = g0 ++ [h]
                    /\ (In (k, g0) d
                        \/ (g0 = [] /\ dict_contains (cantidad_plazas h) d = false))).
Proof.
  induction d as [|[k0 g0] d IH]; intros Hnd Hin.
  - rewrite agrupar_nil in Hin. destruct Hin as [[= <- <-]|[]].
    right. split; [reflexivity|]. exists []. split; [reflexivity|]. now right.
  - rewrite agrupar_cons in Hin. inversion Hnd as [|? ? Hk0 Hnd']; subst.
    destruct (k0 =? cantidad_plazas h) eqn:E.
    + apply Z.eqb_eq in E. destruct Hin as [[= <- <-]|Hin].
      * right. split; [exact E|]. exists g0. split; [reflexivity|]. left. now left.
      * destruct (Z.eq_dec k (cantidad_plazas h)) as [Hk|Hk].
        -- exfalso. apply Hk0. subst k0. rewrite <- Hk.
           change k with (fst (k, g)). now apply in_map.
        -- left. split; [exact Hk|now right].
    + apply Z.eqb_neq in E. destruct Hin as [[= <- <-]|Hin].
      * left. split; [exact E|now left].
      * destruct (IH Hnd' Hin) as [[Hk Hd]|[Hk [g1 [Hg [Hd|[Hg1 Hc]]]]]].
        -- left. split; [exact Hk|now right].
        -- right. split; [exact Hk|]. exists g1. split; [exact Hg|]. left. now right.
        -- right. split; [exact Hk|]. exists g1. split; [exact Hg|]. right.
           split; [exact Hg1|]. cbn [dict_contains existsb fst].
           apply Z.eqb_neq in E. rewrite E. exact Hc.
Qed.

Lemma agrupar_agrupado (d : Dict (list Habitacion)) (xs : list Habitacion)
    (h : Habitacion) :
  agrupado d xs -> agrupado (agrupar d h) (xs ++ [h]).
Proof.
  intros [Hnd [Hs Hc]]. split; [|split].
  - rewrite agrupar_claves.
    destruct (dict_contains (cantidad_plazas h) d) eqn:E; [exact Hnd|].
    apply (Permutation_NoDup (Permutation_cons_append _ _)).
    constructor; [|exact Hnd]. intros Hin. apply dict_contains_In in Hin. congruence.
  - intros k g Hin. rewrite filter_app. cbn [List.filter].
    destruct (agrupar_In d h k g Hnd Hin) as [[Hk Hd]|[Hk [g0 [Hg [Hd|[Hg0 Hcn]]]]]].
    + destruct (Hs k g Hd) as [Hg Hne].
      assert (E : (cantidad_plazas h =? k) = false) by (apply Z.eqb_neq; congruence).
      rewrite E, app_nil_r. now split.
    + destruct (Hs k g0 Hd) as [Hg0 _]. subst k. rewrite Z.eqb_refl, <- Hg0.
      split; [exact Hg|]. subst g. now destruct g0.
    + subst k g g0. rewrite Z.eqb_refl. split; [|discriminate].
      rewrite filter_nada; [reflexivity|]. intros x Hx.
      apply Z.eqb_neq. intros Heq. apply Hc in Hx. rewrite Heq in Hx.
      apply dict_contains_In in Hx. congruence.
  - intros x Hx. rewrite agrupar_claves. apply in_app_iff in Hx.
    destruct (dict_contains (cantidad_plazas h) d) eqn:E.
    + destruct Hx as [Hx|[<-|[]]]; [now apply Hc|now apply dict_contains_In].
    + apply in_app_iff. destruct Hx as [Hx|[<-|[]]]; [left; now apply Hc|].
      right. now left.
Qed.

Lemma bucle_agrupado (l xs : list Habitacion) (d : Dict (list Habitacion)) :
  agrupado d xs -> agrupado (fold_left agrupar l d) (xs ++ l).
Proof.
  revert xs d. induction l as [|h l IH]; intros xs d H; simpl.
  - now rewrite app_nil_r.
  - replace (xs ++ h :: l) with ((xs ++ [h]) ++ l) by now rewrite <- app_assoc.
    apply IH. now apply agrupar_agrupado.
Qed.

Lemma ordenado_estricto {V : Type} (d : Dict V) :
  NoDup (map fst d) ->
  StronglySorted (fun a b => (fst a <=? fst b) = true) d ->
  StronglySorted (fun a b => fst a < fst b) d.
Proof.
  induction d as [|a d IH]; intros Hnd Hs; [constructor|].
  inversion Hnd as [|? ? Ha Hnd']; subst. inversion Hs as [|? ? Hs' Hall]; subst.
  constructor; [now apply IH|].
  rewrite Forall_forall in *. intros b Hb. specialize (Hall b Hb).
  apply Z.leb_le in Hall.
  assert (fst a <> fst b) by (intros E; apply Ha; rewrite E; now apply in_map).
  lia.
Qed.

(** X21. The dict [habitaciones_por_plazas] built from a listing has its
    keys in strictly ascending order, and [(k, g)] is one of its items
    exactly when [g] is the rooms of the listing with [k] seats, in the
    listing's order, and there is at least one: every listed room is in
    the group of its seat count and in no other. *)
Theorem X21_habitaciones_por_plazas_partition (l : list Habitacion) :
  StronglySorted (fun a b => fst a < fst b) (habitaciones_por_plazas l)
  /\ (forall k g,
        In (k, g) (habitaciones_por_plazas l)
        <-> g = List.filter (fun h => cantidad_plazas h =? k) l /\ g <> [])
  /\ (forall h, In h l ->
                dict_get (cantidad_plazas h) (habitaciones_por_plazas l)
                = Some (List.filter (fun x => cantidad_plazas x =? cantidad_plazas h) l)).
Proof.
  assert (Hinv : agrupado (fold_left agrupar l []) l).
  { apply (bucle_agrupado l [] []). split; [constructor|]. split; intros; contradiction. }
  destruct Hinv as [Hnd [Hs Hc]].
  set (d := fold_left agrupar l []) in *.
  assert (Hperm : Permutation (habitaciones_por_plazas l) d)
    by apply ordenar_Permutation.
  assert (Hnd' : NoDup (map fst (habitaciones_por_plazas l))).
  { apply (Permutation_NoDup (Permutation_map fst (Permutation_sym Hperm))). exact Hnd. }
  assert (Hiff : forall k g,
             In (k, g) (habitaciones_por_plazas l)
             <-> g = List.filter (fun h => cantidad_plazas h =? k) l /\ g <> []).
  { intros k g. unfold habitaciones_por_plazas. fold d. rewrite ordenar_In. split.
    - apply Hs.
    - intros [Hg Hne].
      destruct g as [|x g']; [contradiction|].
      assert (Hx : In x (List.filter (fun h => cantidad_plazas h =? k) l))
        by (rewrite <- Hg; now left).
      apply filter_In in Hx. destruct Hx as [Hx Hk]. apply Z.eqb_eq in Hk.
      apply Hc in Hx. apply in_map_iff in Hx. destruct Hx as [[k' g''] [Hk' Hin]].
      simpl in Hk'. subst k'. rewrite Hk in Hin.
      destruct (Hs k g'' Hin) as [Hg'' _]. rewrite Hg. now rewrite <- Hg''. }
  split; [|split; [exact Hiff|]].
  - apply ordenado_estricto; [exact Hnd'|].
    apply ordenar_ordenado.
    + intros a b. rewrite !Z.leb_le. lia.
    + intros a b c. rewrite !Z.leb_le. lia.
  - intros h Hh.
    assert (Hin : In (cantidad_plazas h,
                      List.filter (fun x => cantidad_plazas x =? cantidad_plazas h) l)
                     (habitaciones_por_plazas l)).
    { apply Hiff. split; [reflexivity|]. intros E.
      assert (Hf : In h (List.filter
                           (fun x => cantidad_plazas x =? cantidad_plazas h) l))
        by (apply filter_In; split; [exact Hh|apply Z.eqb_refl]).
      rewrite E in Hf. contradiction. }
    revert Hnd' Hin. generalize (habitaciones_por_plazas l).
    generalize (List.filter (fun x => cantidad_plazas x =? cantidad_plazas h) l).
    generalize (cantidad_plazas h). clear.
    intros k g d. induction d as [|[k0 g0] d IH]; intros Hnd Hin; [contradiction|].
    inversion Hnd as [|? ? Hk0 Hnd']; subst. simpl.
    destruct Hin as [[= -> ->]|Hin].
    + now rewrite Z.eqb_refl.
    + destruct (k0 =? k) eqn:E; [|now apply IH].
      apply Z.eqb_eq in E. subst k0. exfalso. apply Hk0.
      change k with (fst (k, g)). now apply in_map.
Qed.

(* ================================================================== *)
(** ** The three steps in sequence *)
(* ================================================================== *)

(** Step 2 hands over the posted room as soon as it exists. *)
Lemma seleccionar_habitacion_redirige (ses ses' : Sesion) (metodo : Metodo)
    (post_habitacion_id : option Z) (w : Mundo) :
  fst (seleccionar_habitacion ses metodo post_habitacion_id w)
  = Ok (Redirige "completar_reserva", ses')
  <-> metodo = POST
      /\ exists fecha cantidad hotel_id_ habitacion_id hotel hab,
           ses = mkSesion (Some fecha) (Some cantidad) (Some hotel_id_)
                          (ses_habitacion_id ses)
           /\ cantidad <> 0 /\ hotel_id_ <> 0
           /\ post_habitacion_id = Some habitacion_id
           /\ Hotel_get hotel_id_ w = Ok hotel
           /\ Habitacion_get habitacion_id w = Ok hab
           /\ ses' = mkSesion (Some fecha) (Some cantidad) (Some hotel_id_)
                              (Some habitacion_id).
Proof.
  split.
  - destruct ses as [[fecha|] [cantidad|] [hid|] hab0];
      try (cbn; discriminate).
    unfold seleccionar_habitacion.
    cbn [ses_fecha_reserva ses_cantidad_personas ses_hotel_id ses_habitacion_id].
    destruct (verdadero (Some cantidad)) eqn:Ec; [|cbn; discriminate].
    destruct (verdadero (Some hid)) eqn:Eh; [|cbn; discriminate].
    cbn [andb]. rewrite bind_eq, get_object_or_404_eq. cbn [fst snd].
    destruct (Hotel_get hid w) as [hotel|e] eqn:Eho; [|destruct e; discriminate].
    rewrite bind_consulta.
    destruct metodo; [rewrite bind_consulta; cbn; discriminate|].
    destruct post_habitacion_id as [habid|]; [|rewrite bind_consulta; cbn; discriminate].
    rewrite bind_eq, get_object_or_404_eq. cbn [fst snd].
    destruct (Habitacion_get habid w) as [hab|e] eqn:Eha; [|destruct e; discriminate].
    cbn [ret fst]. intros [= <-]. split; [reflexivity|].
    exists fecha, cantidad, hid, habid, hotel, hab.
    simpl in Ec, Eh. apply negb_true_iff in Ec, Eh. apply Z.eqb_neq in Ec, Eh.
    repeat split; auto.
  - intros [-> [fecha [cantidad [hid [habid [hotel [hab
             [Hses [Hc [Hh [-> [Hho [Hha ->]]]]]]]]]]]]].
    rewrite Hses. unfold seleccionar_habitacion.
    cbn [ses_fecha_reserva ses_cantidad_personas ses_hotel_id ses_habitacion_id
         verdadero].
    apply Z.eqb_neq in Hc, Hh. rewrite Hc, Hh. cbn [negb andb].
    rewrite bind_eq, get_object_or_404_eq, Hho. cbn [fst snd].
    rewrite bind_consulta, bind_eq, get_object_or_404_eq, Hha. reflexivity.
Qed.

(** A complete POST to step 3 with a guest that resolves. *)
Lemma completar_reserva_crea (w : Mundo) (fecha : Fecha)
    (cantidad hotel_id_ habitacion_id : Z) (f : Formulario)
    (hotel : Hotel) (hab : Habitacion) (hu : Huesped) :
  cantidad <> 0 -> hotel_id_ <> 0 ->
  Hotel_get hotel_id_ w = Ok hotel ->
  Habitacion_get habitacion_id w = Ok hab ->
  fst (resolver_huesped f w) = Ok hu ->
  completar_reserva (mkSesion (Some fecha) (Some cantidad) (Some hotel_id_)
                              (Some habitacion_id)) POST f w
  = (Ok (Redirect "detalle_reserva" (Some (sec_reserva w)), sesion_limpia),
     con_mensaje
       (con_reservas (snd (resolver_huesped f w))
          (reservas w
           ++ [mkReserva (Some (sec_reserva w)) (hue_id hu) fecha cantidad
                         (Some (hab_id hab)) pendiente (ahora w) (ahora w) ""])
          (sec_reserva w + 1))
       (SUCCESS, "✅ Reserva creada exitosamente. Número de reserva: #"
                 ^^ str (sec_reserva w))).
Proof.
  intros Hc Hh Hhotel Hhab Hhu.
  destruct (resolver_huesped_reservas f w) as [Hr [Hs Ha]].
  unfold completar_reserva. simpl.
  destruct (cantidad =? 0) eqn:E1; [apply Z.eqb_eq in E1; contradiction|].
  destruct (hotel_id_ =? 0) eqn:E2; [apply Z.eqb_eq in E2; contradiction|].
  simpl. unfold bind at 1. unfold get_object_or_404 at 1. rewrite Hhotel.
  unfold bind at 1. unfold get_object_or_404 at 1. rewrite Hhab.
  rewrite bind_eq, Hhu.
  unfold bind at 1. rewrite Reserva_create_pendiente.
  unfold bind, message_user, ret. cbn [pk str_id].
  rewrite Hr, Hs, Ha. reflexivity.
Qed.

(** X22. When step 1 redirects in world [w1], step 2 redirects with the
    session of step 1 in world [w2], and step 3 answers a POST with the
    session of step 2 without an exception in world [w3], then step 3
    appends one pendiente reservation with the next key: for the posted
    room, which exists in [w3]; for the date parsed in step 1, which lies
    within 365 days from the day of step 1; and for the party size parsed
    in step 1, which is not zero.  The room's hotel, seats and
    availability are not looked at. *)
Theorem X22_guest_flow_creates_reservation
    (strptime : string -> option Fecha) (int : string -> option Z)
    (ses0 ses1 ses2 ses3 : Sesion) (m1 m2 : Metodo)
    (post_fecha_reserva post_cantidad_personas : option string)
    (hotel_id_ : Z) (post_habitacion_id : option Z) (f : Formulario)
    (w1 w2 w3 : Mundo) (pag : Respuesta) :
  fst (reservar_hotel strptime int ses0 m1 post_fecha_reserva
                      post_cantidad_personas hotel_id_ w1)
  = Ok (Redirige "seleccionar_habitacion", ses1) ->
  fst (seleccionar_habitacion ses1 m2 post_habitacion_id w2)
  = Ok (Redirige "completar_reserva", ses2) ->
  fst (completar_reserva ses2 POST f w3) = Ok (pag, ses3) ->
  exists s1 s2 d n hab hu,
    post_fecha_reserva = Some s1 /\ strptime s1 = Some d
    /\ post_cantidad_personas = Some s2 /\ int s2 = Some n
    /\ hoy w1 <= d <= hoy w1 + 365 /\ n <> 0
    /\ post_habitacion_id = Some (hab_id hab) /\ In hab (habitaciones w3)
    /\ fst (resolver_huesped f w3) = Ok hu
    /\ reservas (snd (completar_reserva ses2 POST f w3))
       = reservas w3
         ++ [mkReserva (Some (sec_reserva w3)) (hue_id hu) d n
                       (Some (hab_id hab)) pendiente (ahora w3) (ahora w3) ""]
    /\ pag = Redirect "detalle_reserva" (Some (sec_reserva w3))
    /\ ses3 = sesion_limpia.
Proof.
  intros H1 H2 H3.
  destruct (reservar_hotel_casos strptime int ses0 m1 post_fecha_reserva
              post_cantidad_personas hotel_id_ w1) as [Hred _].
  apply Hred in H1.
  destruct H1 as [_ [_ [s1 [s2 [d [n [Hpf [Hpc [_ [_ [Hs [Hd [Hn Hses1]]]]]]]]]]]]].
  apply seleccionar_habitacion_redirige in H2.
  destruct H2 as [_ [fecha [cantidad [hid [habid [hotel2 [hab2
                   [Hs1 [Hc [Hh [Hpost [_ [_ Hses2]]]]]]]]]]]]].
  rewrite Hses1 in Hs1. injection Hs1 as <- <- <-.
  subst ses2.
  assert (Hex : exists hotel hab hu,
             Hotel_get hotel_id_ w3 = Ok hotel
             /\ Habitacion_get habid w3 = Ok hab
             /\ fst (resolver_huesped f w3) = Ok hu).
  { revert H3. unfold completar_reserva. simpl.
    destruct (n =? 0) eqn:E1; [apply Z.eqb_eq in E1; contradiction|].
    destruct (hotel_id_ =? 0) eqn:E2; [apply Z.eqb_eq in E2; contradiction|].
    simpl. rewrite bind_eq, get_object_or_404_eq. cbn [fst snd].
    destruct (Hotel_get hotel_id_ w3) as [hotel|e]; [|destruct e; discriminate].
    rewrite bind_eq, get_object_or_404_eq. cbn [fst snd].
    destruct (Habitacion_get habid w3) as [hab|e]; [|destruct e; discriminate].
    rewrite bind_eq.
    destruct (fst (resolver_huesped f w3)) as [hu|e]; [|discriminate].
    intros _. now exists hotel, hab, hu. }
  destruct Hex as [hotel [hab [hu [Hho [Hha Hhu]]]]].
  destruct (Habitacion_get_Ok _ _ _ Hha) as [Hin Hid].
  rewrite (completar_reserva_crea w3 d n hotel_id_ habid f hotel hab hu
             Hc Hh Hho Hha Hhu) in H3 |- *.
  cbn [fst snd] in H3. injection H3 as <- <-.
  exists s1, s2, d, n, hab, hu. rewrite Hid.
  repeat split; try assumption; try lia.
Qed.

Lemma X22_guest_flow_witness :
  exists s1 s2 d n hab hu,
    Some "2026-07-20" = Some s1 /\ (fun _ : string => Some 200) s1 = Some d
    /\ Some "2" = Some s2 /\ (fun _ : string => Some 2) s2 = Some n
    /\ hoy mundo_individual <= d <= hoy mundo_individual + 365 /\ n <> 0
    /\ Some 1 = Some (hab_id hab) /\ In hab (habitaciones mundo_individual)
    /\ fst (resolver_huesped formulario_ana mundo_individual) = Ok hu
    /\ reservas (snd (completar_reserva
                        (mkSesion (Some 200) (Some 2) (Some 1) (Some 1))
                        POST formulario_ana mundo_individual))
       = reservas mundo_individual
         ++ [mkReserva (Some (sec_reserva mundo_individual)) (hue_id hu) d n
                       (Some (hab_id hab)) pendiente (ahora mundo_individual)
                       (ahora mundo_individual) ""]
    /\ Redirect "detalle_reserva" (Some 2)
       = Redirect "detalle_reserva" (Some (sec_reserva mundo_individual))
    /\ sesion_limpia = sesion_limpia.
Proof.
  apply (X22_guest_flow_creates_reservation
           (fun _ => Some 200) (fun _ => Some 2)
           sesion_limpia (mkSesion (Some 200) (Some 2) (Some 1) None)
           (mkSesion (Some 200) (Some 2) (Some 1) (Some 1)) sesion_limpia
           POST POST (Some "2026-07-20") (Some "2") 1 (Some 1) formulario_ana
           mundo_individual mundo_individual mundo_individual
           (Redirect "detalle_reserva" (Some 2))).
  - reflexivity.
  - reflexivity.
  - reflexivity.
Defined.

(* ================================================================== *)
(** ** What the admin operations keep, and what the bulk confirmation does *)
(* ================================================================== *)

(** X23. Starting from a store with valid keys in which no room has two
    pendiente or confirmada reservations on one date, any sequence of
    calls of [crear_reserva_desde_admin], [cambiar_habitacion_reserva],
    [confirmar_reserva], [confirmar_reservas], [confirmar_reserva_masiva],
    [cancelar_reserva] and [cancelar_reservas] (the two actions on
    selections of stored rows), whatever their arguments and outcomes,
    ends in a store with valid keys and the same exclusivity. *)
Theorem X23_admin_operations_keep_exclusivity (w w' : Mundo) :
  claves_validas w -> exclusividad w -> pasos w w' ->
  claves_validas w' /\ exclusividad w'.
Proof.
  intros Hcl Hex Hp.
  assert (H : invariante w').
  { induction Hp as [|w1 w2 _ IH Hstep]; [now split|].
    exact (paso_invariante w1 w2 IH Hstep). }
  exact H.
Qed.

Lemma X23_admin_operations_witness :
  let w1 := snd (crear_reserva_desde_admin 1 200 2 1 None mundo_abierto) in
  let w2 := snd (crear_reserva_desde_admin 1 200 2 1 (Some 1) w1) in
  let w3 := snd (cancelar_reserva 1 w2) in
  claves_validas w3 /\ exclusividad w3.
Proof.
  intros w1 w2 w3.
  apply (X23_admin_operations_keep_exclusivity mundo_abierto w3).
  - split; [simpl; lia|split; [constructor|intros r []]].
  - now apply exclusividad_sin_reservas.
  - apply (pasos_mas _ w2); [apply (pasos_mas _ w1); [apply (pasos_mas _ mundo_abierto);
                                                      [apply pasos_nada|]|]|].
    + apply paso_crear_reserva_desde_admin.
    + apply paso_crear_reserva_desde_admin.
    + apply paso_cancelar_reserva.
Defined.

(** X24. [confirmar_reserva_masiva] never raises and never writes: for
    every list of ids, stored or not, in any status, it returns zero
    confirmations and one failure text per id, and leaves the store as it
    was. *)
Theorem X24_confirmar_reserva_masiva_confirms_nothing (w : Mundo) (ids : list Z) :
  exists fallidas,
    confirmar_reserva_masiva ids w = (Ok (0, fallidas), w)
    /\ List.length fallidas = List.length ids.
Proof. apply confirmar_reserva_masiva_nunca_confirma. Qed.
